(** * Intake monitoring and colour sorting (Vex / PROS sample code)

    A shallow embedding of the three sample programs of the repository:

    - [HighStakes]: [SampleCode/HighStakes-MonitorIntake-Pros.cpp], the
      stall monitor with a spin-up grace period and a [reversing] flag.
      The file holds it twice: once with a toggle-style [opcontrol] and
      the pair [startMonitoringTask]/[stopMonitoringTask], once with an
      [opcontrol] that runs the intake while R1 is held;
    - [Part000]: the earlier monitor without grace period or flag, which
      waits on [is_stopped()], with its [opcontrol];
    - [ColorSort]: [detectColor] and [colorSortTask];
    - [ColorSortProgram]: [startColorSortTask], [stopColorSortTask] and
      the [opcontrol] of the colour sorting sample.

    Every task is an endless polling loop.  A task is modelled by the
    function that runs it from one wake-up to its next [pros::delay]; the
    answers of the hardware (velocity, stopped flag, hue) are taken from
    lists of future readings, and every call that reaches the motor, the
    LCD or the controller screen is recorded as an event.

    Conventions of the model:
    - a [double] is a rational number (no NaN, no infinity); an [int] is
      an integer, none of the constants overflows;
    - the unqualified [abs] of the monitors is a parameter: the C
      function on [int], which drops the fraction of the reading first
      (every reading fits an [int]), or the overload on [double];
    - [get_target_velocity()] returns the velocity last commanded, by
      [move_velocity] or as the speed of [move_relative];
    - tasks take turns at their delays only: between two delays a task
      runs undisturbed, and a schedule is a list of turns;
    - [new pros::Task] hands a new task to the RTOS, [remove()] takes it
      away at once. *)

From Stdlib Require Import ZArith QArith Qabs List Bool String Lia Lqa.
From stdpp Require Import base option gmap.
Import ListNotations.

Local Open Scope Z_scope.

(* ===================================================================== *)
(** ** The PROS calls used by the samples *)
(* ===================================================================== *)

Module Pros.

(** What a task does to the outside world, in the order it does it. *)
Inductive Event : Type :=
| MoveVelocity (velocity : Z)              (* motor.move_velocity(velocity) *)
| MoveRelative (position velocity : Z)     (* motor.move_relative(position, velocity) *)
| Delay (ms : Z)                           (* pros::delay(ms) *)
| LcdPrint (line : Z) (text : string)      (* pros::lcd::print(line, text) *)
| LcdPrintVelocity (line : Z) (fmt : string) (value : Q)
                                           (* pros::lcd::print(line, fmt, value) *)
| SetText (line col : Z) (text : string).  (* mainController.set_text(line, col, text) *)

(** The motor and sensors as a task sees them.  [target_velocity] is what
    [get_target_velocity()] returns: the velocity last commanded, by
    [move_velocity] or as the speed of a [move_relative].  The three lists
    are the values the next calls of [get_actual_velocity()],
    [is_stopped()] and [get_hue()] will return. *)
Record Env : Type := mkEnv {
  target_velocity : Z;
  velocities : list Q;
  stopped : list bool;
  hues : list Q
}.

(** A computation on a state [St] that may run out of readings ([None])
    and reports the events it produced. *)
Definition Prog (St A : Type) : Type := St -> option (A * St * list Event).

Definition ret {St A} (a : A) : Prog St A := fun s => Some (a, s, []).

Definition bind {St A B} (m : Prog St A) (f : A -> Prog St B) : Prog St B :=
  fun s =>
    match m s with
    | None => None
    | Some (a, s1, l1) =>
        match f a s1 with
        | None => None
        | Some (b, s2, l2) => Some (b, s2, l1 ++ l2)
        end
    end.

Definition emit {St} (e : Event) : Prog St unit := fun s => Some (tt, s, [e]).

Definition set_target (v : Z) (e : Env) : Env :=
  mkEnv v (velocities e) (stopped e) (hues e).

Definition get_actual_velocity : Prog Env Q := fun e =>
  match velocities e with
  | [] => None
  | v :: rest => Some (v, mkEnv (target_velocity e) rest (stopped e) (hues e), [])
  end.

Definition is_stopped : Prog Env bool := fun e =>
  match stopped e with
  | [] => None
  | b :: rest => Some (b, mkEnv (target_velocity e) (velocities e) rest (hues e), [])
  end.

Definition get_hue : Prog Env Q := fun e =>
  match hues e with
  | [] => None
  | h :: rest => Some (h, mkEnv (target_velocity e) (velocities e) (stopped e) rest, [])
  end.

Definition get_target_velocity : Prog Env Z := fun e =>
  Some (target_velocity e, e, []).

Definition move_velocity (v : Z) : Prog Env unit := fun e =>
  Some (tt, set_target v e, [MoveVelocity v]).

Definition move_relative (position velocity : Z) : Prog Env unit := fun e =>
  Some (tt, set_target velocity e, [MoveRelative position velocity]).

Definition delay {St} (ms : Z) : Prog St unit := emit (Delay ms).

(** [a < b] on the rationals, as a boolean. *)
Definition Qltb (a b : Q) : bool := negb (Qle_bool b a).

(** Conversion of a [double] to [int]: the fraction is dropped. *)
Definition Qtruncate (q : Q) : Z := Z.quot (Qnum q) (Zpos (Qden q)).

(** The monitors call an unqualified [abs] on a [double].  Which function
    that is depends on the headers in scope, which the sources do not
    hold: [int abs(int)] of the C library, which first cuts the reading
    down to an [int], or the [double] overload of the C++ library. *)
Inductive AbsOverload : Type := abs_int | abs_double.

Definition abs (o : AbsOverload) (x : Q) : Q :=
  match o with
  | abs_int => inject_Z (Z.abs (Qtruncate x))
  | abs_double => Qabs x
  end.

Arguments abs : simpl never.

(** The instant at which each event of a log is issued, when the log
    starts at [now] and only [Delay] lets time pass. *)
Fixpoint timeline (now : Z) (l : list Event) : list (Z * Event) :=
  match l with
  | [] => []
  | Delay ms :: rest => (now, Delay ms) :: timeline (now + ms) rest
  | e :: rest => (now, e) :: timeline now rest
  end.

(** Events that command the motor. *)
Definition is_motor_command (e : Event) : bool :=
  match e with
  | MoveVelocity _ | MoveRelative _ _ => true
  | _ => false
  end.

Definition motor_commands (l : list Event) : list Event :=
  List.filter is_motor_command l.

End Pros.

Import Pros.

Declare Scope prog_scope.
Delimit Scope prog_scope with prog.
Notation "x <- c ;; k" := (bind c (fun x => k))
  (at level 90, c at next level, right associativity) : prog_scope.
Notation "c ;;; k" := (bind c (fun _ => k))
  (at level 90, right associativity) : prog_scope.
Local Open Scope prog_scope.

(* ===================================================================== *)
(** ** SampleCode/HighStakes-MonitorIntake-Pros.cpp: the stall monitor *)
(* ===================================================================== *)

Module HighStakes.

(** The file holds the monitor twice; the two copies differ in their
    constants only.  [SPIN_UP_GRACE] is the argument of the first
    [pros::delay]: the first copy names it [SPIN_UP_GRACE] and declares
    [SPIN_UP_GRACE_MS_MS = 1000], the second writes [200].  [ABS] is the
    function the call [abs(...)] resolves to. *)
Record Config : Type := mkConfig {
  SPIN_UP_GRACE : Z;
  DESIRED_VELOCITY : Z;
  ABS : AbsOverload
}.

(** The two copies as built with the pros headers they include alone,
    where [abs] is [int abs(int)]. *)
Definition toggle_variant : Config := mkConfig 1000 600 abs_int.
Definition hold_variant : Config := mkConfig 200 200 abs_int.

Definition VELOCITY_THRESHOLD : Z := 50.
Definition REVERSE_DEGREES : Z := 90.
Definition REVERSE_SPEED : Z := -100.

(** Where a suspended monitor will resume: at the head of [while (true)]
    (after the grace delay or after [pros::delay(20)]), or inside the
    inner loop that waits for the reverse motion (after [pros::delay(10)]). *)
Inductive Pc : Type := AtLoopHead | InReverseWait.

(** The locals of [intake_monitor_task_function] with the resume point. *)
Record Task : Type := mkTask {
  pc : Pc;
  reversing : bool;
  spin_up_grace : bool
}.

(** A freshly created task: [reversing = false], [spin_up_grace = true]. *)
Definition new_task : Task := mkTask AtLoopHead false true.

(** Which branch of the loop body a resumption took. *)
Inductive Outcome : Type :=
| GraceSkip    (* the [if (spin_up_grace)] branch: delay and [continue] *)
| Stuck        (* the stuck check held: reversal issued *)
| NotStuck     (* the stuck check did not hold *)
| Waiting.     (* resumed inside the wait loop: no stuck check made *)

Section Monitor.
Variable cfg : Config.

(** The wait loop and what follows it:
    [while (abs(get_actual_velocity()) > 1) pros::delay(10);]
    [move_velocity(DESIRED_VELOCITY); reversing = false; pros::delay(20);]
    One call evaluates the loop condition once. *)
Definition wait_for_reverse (t : Task) : Prog Env Task :=
  v <- get_actual_velocity ;;
  if Qltb 1 (abs (ABS cfg) v) then
    delay 10 ;;;
    ret (mkTask InReverseWait (reversing t) (spin_up_grace t))
  else
    move_velocity (DESIRED_VELOCITY cfg) ;;;
    delay 20 ;;;
    ret (mkTask AtLoopHead false (spin_up_grace t)).

(** [!reversing && abs(current_velocity) < VELOCITY_THRESHOLD &&
    intake_motor.get_target_velocity() != 0], left to right. *)
Definition stuck_check (t : Task) (current_velocity : Q) : Prog Env bool :=
  if negb (reversing t)
     && Qltb (abs (ABS cfg) current_velocity) (inject_Z VELOCITY_THRESHOLD) then
    target <- get_target_velocity ;;
    ret (negb (target =? 0))
  else ret false.

(** One pass through the body of [while (true)], up to the first delay
    at which the task suspends.  Assignments to locals that follow that
    delay ([spin_up_grace = false]) are made before suspending: no other
    task can see them. *)
Definition loop_head (t : Task) : Prog Env (Outcome * Task) :=
  current_velocity <- get_actual_velocity ;;
  if spin_up_grace t then
    delay (SPIN_UP_GRACE cfg) ;;;
    ret (GraceSkip, mkTask AtLoopHead (reversing t) false)
  else
    stuck <- stuck_check t current_velocity ;;
    if stuck then
      emit (LcdPrint 0 "Intake stuck! Reversing...") ;;;
      emit (LcdPrintVelocity 2 "Current velocity: %.2f" current_velocity) ;;;
      move_relative (- REVERSE_DEGREES) REVERSE_SPEED ;;;
      t' <- wait_for_reverse (mkTask (pc t) true (spin_up_grace t)) ;;
      ret (Stuck, t')
    else
      delay 20 ;;;
      ret (NotStuck, t).

(** [intake_monitor_task_function], from one wake-up of the task to its
    next suspension. *)
Definition intake_monitor_task_function (t : Task) : Prog Env (Outcome * Task) :=
  match pc t with
  | AtLoopHead => loop_head t
  | InReverseWait => t' <- wait_for_reverse t ;; ret (Waiting, t')
  end.

(** [n] wake-ups in a row, with the branches taken. *)
Fixpoint run (n : nat) (t : Task) : Prog Env (list Outcome * Task) :=
  match n with
  | O => ret ([], t)
  | S k =>
      r <- intake_monitor_task_function t ;;
      rs <- run k (snd r) ;;
      ret (fst r :: fst rs, snd rs)
  end.

(** *** The operator loop and the task handle *)

Inductive IntakeDirection : Type := FORWARD | BACKWARD | STOPPED.

(** The whole program: the motor, the globals [intake_direction] and
    [intake_monitor_task] ([None] is [nullptr]), and the tasks the RTOS
    currently manages, by handle.  [next_handle] is the handle the next
    [new pros::Task] gets. *)
Record System : Type := mkSystem {
  env : Env;
  intake_direction : IntakeDirection;
  intake_monitor_task : option nat;
  kernel : gmap nat Task;
  next_handle : nat
}.

Definition lift {A} (m : Prog Env A) : Prog System A := fun s =>
  match m (env s) with
  | None => None
  | Some (a, e, l) =>
      Some (a, mkSystem e (intake_direction s) (intake_monitor_task s)
                        (kernel s) (next_handle s), l)
  end.

Definition set_direction (d : IntakeDirection) : Prog System unit := fun s =>
  Some (tt, mkSystem (env s) d (intake_monitor_task s) (kernel s) (next_handle s), []).

(** [new pros::Task(intake_monitor_task_function, ...)]: the RTOS starts
    to manage a new task, which begins with fresh locals. *)
Definition task_create : Prog System nat := fun s =>
  let h := next_handle s in
  Some (h, mkSystem (env s) (intake_direction s) (intake_monitor_task s)
                    (<[h := new_task]> (kernel s)) (S h), []).

(** [task->remove()]: the task leaves the RTOS' management at once and
    is never resumed again. *)
Definition task_remove (h : nat) : Prog System unit := fun s =>
  Some (tt, mkSystem (env s) (intake_direction s) (intake_monitor_task s)
                     (delete h (kernel s)) (next_handle s), []).

Definition set_intake_monitor_task (p : option nat) : Prog System unit := fun s =>
  Some (tt, mkSystem (env s) (intake_direction s) p (kernel s) (next_handle s), []).

Definition startMonitoringTask : Prog System unit := fun s =>
  match intake_monitor_task s with
  | None => (h <- task_create ;; set_intake_monitor_task (Some h)) s
  | Some _ => ret tt s
  end.

Definition stopMonitoringTask : Prog System unit := fun s =>
  match intake_monitor_task s with
  | Some h => (task_remove h ;;; set_intake_monitor_task None) s
  | None => ret tt s
  end.

(** One pass through the body of [opcontrol]'s loop; the arguments are
    the answers of [controller_get_digital_new_press] for R1 and A. *)
Definition opcontrol (r1_new_press a_new_press : bool) : Prog System unit :=
  (if r1_new_press then
     fun s =>
       match intake_direction s with
       | FORWARD =>
           (lift (move_velocity 0) ;;;
            set_direction STOPPED ;;;
            stopMonitoringTask) s
       | _ =>
           (lift (move_velocity (DESIRED_VELOCITY cfg)) ;;;
            set_direction FORWARD ;;;
            startMonitoringTask) s
       end
   else ret tt) ;;;
  (if a_new_press then
     fun s =>
       match intake_direction s with
       | BACKWARD =>
           (lift (move_velocity 0) ;;;
            set_direction STOPPED ;;;
            stopMonitoringTask) s
       | _ =>
           (lift (move_velocity (- DESIRED_VELOCITY cfg)) ;;;
            set_direction BACKWARD ;;;
            stopMonitoringTask) s
       end
   else ret tt) ;;;
  delay 20.

(** The RTOS resumes the task with handle [h], if it manages one. *)
Definition resume_task (h : nat) : Prog System Outcome := fun s =>
  match kernel s !! h with
  | None => None
  | Some t =>
      match intake_monitor_task_function t (env s) with
      | None => None
      | Some ((o, t'), e, l) =>
          Some (o, mkSystem e (intake_direction s) (intake_monitor_task s)
                            (<[h := t']> (kernel s)) (next_handle s), l)
      end
  end.

(** Who runs next: the operator loop with its two button answers, or the
    task with a given handle. *)
Inductive Turn : Type :=
| Operator (r1_new_press a_new_press : bool)
| MonitorTask (h : nat).

Definition turn (x : Turn) : Prog System unit :=
  match x with
  | Operator r1 a => opcontrol r1 a
  | MonitorTask h => resume_task h ;;; ret tt
  end.

Fixpoint schedule (l : list Turn) : Prog System unit :=
  match l with
  | [] => ret tt
  | x :: rest => turn x ;;; schedule rest
  end.

(** The program when [opcontrol] is entered: no monitor, intake stopped. *)
Definition boot (e : Env) : System := mkSystem e STOPPED None ∅ 0%nat.

(** *** The operator loop of the second copy

    The second copy of the monitor comes with an [opcontrol] that runs the
    intake while R1 is held.  It has no [intake_direction] and writes the
    bodies of [startMonitoringTask] and [stopMonitoringTask] in place.  The
    argument is the answer of [controller_get_digital] for R1. *)
Definition opcontrol_hold (r1_pressed : bool) : Prog System unit :=
  (if r1_pressed then
     lift (move_velocity (DESIRED_VELOCITY cfg)) ;;;
     startMonitoringTask
   else
     lift (move_velocity 0) ;;;
     stopMonitoringTask) ;;;
  delay 20.

Inductive HoldTurn : Type :=
| HoldOperator (r1_pressed : bool)
| HoldMonitor (h : nat).

Definition hold_turn (x : HoldTurn) : Prog System unit :=
  match x with
  | HoldOperator r1 => opcontrol_hold r1
  | HoldMonitor h => resume_task h ;;; ret tt
  end.

Fixpoint hold_schedule (l : list HoldTurn) : Prog System unit :=
  match l with
  | [] => ret tt
  | x :: rest => hold_turn x ;;; hold_schedule rest
  end.

End Monitor.

End HighStakes.

(* ===================================================================== *)
(** ** The earlier monitor: no grace period, no flag, waits on is_stopped *)
(* ===================================================================== *)

Module Part000.

Definition desired_velocity : Z := 200.
Definition velocity_threshold : Z := 50.
Definition reverse_degrees : Z := 90.
Definition reverse_speed : Z := -100.

(** Where the suspended task resumes: at the head of [while (true)], or in
    [while (!intake_motor.is_stopped()) pros::delay(10);]. *)
Inductive Pc : Type := AtLoopHead | InStopWait.

Inductive Outcome : Type :=
| Stuck        (* the stuck check held: reversal issued *)
| NotStuck     (* the stuck check did not hold *)
| Waiting.     (* resumed inside the wait loop: no stuck check made *)

(** [while (!intake_motor.is_stopped()) pros::delay(10);]
    [intake_motor.move_velocity(desired_velocity); pros::delay(20);]
    One call evaluates the loop condition once. *)
Definition wait_until_stopped : Prog Env Pc :=
  s <- is_stopped ;;
  if negb s then
    delay 10 ;;;
    ret InStopWait
  else
    move_velocity desired_velocity ;;;
    delay 20 ;;;
    ret AtLoopHead.

(** [abs(current_velocity) < velocity_threshold &&
    intake_motor.get_target_velocity() != 0], left to right.  Against a
    whole number both candidates for [abs] give the same answer (lemma
    [abs_lt_whole] below), so the magnitude stands for either. *)
Definition stuck_check (current_velocity : Q) : Prog Env bool :=
  if Qltb (Qabs current_velocity) (inject_Z velocity_threshold) then
    target <- get_target_velocity ;;
    ret (negb (target =? 0))
  else ret false.

Definition loop_head : Prog Env (Outcome * Pc) :=
  current_velocity <- get_actual_velocity ;;
  stuck <- stuck_check current_velocity ;;
  if stuck then
    emit (LcdPrint 0 "Intake stuck! Reversing...") ;;;
    move_relative (- reverse_degrees) reverse_speed ;;;
    p <- wait_until_stopped ;;
    ret (Stuck, p)
  else
    delay 20 ;;;
    ret (NotStuck, AtLoopHead).

(** [intake_monitor_task], from one wake-up of the task to its next
    suspension. *)
Definition intake_monitor_task (p : Pc) : Prog Env (Outcome * Pc) :=
  match p with
  | AtLoopHead => loop_head
  | InStopWait => p' <- wait_until_stopped ;; ret (Waiting, p')
  end.

Fixpoint run (n : nat) (p : Pc) : Prog Env (list Outcome * Pc) :=
  match n with
  | O => ret ([], p)
  | S k =>
      r <- intake_monitor_task p ;;
      rs <- run k (snd r) ;;
      ret (fst r :: fst rs, snd rs)
  end.

(** One pass through the body of [opcontrol]'s loop; the argument is the
    answer of [controller_get_digital] for R1. *)
Definition opcontrol_loop (r1_pressed : bool) : Prog Env unit :=
  (if r1_pressed then move_velocity desired_velocity else move_velocity 0) ;;;
  delay 20.

(** Who runs next: the operator loop or the monitor. *)
Inductive Turn : Type :=
| Operator (r1_pressed : bool)
| Monitor.

Definition turn (x : Turn) (p : Pc) : Prog Env Pc :=
  match x with
  | Operator r1 => opcontrol_loop r1 ;;; ret p
  | Monitor => r <- intake_monitor_task p ;; ret (snd r)
  end.

Fixpoint schedule (l : list Turn) (p : Pc) : Prog Env Pc :=
  match l with
  | [] => ret p
  | x :: rest => p' <- turn x p ;; schedule rest p'
  end.

(** [opcontrol]: the monitor task is created, the operator loop runs up
    to its first delay, and from then on the two take turns.  The result
    is the resume point of the monitor. *)
Definition opcontrol (r1_first : bool) (l : list Turn) : Prog Env Pc :=
  opcontrol_loop r1_first ;;;
  schedule l AtLoopHead.

End Part000.

(* ===================================================================== *)
(** ** Colour sorting: detectColor and colorSortTask *)
(* ===================================================================== *)

Module ColorSort.

Inductive AllianceColor : Type := RED | BLUE | UNKNOWN.

Definition AllianceColor_eqb (a b : AllianceColor) : bool :=
  match a, b with
  | RED, RED | BLUE, BLUE | UNKNOWN, UNKNOWN => true
  | _, _ => false
  end.

(** [int hue = colorSortSensor.get_hue();] *)
Definition read_hue : Prog Env Z :=
  h <- get_hue ;;
  ret (Qtruncate h).

(** The body of [detectColor] after the sensor has been read. *)
Definition detectColor (hue : Z) : AllianceColor :=
  if (330 <=? hue) || (hue <=? 30) then RED
  else if (210 <=? hue) && (hue <=? 270) then BLUE
  else UNKNOWN.

Definition TRAVEL_DELAY : Z := 100.
Definition STOP_DELAY : Z := 200.
Definition INTAKE_SPEED : Z := 100.

(** One pass through the body of [colorSortTask]'s loop, with the global
    [ALLIANCE_COLOR] as argument; the result is the colour detected. *)
Definition colorSortTask (ALLIANCE_COLOR : AllianceColor) : Prog Env AllianceColor :=
  hue <- read_hue ;;
  let detectedColor := detectColor hue in
  (if AllianceColor_eqb detectedColor ALLIANCE_COLOR then
     emit (SetText 2 0 "Color Match!")
   else if negb (AllianceColor_eqb detectedColor UNKNOWN) then
     delay TRAVEL_DELAY ;;;
     move_velocity 0 ;;;
     emit (SetText 2 0 "Color Mismatch!") ;;;
     delay STOP_DELAY ;;;
     move_velocity INTAKE_SPEED
   else
     emit (SetText 2 0 "No Ring!")) ;;;
  delay 50 ;;;
  ret detectedColor.


(** The same readings with another list of future hues. *)
Definition with_hues (hs : list Q) (e : Env) : Env :=
  mkEnv (target_velocity e) (velocities e) (stopped e) hs.

End ColorSort.

(* ===================================================================== *)
(** ** The colour sorting program: task handle and opcontrol *)
(* ===================================================================== *)

Module ColorSortProgram.

Import ColorSort.

(** The motor, the handle [colorSortTaskHandle] ([None] is [nullptr]; the
    sample declares it elsewhere) and the handles of the sorting tasks the
    RTOS currently manages.  A sorting task keeps nothing from one pass
    through its loop to the next, so a handle is all there is to it. *)
Record System : Type := mkSystem {
  env : Env;
  colorSortTaskHandle : option nat;
  kernel : gset nat;
  next_handle : nat
}.

Definition lift {A} (m : Prog Env A) : Prog System A := fun s =>
  match m (env s) with
  | None => None
  | Some (a, e, l) =>
      Some (a, mkSystem e (colorSortTaskHandle s) (kernel s) (next_handle s), l)
  end.

(** [new pros::Task(colorSortTask)] *)
Definition task_create : Prog System nat := fun s =>
  let h := next_handle s in
  Some (h, mkSystem (env s) (colorSortTaskHandle s) ({[ h ]} ∪ kernel s) (S h), []).

(** [colorSortTaskHandle->remove()] *)
Definition task_remove (h : nat) : Prog System unit := fun s =>
  Some (tt, mkSystem (env s) (colorSortTaskHandle s) (kernel s ∖ {[ h ]})
                     (next_handle s), []).

Definition set_colorSortTaskHandle (p : option nat) : Prog System unit := fun s =>
  Some (tt, mkSystem (env s) p (kernel s) (next_handle s), []).

Definition startColorSortTask : Prog System unit := fun s =>
  match colorSortTaskHandle s with
  | None => (h <- task_create ;; set_colorSortTaskHandle (Some h)) s
  | Some _ => ret tt s
  end.

Definition stopColorSortTask : Prog System unit := fun s =>
  match colorSortTaskHandle s with
  | Some h => (task_remove h ;;; set_colorSortTaskHandle None) s
  | None => ret tt s
  end.

(** Calls of the two functions, in any order. *)
Inductive Call : Type := Start | Stop.

Definition call (c : Call) : Prog System unit :=
  match c with
  | Start => startColorSortTask
  | Stop => stopColorSortTask
  end.

Fixpoint calls (l : list Call) : Prog System unit :=
  match l with
  | [] => ret tt
  | c :: rest => call c ;;; calls rest
  end.

Section Program.
Variable ALLIANCE_COLOR : AllianceColor.

(** [opcontrol] up to the first delay of its loop:
    [startColorSortTask(); intake.move_velocity(600);] and the first
    [pros::delay(20)]. *)
Definition opcontrol_enter : Prog System unit :=
  startColorSortTask ;;;
  lift (move_velocity 600) ;;;
  delay 20.

(** One pass through [opcontrol]'s loop: the driver control is left
    open in the sample, only the delay is there. *)
Definition opcontrol_loop : Prog System unit := delay 20.

(** The RTOS lets the sorting task with handle [h] make one pass through
    its loop, if it manages one. *)
Definition resume_task (h : nat) : Prog System AllianceColor := fun s =>
  if decide (h ∈ kernel s) then lift (colorSortTask ALLIANCE_COLOR) s else None.

Inductive Turn : Type :=
| Driver
| Sorter (h : nat).

Definition turn (x : Turn) : Prog System unit :=
  match x with
  | Driver => opcontrol_loop
  | Sorter h => resume_task h ;;; ret tt
  end.

Fixpoint schedule (l : list Turn) : Prog System unit :=
  match l with
  | [] => ret tt
  | x :: rest => turn x ;;; schedule rest
  end.

(** [opcontrol]: entry, then the two loops take turns.  The call of
    [stopColorSortTask] behind [while (true)] is never reached. *)
Definition opcontrol (l : list Turn) : Prog System unit :=
  opcontrol_enter ;;;
  schedule l.

End Program.

(** The handle and the RTOS agree. *)
Definition sort_handle_agrees (s : System) : Prop :=
  match colorSortTaskHandle s with
  | None => kernel s = ∅
  | Some h => kernel s = {[ h ]}
  end.

End ColorSortProgram.

(* ===================================================================== *)
(** ** Further notions: elapsed time, calls of start and stop *)
(* ===================================================================== *)

Module More.

(** The time a log takes: the sum of its delays. *)
Fixpoint elapsed (l : list Event) : Z :=
  match l with
  | [] => 0
  | Delay ms :: rest => ms + elapsed rest
  | _ :: rest => elapsed rest
  end.

(** Calls of [startMonitoringTask] and [stopMonitoringTask], in any
    order. *)
Inductive MonitorCall : Type := StartMonitoring | StopMonitoring.

Definition monitor_call (c : MonitorCall) : Prog HighStakes.System unit :=
  match c with
  | StartMonitoring => HighStakes.startMonitoringTask
  | StopMonitoring => HighStakes.stopMonitoringTask
  end.

Fixpoint monitor_calls (l : list MonitorCall) : Prog HighStakes.System unit :=
  match l with
  | [] => ret tt
  | c :: rest => monitor_call c ;;; monitor_calls rest
  end.

(** The velocity the toggle program has commanded when the monitor in
    [kernel] (if any) is where [pc] says. *)
Definition forward_target (cfg : HighStakes.Config) (t : HighStakes.Task) : Z :=
  match HighStakes.pc t with
  | HighStakes.AtLoopHead => HighStakes.DESIRED_VELOCITY cfg
  | HighStakes.InReverseWait => HighStakes.REVERSE_SPEED
  end.

(** The toggle program: [intake_direction] tells what is commanded. *)
Definition direction_agrees (cfg : HighStakes.Config) (s : HighStakes.System) : Prop :=
  match HighStakes.intake_direction s with
  | HighStakes.STOPPED => target_velocity (HighStakes.env s) = 0
  | HighStakes.BACKWARD =>
      target_velocity (HighStakes.env s) = - HighStakes.DESIRED_VELOCITY cfg
  | HighStakes.FORWARD =>
      forall h t, HighStakes.kernel s !! h = Some t ->
                  target_velocity (HighStakes.env s) = forward_target cfg t
  end.

(** The toggle program: a monitor exactly under forward intake. *)
Definition forward_iff_monitor (s : HighStakes.System) : Prop :=
  HighStakes.intake_direction s = HighStakes.FORWARD <->
  HighStakes.intake_monitor_task s <> None.

(** The program of the second copy: no monitor and 0 commanded, or one
    monitor and [DESIRED_VELOCITY] commanded, unless the monitor is in its
    wait loop and its reversal has not been overwritten. *)
Definition hold_agrees (cfg : HighStakes.Config) (s : HighStakes.System) : Prop :=
  match HighStakes.intake_monitor_task s with
  | None =>
      HighStakes.kernel s = ∅ /\ target_velocity (HighStakes.env s) = 0
  | Some h =>
      exists t, HighStakes.kernel s = {[ h := t ]} /\
        (target_velocity (HighStakes.env s) = HighStakes.DESIRED_VELOCITY cfg \/
         (HighStakes.pc t = HighStakes.InReverseWait /\
          target_velocity (HighStakes.env s) = HighStakes.REVERSE_SPEED))
  end.

(** The earlier program: what can be commanded, by resume point. *)
Definition part000_target_ok (p : Part000.Pc) (e : Env) : Prop :=
  target_velocity e = 0 \/ target_velocity e = Part000.desired_velocity \/
  (p = Part000.InStopWait /\ target_velocity e = Part000.reverse_speed).

End More.

(* ===================================================================== *)
(** ** Properties of logs and of sequences of outcomes *)
(* ===================================================================== *)

Module Props.

(** An event through which the monitor acts or reports: everything but a
    delay. *)
Definition is_action (e : Event) : bool :=
  match e with
  | Delay _ => false
  | _ => true
  end.

(** The discipline of the recovery manoeuvre on a log.  [open] tells
    whether a reversal has been issued and not yet been followed by the
    velocity command that ends it.  A reversal [MoveRelative (- degrees)
    speed] and an LCD report may only come while no reversal is open, a
    [MoveVelocity desired] only while one is.  The result is the final
    [open], or [None] when the log breaks the discipline. *)
Fixpoint reversal_protocol (degrees speed desired : Z) (open : bool)
    (log : list Event) : option bool :=
  match log with
  | [] => Some open
  | MoveRelative p v :: rest =>
      if negb open && (p =? - degrees) && (v =? speed)
      then reversal_protocol degrees speed desired true rest
      else None
  | MoveVelocity v :: rest =>
      if open && (v =? desired)
      then reversal_protocol degrees speed desired false rest
      else None
  | LcdPrint _ _ :: rest | LcdPrintVelocity _ _ _ :: rest =>
      if open then None else reversal_protocol degrees speed desired open rest
  | _ :: rest => reversal_protocol degrees speed desired open rest
  end.

(** "No further Stalled until a fresh Running reading": scanning the
    outcomes of successive wake-ups, a [Stuck] is allowed only when armed;
    it disarms, and only a [NotStuck] arms again. *)
Fixpoint stalled_once_per_episode (armed : bool) (os : list HighStakes.Outcome) : bool :=
  match os with
  | [] => true
  | HighStakes.Stuck :: rest => armed && stalled_once_per_episode false rest
  | HighStakes.NotStuck :: rest => stalled_once_per_episode true rest
  | _ :: rest => stalled_once_per_episode armed rest
  end.

(** The readings that keep the wait loop going, as magnitudes: with
    [int abs(int)] the reading loses its fraction before the comparison
    with 1, so the loop goes on from magnitude 2; with the overload on
    [double], above magnitude 1. *)
Definition still_reversing (o : AbsOverload) (v : Q) : Prop :=
  match o with
  | abs_int => (2 <= Qabs v)%Q
  | abs_double => (1 < Qabs v)%Q
  end.

(** Whether a suspended task is inside its wait loop. *)
Definition in_reverse_wait (p : HighStakes.Pc) : bool :=
  match p with
  | HighStakes.InReverseWait => true
  | HighStakes.AtLoopHead => false
  end.

Definition in_stop_wait (p : Part000.Pc) : bool :=
  match p with
  | Part000.InStopWait => true
  | Part000.AtLoopHead => false
  end.

(** The handle and the RTOS agree: a null handle and no task, or a handle
    to the one task there is, which only exists under forward intake. *)
Definition one_monitor (s : HighStakes.System) : Prop :=
  match HighStakes.intake_monitor_task s with
  | None => HighStakes.kernel s = ∅
  | Some h =>
      HighStakes.intake_direction s = HighStakes.FORWARD /\
      exists t, HighStakes.kernel s = {[ h := t ]}
  end.

(** In the second copy there is no [intake_direction]. *)
Definition handle_agrees (s : HighStakes.System) : Prop :=
  match HighStakes.intake_monitor_task s with
  | None => HighStakes.kernel s = ∅
  | Some h => exists t, HighStakes.kernel s = {[ h := t ]}
  end.

(** Whenever a monitor is about to make its stuck check, the velocity
    commanded is [DESIRED_VELOCITY]. *)
Definition checks_under_desired (cfg : HighStakes.Config) (s : HighStakes.System) : Prop :=
  forall h t,
    HighStakes.kernel s !! h = Some t ->
    HighStakes.pc t = HighStakes.AtLoopHead ->
    target_velocity (HighStakes.env s) = HighStakes.DESIRED_VELOCITY cfg.

Definition count_stuck (os : list HighStakes.Outcome) : nat :=
  List.length (List.filter (fun o => match o with HighStakes.Stuck => true | _ => false end) os).

Definition count_reversals (log : list Event) : nat :=
  List.length (List.filter (fun e => match e with MoveRelative _ _ => true | _ => false end) log).

End Props.

Import Props.
Import More.

(* ===================================================================== *)
(** ** Basic facts *)
(* ===================================================================== *)

Lemma Qltb_true (a b : Q) : Qltb a b = true <-> (a < b)%Q.
Proof.
  unfold Qltb. rewrite negb_true_iff.
  split; intros H.
  - apply Qnot_le_lt. intros Hle. apply Qle_bool_iff in Hle. congruence.
  - destruct (Qle_bool b a) eqn:E; [ | reflexivity ].
    apply Qle_bool_iff in E. exfalso. apply (Qlt_not_le _ _ H E).
Qed.

Lemma Qltb_false (a b : Q) : Qltb a b = false <-> (b <= a)%Q.
Proof.
  unfold Qltb. rewrite negb_false_iff. apply Qle_bool_iff.
Qed.

Lemma Qltb_eq_false (a b : Q) : (a == b)%Q -> Qltb a b = false.
Proof.
  intros H. apply Qltb_false. rewrite H. apply Qle_refl.
Qed.

(** Truncation towards zero, in whole numbers: the quotient is under [k]
    exactly when the dividend is under [k] times the divisor, and over 1
    exactly when the dividend reaches twice the divisor. *)
Lemma quot_abs_lt (n : Z) (d : positive) (k : Z) :
  Z.abs (n ÷ Zpos d) < k <-> Z.abs n < k * Zpos d.
Proof.
  pose proof (Z.quot_rem' n (Zpos d)) as Hqr.
  destruct (Z.le_gt_cases 0 n) as [ Hn | Hn ].
  - pose proof (Z.rem_bound_pos n (Zpos d) Hn ltac:(lia)) as Hr.
    pose proof (Z.quot_pos n (Zpos d) Hn ltac:(lia)) as Hq.
    rewrite (Z.abs_eq _ Hq), (Z.abs_eq _ Hn).
    set (q := n ÷ Zpos d) in *. set (r := Z.rem n (Zpos d)) in *.
    set (D := Zpos d) in *.
    assert (0 < D) by (subst D; lia). clearbody q r D.
    split; intros H0; nia.
  - pose proof (Z.rem_bound_pos_neg n (Zpos d) ltac:(lia) ltac:(lia)) as Hr.
    assert (Hq : n ÷ Zpos d <= 0) by (apply Z.quot_le_upper_bound; lia).
    rewrite (Z.abs_neq _ Hq), (Z.abs_neq n) by lia.
    set (q := n ÷ Zpos d) in *. set (r := Z.rem n (Zpos d)) in *.
    set (D := Zpos d) in *.
    assert (0 < D) by (subst D; lia). clearbody q r D.
    split; intros H0; nia.
Qed.

Lemma quot_abs_gt_1 (n : Z) (d : positive) :
  1 < Z.abs (n ÷ Zpos d) <-> 2 * Zpos d <= Z.abs n.
Proof.
  pose proof (quot_abs_lt n d 2) as H. lia.
Qed.

(** Below a whole number, it does not matter which [abs] is called:
    dropping the fraction first never moves a reading across it. *)
Lemma abs_lt_whole (o : AbsOverload) (v : Q) (k : Z) :
  Qltb (abs o v) (inject_Z k) = Qltb (Qabs v) (inject_Z k).
Proof.
  destruct o; [ | reflexivity ].
  apply eq_true_iff_eq. rewrite !Qltb_true.
  destruct v as [n d]. unfold abs, Qtruncate, Qlt. cbn.
  rewrite !Z.mul_1_r. apply quot_abs_lt.
Qed.

(** Above 1 it does: [int abs(int)] exceeds 1 from magnitude 2 on. *)
Lemma abs_int_gt_1 (v : Q) :
  (1 < abs abs_int v)%Q <-> (2 <= Qabs v)%Q.
Proof.
  destruct v as [n d]. unfold abs, Qtruncate, Qlt, Qle. cbn.
  rewrite ?Z.mul_1_r. pose proof (quot_abs_gt_1 n d). lia.
Qed.

Lemma abs_double_gt_1 (v : Q) :
  (1 < abs abs_double v)%Q <-> (1 < Qabs v)%Q.
Proof. reflexivity. Qed.

(** The condition of the wait loop, [abs(v) > 1], in magnitudes. *)
Lemma still_reversing_abs (o : AbsOverload) (v : Q) :
  still_reversing o v <-> (1 < abs o v)%Q.
Proof.
  destruct o; cbn [still_reversing]; symmetry;
    [ apply abs_int_gt_1 | apply abs_double_gt_1 ].
Qed.

(** Unfolds one wake-up of a task down to the tests on its readings. *)
Ltac unfold_prog :=
  unfold HighStakes.intake_monitor_task_function, HighStakes.loop_head,
    HighStakes.stuck_check, HighStakes.wait_for_reverse,
    Part000.intake_monitor_task, Part000.loop_head, Part000.stuck_check,
    Part000.wait_until_stopped,
    bind, ret, delay, emit, get_actual_velocity, get_target_velocity,
    is_stopped, move_velocity, move_relative, set_target in *;
  cbn in *;
  rewrite ?abs_lt_whole in *.

(* ===================================================================== *)
(** ** The stuck check *)
(* ===================================================================== *)

Section StuckCheck.
Variable cfg : HighStakes.Config.

Import HighStakes.

(** With no velocity commanded, a wake-up at the loop head only delays. *)
Lemma zero_target_loop_head (r g : bool) (v : Q) vs sts hs :
  intake_monitor_task_function cfg (mkTask AtLoopHead r g) (mkEnv 0 (v :: vs) sts hs)
  = Some ((if g then GraceSkip else NotStuck, mkTask AtLoopHead r false),
          mkEnv 0 vs sts hs,
          [Delay (if g then SPIN_UP_GRACE cfg else 20)]).
Proof.
  unfold_prog. destruct g; cbn; [ reflexivity | ].
  rewrite ?abs_lt_whole.
  destruct (negb r && Qltb (Qabs v) (inject_Z VELOCITY_THRESHOLD)); reflexivity.
Qed.

(** A wake-up reports [Stuck] only from the loop head, past the grace
    period, with the flag down, a sample below the threshold and a
    commanded velocity other than 0; it is the only one to reverse. *)
Lemma stuck_inv (t t' : Task) (e e' : Env) o log :
  intake_monitor_task_function cfg t e = Some ((o, t'), e', log) ->
  (o = Stuck <->
     pc t = AtLoopHead /\ spin_up_grace t = false /\ reversing t = false /\
     target_velocity e <> 0 /\
     exists v vs, velocities e = v :: vs /\ (Qabs v < inject_Z VELOCITY_THRESHOLD)%Q) /\
  (o <> Stuck -> forall p s, ~ In (MoveRelative p s) log).
Proof.
  destruct t as [p r g], e as [tv vs sts hs]. unfold_prog.
  destruct p; cbn.
  - destruct vs as [ | v vs ]; cbn; [ discriminate | ].
    destruct g; cbn.
    + intros [= <- <- <- <-]. split.
      * split; [ discriminate | intros (_ & ? & _); discriminate ].
      * intros _ p s [ ? | [] ]; discriminate.
    + destruct r; cbn.
      * intros [= <- <- <- <-]. split.
        -- split; [ discriminate | intros (_ & _ & ? & _); discriminate ].
        -- intros _ p s [ ? | [] ]; discriminate.
      * rewrite ?abs_lt_whole.
        destruct (Qltb (Qabs v) (inject_Z VELOCITY_THRESHOLD)) eqn:Hlt; cbn.
        -- destruct (Z.eqb_spec tv 0) as [ -> | Hne ]; cbn.
           ++ intros [= <- <- <- <-]. split.
              ** split; [ discriminate | intros (_ & _ & _ & ? & _); congruence ].
              ** intros _ p s [ ? | [] ]; discriminate.
           ++ destruct vs as [ | w ws ]; cbn; [ discriminate | ].
              destruct (Qltb 1 (abs (HighStakes.ABS cfg) w)); cbn; intros [= <- <- <- <-].
              ** split; [ | congruence ].
                 split; [ intros _ | reflexivity ].
                 repeat (split; [ easy | ]).
                 exists v, (w :: ws). split; [ reflexivity | now apply Qltb_true ].
              ** split; [ | congruence ].
                 split; [ intros _ | reflexivity ].
                 repeat (split; [ easy | ]).
                 exists v, (w :: ws). split; [ reflexivity | now apply Qltb_true ].
        -- intros [= <- <- <- <-]. split.
           ++ split; [ discriminate | ].
              intros (_ & _ & _ & _ & v' & vs' & [= <- <-] & Hv).
              apply Qltb_true in Hv. congruence.
           ++ intros _ p s [ ? | [] ]; discriminate.
  - destruct vs as [ | v vs ]; cbn; [ discriminate | ].
    destruct (Qltb 1 (abs (HighStakes.ABS cfg) v)); cbn; intros [= <- <- <- <-].
    + split; [ split; [ discriminate | intros (? & _); discriminate ] | ].
      intros _ p s [ ? | [] ]; discriminate.
    + split; [ split; [ discriminate | intros (? & _); discriminate ] | ].
      intros _ p s [ ? | [ ? | [] ] ]; discriminate.
Qed.

End StuckCheck.

Lemma part000_stuck_inv (p p' : Part000.Pc) (e e' : Env) o log :
  Part000.intake_monitor_task p e = Some ((o, p'), e', log) ->
  (o = Part000.Stuck <->
     p = Part000.AtLoopHead /\ target_velocity e <> 0 /\
     exists v vs, velocities e = v :: vs /\
                  (Qabs v < inject_Z Part000.velocity_threshold)%Q) /\
  (o <> Part000.Stuck -> forall q s, ~ In (MoveRelative q s) log).
Proof.
  destruct e as [tv vs sts hs]. unfold_prog.
  destruct p; cbn.
  - destruct vs as [ | v vs ]; cbn; [ discriminate | ].
    destruct (Qltb (Qabs v) (inject_Z Part000.velocity_threshold)) eqn:Hlt; cbn.
    + destruct (Z.eqb_spec tv 0) as [ -> | Hne ]; cbn.
      * intros [= <- <- <- <-]. split.
        -- split; [ discriminate | intros (_ & ? & _); congruence ].
        -- intros _ q s [ ? | [] ]; discriminate.
      * destruct sts as [ | b sts ]; cbn; [ discriminate | ].
        destruct b; cbn; intros [= <- <- <- <-].
        -- split; [ | congruence ].
           split; [ intros _ | reflexivity ].
           repeat (split; [ easy | ]).
           exists v, vs. split; [ reflexivity | now apply Qltb_true ].
        -- split; [ | congruence ].
           split; [ intros _ | reflexivity ].
           repeat (split; [ easy | ]).
           exists v, vs. split; [ reflexivity | now apply Qltb_true ].
    + intros [= <- <- <- <-]. split.
      * split; [ discriminate | ].
        intros (_ & _ & v' & vs' & [= <- <-] & Hv).
        apply Qltb_true in Hv. congruence.
      * intros _ q s [ ? | [] ]; discriminate.
  - destruct sts as [ | b sts ]; cbn; [ discriminate | ].
    destruct b; cbn; intros [= <- <- <- <-].
    + split; [ split; [ discriminate | intros (? & _); discriminate ] | ].
      intros _ q s [ ? | [ ? | [] ] ]; discriminate.
    + split; [ split; [ discriminate | intros (? & _); discriminate ] | ].
      intros _ q s [ ? | [] ]; discriminate.
Qed.

Lemma part000_zero_target_loop_head (v : Q) vs sts hs :
  Part000.intake_monitor_task Part000.AtLoopHead (mkEnv 0 (v :: vs) sts hs)
  = Some ((Part000.NotStuck, Part000.AtLoopHead), mkEnv 0 vs sts hs, [Delay 20]).
Proof.
  unfold_prog.
  destruct (Qltb (Qabs v) (inject_Z Part000.velocity_threshold)); reflexivity.
Qed.

(* ===================================================================== *)
(** ** The grace period *)
(* ===================================================================== *)

Lemma timeline_lower_bound (l : list Event) :
  (forall ms, In (Delay ms) l -> 0 <= ms) ->
  forall now tau e, In (tau, e) (timeline now l) -> now <= tau.
Proof.
  induction l as [ | x l IH ]; intros Hd now tau e Hin; [ destruct Hin | ].
  assert (Hd' : forall ms, In (Delay ms) l -> 0 <= ms)
    by (intros ms Hms; apply Hd; right; exact Hms).
  destruct x; cbn in Hin; destruct Hin as [ [= <- <-] | Hin ]; try lia;
    try (apply (IH Hd' _ _ _ Hin)).
  specialize (IH Hd' _ _ _ Hin).
  assert (0 <= ms) by (apply Hd; left; reflexivity). lia.
Qed.

Section Grace.
Variable cfg : HighStakes.Config.

Import HighStakes.

(** Once [spin_up_grace] is down it stays down, and the task only sleeps
    for 10 or 20 ms. *)
Lemma after_grace_step (t t' : Task) (e e' : Env) o log :
  spin_up_grace t = false ->
  intake_monitor_task_function cfg t e = Some ((o, t'), e', log) ->
  spin_up_grace t' = false /\ forall ms, In (Delay ms) log -> ms = 10 \/ ms = 20.
Proof.
  destruct t as [p r g], e as [tv vs sts hs]. cbn. intros ->. unfold_prog.
  destruct p; cbn.
  - destruct vs as [ | v vs ]; cbn; [ discriminate | ].
    rewrite ?abs_lt_whole.
    destruct (negb r && Qltb (Qabs v) (inject_Z VELOCITY_THRESHOLD)); cbn.
    + destruct (negb (tv =? 0)); cbn.
      * destruct vs as [ | w ws ]; cbn; [ discriminate | ].
        destruct (Qltb 1 (abs (HighStakes.ABS cfg) w)); cbn; intros [= <- <- <- <-];
          (split; [ reflexivity | ]); intros ms Hin; cbn in Hin;
          repeat (destruct Hin as [ Hin | Hin ]; try discriminate Hin;
                  try (injection Hin as <-; auto)); destruct Hin.
      * intros [= <- <- <- <-]. split; [ reflexivity | ].
        intros ms [ [= <-] | [] ]; auto.
    + intros [= <- <- <- <-]. split; [ reflexivity | ].
      intros ms [ [= <-] | [] ]; auto.
  - destruct vs as [ | v vs ]; cbn; [ discriminate | ].
    destruct (Qltb 1 (abs (HighStakes.ABS cfg) v)); cbn; intros [= <- <- <- <-];
      (split; [ reflexivity | ]); intros ms Hin; cbn in Hin;
      repeat (destruct Hin as [ Hin | Hin ]; try discriminate Hin;
              try (injection Hin as <-; auto)); destruct Hin.
Qed.

Lemma run_succ (n : nat) (t : Task) (e : Env) os t2 e2 log :
  run cfg (S n) t e = Some ((os, t2), e2, log) ->
  exists o t1 e1 log1 os' log2,
    intake_monitor_task_function cfg t e = Some ((o, t1), e1, log1) /\
    run cfg n t1 e1 = Some ((os', t2), e2, log2) /\
    os = o :: os' /\ log = log1 ++ log2.
Proof.
  cbn [run]. unfold bind at 1.
  destruct (intake_monitor_task_function cfg t e) as [ [ [ [o t1] e1 ] log1 ] | ];
    [ | discriminate ].
  unfold bind at 1. cbn [snd fst].
  destruct (run cfg n t1 e1) as [ [ [ [os' t2'] e2' ] log2 ] | ] eqn:Hrest;
    [ | discriminate ].
  cbn. rewrite app_nil_r. intros [= <- <- <- <-].
  exists o, t1, e1, log1, os', log2. repeat split; auto.
Qed.

Lemma after_grace_run (n : nat) : forall (t t' : Task) (e e' : Env) os log,
  spin_up_grace t = false ->
  run cfg n t e = Some ((os, t'), e', log) ->
  forall ms, In (Delay ms) log -> 0 <= ms.
Proof.
  induction n as [ | n IH ]; intros t t' e e' os log Hg Hrun ms Hin.
  - cbn in Hrun. unfold ret in Hrun. injection Hrun as <- <- <- <-. destruct Hin.
  - apply run_succ in Hrun.
    destruct Hrun as (o & t1 & e1 & log1 & os' & log2 & Hstep & Hrest & -> & ->).
    destruct (after_grace_step _ _ _ _ _ _ Hg Hstep) as [Hg1 Hd].
    apply in_app_or in Hin. destruct Hin as [ Hin | Hin ].
    + destruct (Hd _ Hin); lia.
    + exact (IH _ _ _ _ _ _ Hg1 Hrest _ Hin).
Qed.

Lemma new_task_first_step (tv : Z) (v : Q) vs sts hs :
  intake_monitor_task_function cfg new_task (mkEnv tv (v :: vs) sts hs)
  = Some ((GraceSkip, mkTask AtLoopHead false false), mkEnv tv vs sts hs,
          [Delay (SPIN_UP_GRACE cfg)]).
Proof. reflexivity. Qed.

Lemma grace_window_run (n : nat) (e e' : Env) os t log :
  run cfg n new_task e = Some ((os, t), e', log) ->
  forall tau ev, In (tau, ev) (timeline 0 log) -> is_action ev = true ->
                 SPIN_UP_GRACE cfg <= tau.
Proof.
  destruct n as [ | n ]; intros Hrun tau ev Hin Hact.
  - cbn in Hrun. unfold ret in Hrun. injection Hrun as <- <- <- <-. destruct Hin.
  - apply run_succ in Hrun.
    destruct Hrun as (o & t1 & e1 & log1 & os' & log2 & Hstep & Hrest & -> & ->).
    destruct e as [tv vs sts hs]. destruct vs as [ | v vs ]; [ discriminate Hstep | ].
    rewrite new_task_first_step in Hstep. injection Hstep as <- <- <- <-.
    cbn in Hin. destruct Hin as [ [= <- <-] | Hin ]; [ discriminate Hact | ].
    apply (timeline_lower_bound log2) in Hin; [ lia | ].
    refine (after_grace_run n _ _ _ _ _ _ _ Hrest). reflexivity.
Qed.

End Grace.

(* ===================================================================== *)
(** ** The recovery manoeuvre *)
(* ===================================================================== *)

Lemma reversal_protocol_app (d s v : Z) (l1 l2 : list Event) : forall b,
  reversal_protocol d s v b (l1 ++ l2)
  = match reversal_protocol d s v b l1 with
    | Some b' => reversal_protocol d s v b' l2
    | None => None
    end.
Proof.
  induction l1 as [ | x l1 IH ]; intros b; [ reflexivity | ].
  destruct x; cbn.
  - destruct (b && (velocity =? v)); [ apply IH | reflexivity ].
  - destruct (negb b && (position =? - d) && (velocity =? s)); [ apply IH | reflexivity ].
  - apply IH.
  - destruct b; [ reflexivity | apply IH ].
  - destruct b; [ reflexivity | apply IH ].
  - apply IH.
Qed.

Lemma count_reversals_app (l1 l2 : list Event) :
  count_reversals (l1 ++ l2) = (count_reversals l1 + count_reversals l2)%nat.
Proof.
  unfold count_reversals. rewrite List.filter_app, List.length_app. reflexivity.
Qed.

Section Recovery.
Variable cfg : HighStakes.Config.

Import HighStakes.

Lemma run_step (n : nat) (t t1 t2 : Task) (e e1 e2 : Env) o os log1 log2 :
  intake_monitor_task_function cfg t e = Some ((o, t1), e1, log1) ->
  run cfg n t1 e1 = Some ((os, t2), e2, log2) ->
  run cfg (S n) t e = Some ((o :: os, t2), e2, log1 ++ log2).
Proof.
  intros Hstep Hrest. cbn [run]. unfold bind at 1. rewrite Hstep.
  unfold bind at 1. cbn [snd fst]. rewrite Hrest. cbn. rewrite app_nil_r. reflexivity.
Qed.

Lemma run_one (t t1 : Task) (e e1 : Env) o log :
  intake_monitor_task_function cfg t e = Some ((o, t1), e1, log) ->
  run cfg 1 t e = Some (([o], t1), e1, log).
Proof.
  intros Hstep. rewrite <- (app_nil_r log).
  apply (run_step 0 _ t1 t1 _ e1 e1 o [] log [] Hstep). reflexivity.
Qed.

(** One wake-up keeps to the discipline of the manoeuvre: a report and a
    reversal only from the loop head, the resuming velocity command only
    from the wait loop; [reversing] is up exactly inside the wait loop. *)
Lemma step_protocol (t t' : Task) (e e' : Env) o log :
  intake_monitor_task_function cfg t e = Some ((o, t'), e', log) ->
  reversal_protocol REVERSE_DEGREES REVERSE_SPEED (DESIRED_VELOCITY cfg)
    (in_reverse_wait (pc t)) log = Some (in_reverse_wait (pc t')) /\
  count_reversals log = count_stuck [o] /\
  (reversing t = in_reverse_wait (pc t) -> reversing t' = in_reverse_wait (pc t')).
Proof.
  destruct t as [p r g], e as [tv vs sts hs]. unfold_prog.
  destruct p; cbn.
  - destruct vs as [ | v vs ]; cbn; [ discriminate | ].
    destruct g; cbn; [ intros [= <- <- <- <-]; cbv; auto | ].
    rewrite ?abs_lt_whole.
    destruct (negb r && Qltb (Qabs v) (inject_Z VELOCITY_THRESHOLD)); cbn.
    + destruct (negb (tv =? 0)); cbn.
      * destruct vs as [ | w ws ]; cbn; [ discriminate | ].
        destruct (Qltb 1 (abs (HighStakes.ABS cfg) w)); cbn; intros [= <- <- <- <-]; cbn;
          rewrite ?Z.eqb_refl; auto.
      * intros [= <- <- <- <-]; cbn; auto.
    + intros [= <- <- <- <-]; cbn; auto.
  - destruct vs as [ | v vs ]; cbn; [ discriminate | ].
    destruct (Qltb 1 (abs (HighStakes.ABS cfg) v)); cbn; intros [= <- <- <- <-]; cbn;
      rewrite ?Z.eqb_refl; auto.
Qed.

Lemma run_protocol (n : nat) : forall (t t' : Task) (e e' : Env) os log,
  run cfg n t e = Some ((os, t'), e', log) ->
  reversal_protocol REVERSE_DEGREES REVERSE_SPEED (DESIRED_VELOCITY cfg)
    (in_reverse_wait (pc t)) log = Some (in_reverse_wait (pc t')) /\
  count_reversals log = count_stuck os /\
  (reversing t = in_reverse_wait (pc t) -> reversing t' = in_reverse_wait (pc t')).
Proof.
  induction n as [ | n IH ]; intros t t' e e' os log Hrun.
  - cbn in Hrun. unfold ret in Hrun. injection Hrun as <- <- <- <-. cbn. auto.
  - apply run_succ in Hrun.
    destruct Hrun as (o & t1 & e1 & log1 & os' & log2 & Hstep & Hrest & -> & ->).
    destruct (step_protocol _ _ _ _ _ _ Hstep) as (Hp1 & Hc1 & Hf1).
    destruct (IH _ _ _ _ _ _ Hrest) as (Hp2 & Hc2 & Hf2).
    rewrite reversal_protocol_app, Hp1, Hp2, count_reversals_app, Hc1, Hc2.
    split; [ reflexivity | ]. split; [ | auto ].
    unfold count_stuck. cbn. destruct o; reflexivity.
Qed.

(** The whole wait loop: samples with [abs(v) > 1] keep the task
    waiting, 10 ms each; the first sample without ends the wait and
    [DESIRED_VELOCITY] is commanded. *)
Lemma wait_run (ws : list Q) : forall (r g : bool) (tv : Z) (w : Q) vs sts hs,
  Forall (fun x => (1 < abs (HighStakes.ABS cfg) x)%Q) ws ->
  (abs (HighStakes.ABS cfg) w <= 1)%Q ->
  run cfg (S (List.length ws)) (mkTask InReverseWait r g)
      (mkEnv tv (ws ++ w :: vs) sts hs)
  = Some ((repeat Waiting (S (List.length ws)), mkTask AtLoopHead false g),
          mkEnv (DESIRED_VELOCITY cfg) vs sts hs,
          repeat (Delay 10) (List.length ws)
            ++ [MoveVelocity (DESIRED_VELOCITY cfg); Delay 20]).
Proof.
  induction ws as [ | x ws IH ]; intros r g tv w vs sts hs Hws Hw.
  - apply Qltb_false in Hw. cbn [List.length repeat app].
    apply run_one. unfold_prog. rewrite Hw. reflexivity.
  - inversion Hws as [ | x' ws' Hx Hws' ]; subst.
    apply Qltb_true in Hx.
    change (repeat Waiting (S (List.length (x :: ws))))
      with (Waiting :: repeat Waiting (S (List.length ws))).
    change (repeat (Delay 10) (List.length (x :: ws))
              ++ [MoveVelocity (DESIRED_VELOCITY cfg); Delay 20])
      with ([Delay 10] ++ (repeat (Delay 10) (List.length ws)
              ++ [MoveVelocity (DESIRED_VELOCITY cfg); Delay 20])).
    apply (run_step _ _ (mkTask InReverseWait r g) _ _
             (mkEnv tv (ws ++ w :: vs) sts hs)).
    + unfold_prog. rewrite Hx. reflexivity.
    + apply IH; assumption.
Qed.

(** A stall and its recovery, from the stuck check to the resumption. *)
Lemma recovery_run (tv : Z) (v w : Q) (ws vs : list Q) sts hs :
  tv <> 0 ->
  (Qabs v < 50)%Q ->
  Forall (fun x => (1 < abs (HighStakes.ABS cfg) x)%Q) ws ->
  (abs (HighStakes.ABS cfg) w <= 1)%Q ->
  run cfg (S (List.length ws)) (mkTask AtLoopHead false false)
      (mkEnv tv (v :: ws ++ w :: vs) sts hs)
  = Some ((Stuck :: repeat Waiting (List.length ws), mkTask AtLoopHead false false),
          mkEnv (DESIRED_VELOCITY cfg) vs sts hs,
          [LcdPrint 0 "Intake stuck! Reversing...";
           LcdPrintVelocity 2 "Current velocity: %.2f" v;
           MoveRelative (-90) (-100)]
            ++ repeat (Delay 10) (List.length ws)
            ++ [MoveVelocity (DESIRED_VELOCITY cfg); Delay 20]).
Proof.
  intros Hne Hv Hws Hw. apply Qltb_true in Hv.
  destruct ws as [ | x ws ].
  - apply Qltb_false in Hw. cbn [List.length repeat app].
    apply run_one.
    unfold_prog. change (inject_Z VELOCITY_THRESHOLD) with 50%Q. rewrite Hv. cbn.
    destruct (Z.eqb_spec tv 0) as [ ? | _ ]; [ contradiction | ]. cbn.
    rewrite Hw. reflexivity.
  - inversion Hws as [ | x' ws' Hx Hws' ]; subst.
    apply Qltb_true in Hx.
    change (repeat Waiting (List.length (x :: ws)))
      with (repeat Waiting (S (List.length ws))).
    change ([LcdPrint 0 "Intake stuck! Reversing...";
             LcdPrintVelocity 2 "Current velocity: %.2f" v;
             MoveRelative (-90) (-100)]
              ++ repeat (Delay 10) (List.length (x :: ws))
              ++ [MoveVelocity (DESIRED_VELOCITY cfg); Delay 20])
      with ([LcdPrint 0 "Intake stuck! Reversing...";
             LcdPrintVelocity 2 "Current velocity: %.2f" v;
             MoveRelative (-90) (-100); Delay 10]
              ++ (repeat (Delay 10) (List.length ws)
                    ++ [MoveVelocity (DESIRED_VELOCITY cfg); Delay 20])).
    apply (run_step _ _ (mkTask InReverseWait true false) _ _
             (mkEnv REVERSE_SPEED (ws ++ w :: vs) sts hs)).
    + unfold_prog. change (inject_Z VELOCITY_THRESHOLD) with 50%Q. rewrite Hv. cbn.
      destruct (Z.eqb_spec tv 0) as [ ? | _ ]; [ contradiction | ]. cbn.
      rewrite Hx. reflexivity.
    + apply wait_run; assumption.
Qed.

End Recovery.

(** At a reading of 3/2 the two candidates for [abs] part: [int abs(int)]
    gives 1 and the wait is over, the overload on [double] gives 3/2 and
    the task waits on. *)
Example wait_at_three_halves :
  HighStakes.intake_monitor_task_function (HighStakes.mkConfig 1000 600 abs_int)
    (HighStakes.mkTask HighStakes.InReverseWait true false)
    (mkEnv (-100) [3 # 2] [] [])
  = Some ((HighStakes.Waiting, HighStakes.mkTask HighStakes.AtLoopHead false false),
          mkEnv 600 [] [] [], [MoveVelocity 600; Delay 20]) /\
  HighStakes.intake_monitor_task_function (HighStakes.mkConfig 1000 600 abs_double)
    (HighStakes.mkTask HighStakes.InReverseWait true false)
    (mkEnv (-100) [3 # 2] [] [])
  = Some ((HighStakes.Waiting, HighStakes.mkTask HighStakes.InReverseWait true false),
          mkEnv (-100) [] [] [], [Delay 10]).
Proof. split; reflexivity. Qed.

Section Part000Recovery.

Import Part000.

Lemma part000_run_succ (n : nat) (p p2 : Pc) (e e2 : Env) os log :
  run (S n) p e = Some ((os, p2), e2, log) ->
  exists o p1 e1 log1 os' log2,
    intake_monitor_task p e = Some ((o, p1), e1, log1) /\
    run n p1 e1 = Some ((os', p2), e2, log2) /\
    os = o :: os' /\ log = log1 ++ log2.
Proof.
  cbn [run]. unfold bind at 1.
  destruct (intake_monitor_task p e) as [ [ [ [o p1] e1 ] log1 ] | ];
    [ | discriminate ].
  unfold bind at 1. cbn [snd fst].
  destruct (run n p1 e1) as [ [ [ [os' p2'] e2' ] log2 ] | ] eqn:Hrest;
    [ | discriminate ].
  cbn. rewrite app_nil_r. intros [= <- <- <- <-].
  exists o, p1, e1, log1, os', log2. repeat split; auto.
Qed.

Lemma part000_run_step (n : nat) (p p1 p2 : Pc) (e e1 e2 : Env) o os log1 log2 :
  intake_monitor_task p e = Some ((o, p1), e1, log1) ->
  run n p1 e1 = Some ((os, p2), e2, log2) ->
  run (S n) p e = Some ((o :: os, p2), e2, log1 ++ log2).
Proof.
  intros Hstep Hrest. cbn [run]. unfold bind at 1. rewrite Hstep.
  unfold bind at 1. cbn [snd fst]. rewrite Hrest. cbn. rewrite app_nil_r. reflexivity.
Qed.

Lemma part000_run_one (p p1 : Pc) (e e1 : Env) o log :
  intake_monitor_task p e = Some ((o, p1), e1, log) ->
  run 1 p e = Some (([o], p1), e1, log).
Proof.
  intros Hstep. rewrite <- (app_nil_r log).
  apply (part000_run_step 0 _ p1 p1 _ e1 e1 o [] log [] Hstep). reflexivity.
Qed.

Lemma part000_step_protocol (p p' : Pc) (e e' : Env) o log :
  intake_monitor_task p e = Some ((o, p'), e', log) ->
  reversal_protocol reverse_degrees reverse_speed desired_velocity
    (in_stop_wait p) log = Some (in_stop_wait p').
Proof.
  destruct e as [tv vs sts hs]. unfold_prog.
  destruct p; cbn.
  - destruct vs as [ | v vs ]; cbn; [ discriminate | ].
    destruct (Qltb (Qabs v) (inject_Z velocity_threshold)); cbn.
    + destruct (negb (tv =? 0)); cbn.
      * destruct sts as [ | b sts ]; cbn; [ discriminate | ].
        destruct b; cbn; intros [= <- <- <- <-]; reflexivity.
      * intros [= <- <- <- <-]; reflexivity.
    + intros [= <- <- <- <-]; reflexivity.
  - destruct sts as [ | b sts ]; cbn; [ discriminate | ].
    destruct b; cbn; intros [= <- <- <- <-]; reflexivity.
Qed.

Lemma part000_run_protocol (n : nat) : forall (p p' : Pc) (e e' : Env) os log,
  run n p e = Some ((os, p'), e', log) ->
  reversal_protocol reverse_degrees reverse_speed desired_velocity
    (in_stop_wait p) log = Some (in_stop_wait p').
Proof.
  induction n as [ | n IH ]; intros p p' e e' os log Hrun.
  - cbn in Hrun. unfold ret in Hrun. injection Hrun as <- <- <- <-. reflexivity.
  - apply part000_run_succ in Hrun.
    destruct Hrun as (o & p1 & e1 & log1 & os' & log2 & Hstep & Hrest & -> & ->).
    rewrite reversal_protocol_app, (part000_step_protocol _ _ _ _ _ _ Hstep).
    exact (IH _ _ _ _ _ _ Hrest).
Qed.

(** The whole wait loop of the earlier monitor: [k] polls of
    [is_stopped()] that answer no, then one that answers yes. *)
Lemma part000_wait_run (k : nat) : forall (tv : Z) vs sts hs,
  run (S k) InStopWait (mkEnv tv vs (repeat false k ++ true :: sts) hs)
  = Some ((repeat Waiting (S k), AtLoopHead),
          mkEnv desired_velocity vs sts hs,
          repeat (Delay 10) k ++ [MoveVelocity desired_velocity; Delay 20]).
Proof.
  induction k as [ | k IH ]; intros tv vs sts hs.
  - apply part000_run_one. reflexivity.
  - change (repeat Waiting (S (S k))) with (Waiting :: repeat Waiting (S k)).
    change (repeat (Delay 10) (S k) ++ [MoveVelocity desired_velocity; Delay 20])
      with ([Delay 10] ++ (repeat (Delay 10) k
                             ++ [MoveVelocity desired_velocity; Delay 20])).
    apply (part000_run_step _ _ InStopWait _ _
             (mkEnv tv vs (repeat false k ++ true :: sts) hs)).
    + reflexivity.
    + apply IH.
Qed.

Lemma part000_recovery_run (tv : Z) (v : Q) (k : nat) vs sts hs :
  tv <> 0 ->
  (Qabs v < 50)%Q ->
  run (S k) AtLoopHead (mkEnv tv (v :: vs) (repeat false k ++ true :: sts) hs)
  = Some ((Stuck :: repeat Waiting k, AtLoopHead),
          mkEnv desired_velocity vs sts hs,
          [LcdPrint 0 "Intake stuck! Reversing..."; MoveRelative (-90) (-100)]
            ++ repeat (Delay 10) k
            ++ [MoveVelocity desired_velocity; Delay 20]).
Proof.
  intros Hne Hv. apply Qltb_true in Hv.
  destruct k as [ | k ].
  - cbn [repeat app]. apply part000_run_one.
    unfold_prog. change (inject_Z velocity_threshold) with 50%Q. rewrite Hv. cbn.
    destruct (Z.eqb_spec tv 0) as [ ? | _ ]; [ contradiction | ]. reflexivity.
  - change ([LcdPrint 0 "Intake stuck! Reversing..."; MoveRelative (-90) (-100)]
              ++ repeat (Delay 10) (S k)
              ++ [MoveVelocity desired_velocity; Delay 20])
      with ([LcdPrint 0 "Intake stuck! Reversing..."; MoveRelative (-90) (-100);
             Delay 10]
              ++ (repeat (Delay 10) k
                    ++ [MoveVelocity desired_velocity; Delay 20])).
    apply (part000_run_step _ _ InStopWait _ _
             (mkEnv reverse_speed vs (repeat false k ++ true :: sts) hs)).
    + unfold_prog. change (inject_Z velocity_threshold) with 50%Q. rewrite Hv. cbn.
      destruct (Z.eqb_spec tv 0) as [ ? | _ ]; [ contradiction | ]. reflexivity.
    + apply part000_wait_run.
Qed.

End Part000Recovery.

(** The earlier monitor makes its stuck check at its first wake-up: with
    a velocity commanded and a sample under the threshold it reports and
    reverses before any delay. *)
Lemma part000_first_wake_up (tv : Z) (v : Q) (b : bool) vs sts hs :
  tv <> 0 ->
  (Qabs v < 50)%Q ->
  Part000.intake_monitor_task Part000.AtLoopHead (mkEnv tv (v :: vs) (b :: sts) hs)
  = Some ((Part000.Stuck, if b then Part000.AtLoopHead else Part000.InStopWait),
          mkEnv (if b then Part000.desired_velocity else Part000.reverse_speed)
                vs sts hs,
          [LcdPrint 0 "Intake stuck! Reversing..."; MoveRelative (-90) (-100)]
            ++ (if b then [MoveVelocity Part000.desired_velocity; Delay 20]
                else [Delay 10])).
Proof.
  intros Hne Hv. apply Qltb_true in Hv.
  unfold_prog. change (inject_Z Part000.velocity_threshold) with 50%Q.
  rewrite Hv. cbn.
  destruct (Z.eqb_spec tv 0) as [ ? | _ ]; [ contradiction | ].
  destruct b; reflexivity.
Qed.

(* ===================================================================== *)
(** ** The task handle: at most one monitor *)
(* ===================================================================== *)

Lemma bind_Some {St A B} (m : Prog St A) (f : A -> Prog St B) s b s2 l :
  bind m f s = Some (b, s2, l) ->
  exists a s1 l1 l2,
    m s = Some (a, s1, l1) /\ f a s1 = Some (b, s2, l2) /\ l = l1 ++ l2.
Proof.
  unfold bind. destruct (m s) as [ [ [a s1] l1 ] | ]; [ | discriminate ].
  destruct (f a s1) as [ [ [b' s2'] l2 ] | ] eqn:Hf; [ | discriminate ].
  intros [= <- <- <-]. exists a, s1, l1, l2. auto.
Qed.

Section Lifecycle.
Variable cfg : HighStakes.Config.

Import HighStakes.

Lemma one_monitor_boot (e : Env) : one_monitor (boot e).
Proof. reflexivity. Qed.

Lemma start_when_running (s : System) (h : nat) :
  intake_monitor_task s = Some h -> startMonitoringTask s = Some (tt, s, []).
Proof. intros H. unfold startMonitoringTask. rewrite H. reflexivity. Qed.

Lemma stop_when_stopped (s : System) :
  intake_monitor_task s = None -> stopMonitoringTask s = Some (tt, s, []).
Proof. intros H. unfold stopMonitoringTask. rewrite H. reflexivity. Qed.

(** After [stopMonitoringTask] the RTOS manages no monitor. *)
Lemma stop_removes (s : System) :
  handle_agrees s ->
  exists s1,
    stopMonitoringTask s = Some (tt, s1, []) /\
    kernel s1 = ∅ /\ intake_monitor_task s1 = None /\
    env s1 = env s /\ intake_direction s1 = intake_direction s.
Proof.
  destruct s as [e d ptr k nh]. unfold handle_agrees, stopMonitoringTask. cbn.
  destruct ptr as [ h | ]; cbn.
  - intros (t & ->). eexists. split; [ reflexivity | ]. cbn.
    rewrite delete_singleton_eq. auto.
  - intros ->. eexists. split; [ reflexivity | ]. cbn. auto.
Qed.

Lemma one_monitor_agrees (s : System) : one_monitor s -> handle_agrees s.
Proof.
  unfold one_monitor, handle_agrees. destruct (intake_monitor_task s); [ | auto ].
  intros (_ & Ht). exact Ht.
Qed.

Lemma handle_agrees_size (s : System) : handle_agrees s -> (size (kernel s) <= 1)%nat.
Proof.
  unfold handle_agrees. destruct (intake_monitor_task s).
  - intros (t & ->). rewrite map_size_singleton. lia.
  - intros ->. rewrite map_size_empty. lia.
Qed.

Lemma one_monitor_opcontrol (r1 a : bool) (s s' : System) log :
  one_monitor s ->
  opcontrol cfg r1 a s = Some (tt, s', log) ->
  one_monitor s'.
Proof.
  destruct s as [e d ptr k nh]. unfold one_monitor. cbn. intros Hinv.
  unfold opcontrol, startMonitoringTask, stopMonitoringTask, lift, set_direction,
    task_create, task_remove, set_intake_monitor_task, move_velocity, delay, emit,
    bind, ret.
  destruct r1, a, d, ptr as [ h | ]; cbn; intros [= <- <-]; cbn;
    repeat match goal with
           | H : _ /\ _ |- _ => destruct H
           | H : exists _, _ |- _ => destruct H
           | H : FORWARD = _ |- _ => discriminate H
           | H : _ = FORWARD |- _ => discriminate H
           end; subst;
    rewrite ?insert_empty, ?delete_singleton_eq, ?delete_empty; eauto.
Qed.

Lemma one_monitor_resume (h : nat) (s s' : System) o log :
  one_monitor s ->
  resume_task cfg h s = Some (o, s', log) ->
  one_monitor s'.
Proof.
  destruct s as [e d ptr k nh]. unfold one_monitor, resume_task. cbn. intros Hinv.
  destruct (k !! h) as [ t | ] eqn:Hk; [ | discriminate ].
  destruct (intake_monitor_task_function cfg t e) as [ [ [ [o' t'] e1 ] l ] | ];
    [ | discriminate ].
  intros [= <- <- <-]. cbn.
  destruct ptr as [ h0 | ].
  - destruct Hinv as (Hd & t0 & ->). split; [ exact Hd | ].
    apply lookup_singleton_Some in Hk. destruct Hk as [ -> _ ].
    exists t'. apply insert_singleton_eq.
  - subst k. rewrite lookup_empty in Hk. discriminate.
Qed.

Lemma one_monitor_schedule (l : list Turn) : forall (s s' : System) log,
  one_monitor s ->
  schedule cfg l s = Some (tt, s', log) ->
  one_monitor s'.
Proof.
  induction l as [ | x l IH ]; intros s s' log Hinv Hrun.
  - cbn in Hrun. unfold ret in Hrun. injection Hrun as <- <-. exact Hinv.
  - cbn [schedule] in Hrun. apply bind_Some in Hrun.
    destruct Hrun as ([] & s1 & l1 & l2 & Hturn & Hrest & ->).
    apply (IH s1 s' l2); [ | exact Hrest ].
    destruct x as [ r1 a | h ]; cbn [turn] in Hturn.
    + exact (one_monitor_opcontrol _ _ _ _ _ Hinv Hturn).
    + apply bind_Some in Hturn.
      destruct Hturn as (o & s2 & l3 & l4 & Hres & Hret & _).
      unfold ret in Hret. injection Hret as <- _.
      exact (one_monitor_resume _ _ _ _ _ Hinv Hres).
Qed.

End Lifecycle.

(* ===================================================================== *)
(** ** Manual commands while the monitor recovers *)
(* ===================================================================== *)

Section Manual.
Variable cfg : HighStakes.Config.

Import HighStakes.

Lemma one_monitor_lookup (s : System) (h : nat) (t : Task) :
  one_monitor s ->
  kernel s !! h = Some t ->
  intake_monitor_task s = Some h /\ intake_direction s = FORWARD /\
  kernel s = {[ h := t ]}.
Proof.
  unfold one_monitor. destruct (intake_monitor_task s) as [ h0 | ].
  - intros (Hd & t0 & Hk) Hl. rewrite Hk in Hl.
    apply lookup_singleton_Some in Hl. destruct Hl as [ -> -> ]. auto.
  - intros -> Hl. rewrite lookup_empty in Hl. discriminate.
Qed.

(** What [opcontrol] does when a monitor task exists, whatever that task
    is doing. *)
Lemma opcontrol_with_monitor (s : System) (h : nat) (t : Task) :
  one_monitor s ->
  kernel s !! h = Some t ->
  opcontrol cfg true false s
  = Some (tt, mkSystem (set_target 0 (env s)) STOPPED None ∅ (next_handle s),
          [MoveVelocity 0; Delay 20]) /\
  opcontrol cfg false true s
  = Some (tt, mkSystem (set_target (- DESIRED_VELOCITY cfg) (env s)) BACKWARD None ∅
                (next_handle s),
          [MoveVelocity (- DESIRED_VELOCITY cfg); Delay 20]) /\
  opcontrol cfg true true s
  = Some (tt, mkSystem (set_target (- DESIRED_VELOCITY cfg) (env s)) BACKWARD None ∅
                (next_handle s),
          [MoveVelocity 0; MoveVelocity (- DESIRED_VELOCITY cfg); Delay 20]) /\
  opcontrol cfg false false s = Some (tt, s, [Delay 20]).
Proof.
  intros Hinv Hl. destruct (one_monitor_lookup s h t Hinv Hl) as (Hp & Hd & Hk).
  destruct s as [e d ptr k nh]. cbn in *. subst.
  unfold opcontrol, startMonitoringTask, stopMonitoringTask, lift, set_direction,
    task_create, task_remove, set_intake_monitor_task, move_velocity, delay, emit,
    bind, ret. cbn.
  rewrite delete_singleton_eq. repeat split; reflexivity.
Qed.

End Manual.

(* ===================================================================== *)
(** ** The velocity commanded before a stall and after the recovery *)
(* ===================================================================== *)

Section Restore.
Variable cfg : HighStakes.Config.

Import HighStakes.

(** A wake-up that leaves the task at the loop head leaves
    [DESIRED_VELOCITY] commanded if it ended a manoeuvre, and the command
    it found otherwise. *)
Lemma step_target (t t' : Task) (e e' : Env) o log :
  intake_monitor_task_function cfg t e = Some ((o, t'), e', log) ->
  pc t' = AtLoopHead ->
  match o with
  | Stuck | Waiting =>
      target_velocity e' = DESIRED_VELOCITY cfg /\
      exists log0, log = log0 ++ [MoveVelocity (DESIRED_VELOCITY cfg); Delay 20]
  | GraceSkip | NotStuck =>
      pc t = AtLoopHead /\ target_velocity e' = target_velocity e
  end.
Proof.
  destruct t as [p r g], e as [tv vs sts hs]. unfold_prog.
  destruct p; cbn.
  - destruct vs as [ | v vs ]; cbn; [ discriminate | ].
    destruct g; cbn; [ intros [= <- <- <- <-]; cbn; auto | ].
    rewrite ?abs_lt_whole.
    destruct (negb r && Qltb (Qabs v) (inject_Z VELOCITY_THRESHOLD)); cbn.
    + destruct (negb (tv =? 0)); cbn.
      * destruct vs as [ | w ws ]; cbn; [ discriminate | ].
        destruct (Qltb 1 (abs (HighStakes.ABS cfg) w)); cbn; intros [= <- <- <- <-]; cbn;
          [ discriminate | ].
        intros _. split; [ reflexivity | ].
        exists [LcdPrint 0 "Intake stuck! Reversing...";
                LcdPrintVelocity 2 "Current velocity: %.2f" v;
                MoveRelative (- REVERSE_DEGREES) REVERSE_SPEED]. reflexivity.
      * intros [= <- <- <- <-]; cbn; auto.
    + intros [= <- <- <- <-]; cbn; auto.
  - destruct vs as [ | v vs ]; cbn; [ discriminate | ].
    destruct (Qltb 1 (abs (HighStakes.ABS cfg) v)); cbn; intros [= <- <- <- <-]; cbn;
      [ discriminate | ].
    intros _. split; [ reflexivity | ]. exists []. reflexivity.
Qed.

Lemma checks_under_desired_resume (h : nat) (s s' : System) o log :
  handle_agrees s ->
  checks_under_desired cfg s ->
  resume_task cfg h s = Some (o, s', log) ->
  handle_agrees s' /\ checks_under_desired cfg s'.
Proof.
  destruct s as [e d ptr k nh].
  unfold handle_agrees, checks_under_desired, resume_task. cbn.
  intros Hagree Hchk.
  destruct (k !! h) as [ t | ] eqn:Hk; [ | discriminate ].
  destruct (intake_monitor_task_function cfg t e) as [ [ [ [o' t'] e1 ] l ] | ] eqn:Hstep;
    [ | discriminate ].
  intros [= <- <- <-]. cbn.
  destruct ptr as [ h0 | ].
  - destruct Hagree as (t0 & ->).
    apply lookup_singleton_Some in Hk. destruct Hk as [ -> -> ].
    rewrite insert_singleton_eq. split; [ eauto | ].
    intros h1 t1 Hl Hpc. apply lookup_singleton_Some in Hl. destruct Hl as [ <- <- ].
    pose proof (step_target _ _ _ _ _ _ Hstep Hpc) as Hst.
    destruct o'; try (destruct Hst as [ Ht' _ ]; exact Ht').
    + destruct Hst as [ Hpc0 -> ].
      apply (Hchk h t); [ apply lookup_singleton_eq | exact Hpc0 ].
    + destruct Hst as [ Hpc0 -> ].
      apply (Hchk h t); [ apply lookup_singleton_eq | exact Hpc0 ].
  - subst k. rewrite lookup_empty in Hk. discriminate.
Qed.

Lemma checks_under_desired_opcontrol (r1 a : bool) (s s' : System) log :
  one_monitor s ->
  checks_under_desired cfg s ->
  opcontrol cfg r1 a s = Some (tt, s', log) ->
  checks_under_desired cfg s'.
Proof.
  destruct s as [e d ptr k nh]. unfold one_monitor, checks_under_desired. cbn.
  intros Hinv Hchk.
  unfold opcontrol, startMonitoringTask, stopMonitoringTask, lift, set_direction,
    task_create, task_remove, set_intake_monitor_task, move_velocity, delay, emit,
    bind, ret.
  destruct r1, a, d, ptr as [ h | ]; cbn; intros [= <- <-]; cbn;
    repeat match goal with
           | H : _ /\ _ |- _ => destruct H
           | H : exists _, _ |- _ => destruct H
           | H : FORWARD = _ |- _ => discriminate H
           | H : _ = FORWARD |- _ => discriminate H
           end; subst;
    rewrite ?insert_empty, ?delete_singleton_eq, ?delete_empty;
    intros h1 t1 Hl Hpc;
    try (rewrite lookup_empty in Hl; discriminate Hl);
    try reflexivity;
    try (exact (Hchk h1 t1 Hl Hpc)).
Qed.

Lemma toggle_schedule_inv (l : list Turn) : forall (s s' : System) log,
  one_monitor s ->
  checks_under_desired cfg s ->
  schedule cfg l s = Some (tt, s', log) ->
  one_monitor s' /\ checks_under_desired cfg s'.
Proof.
  induction l as [ | x l IH ]; intros s s' log Hinv Hchk Hrun.
  - cbn in Hrun. unfold ret in Hrun. injection Hrun as <- <-. auto.
  - cbn [schedule] in Hrun. apply bind_Some in Hrun.
    destruct Hrun as ([] & s1 & l1 & l2 & Hturn & Hrest & ->).
    assert (Hs1 : one_monitor s1 /\ checks_under_desired cfg s1).
    { destruct x as [ r1 a | h ]; cbn [turn] in Hturn.
      - split.
        + exact (one_monitor_opcontrol cfg _ _ _ _ _ Hinv Hturn).
        + exact (checks_under_desired_opcontrol _ _ _ _ _ Hinv Hchk Hturn).
      - apply bind_Some in Hturn.
        destruct Hturn as (o & s2 & l3 & l4 & Hres & Hret & _).
        unfold ret in Hret. injection Hret as <- _. split.
        + exact (one_monitor_resume cfg _ _ _ _ _ Hinv Hres).
        + exact (proj2 (checks_under_desired_resume _ _ _ _ _
                          (one_monitor_agrees s Hinv) Hchk Hres)). }
    destruct Hs1 as [ Hinv1 Hchk1 ]. exact (IH s1 s' l2 Hinv1 Hchk1 Hrest).
Qed.

Lemma hold_opcontrol_inv (r1 : bool) (s s' : System) log :
  handle_agrees s ->
  checks_under_desired cfg s ->
  opcontrol_hold cfg r1 s = Some (tt, s', log) ->
  handle_agrees s' /\ checks_under_desired cfg s'.
Proof.
  destruct s as [e d ptr k nh]. unfold handle_agrees, checks_under_desired. cbn.
  intros Hagree Hchk.
  unfold opcontrol_hold, startMonitoringTask, stopMonitoringTask, lift,
    task_create, task_remove, set_intake_monitor_task, move_velocity, delay, emit,
    bind, ret.
  destruct r1, ptr as [ h | ]; cbn; intros [= <- <-]; cbn;
    repeat match goal with
           | H : exists _, _ |- _ => destruct H
           end; subst;
    rewrite ?insert_empty, ?delete_singleton_eq, ?delete_empty;
    (split; [ eauto | ]);
    intros h1 t1 Hl Hpc;
    try (rewrite lookup_empty in Hl; discriminate Hl);
    reflexivity.
Qed.

Lemma hold_schedule_inv (l : list HoldTurn) : forall (s s' : System) log,
  handle_agrees s ->
  checks_under_desired cfg s ->
  hold_schedule cfg l s = Some (tt, s', log) ->
  handle_agrees s' /\ checks_under_desired cfg s'.
Proof.
  induction l as [ | x l IH ]; intros s s' log Hagree Hchk Hrun.
  - cbn in Hrun. unfold ret in Hrun. injection Hrun as <- <-. auto.
  - cbn [hold_schedule] in Hrun. apply bind_Some in Hrun.
    destruct Hrun as ([] & s1 & l1 & l2 & Hturn & Hrest & ->).
    assert (Hs1 : handle_agrees s1 /\ checks_under_desired cfg s1).
    { destruct x as [ r1 | h ]; cbn [hold_turn] in Hturn.
      - exact (hold_opcontrol_inv _ _ _ _ Hagree Hchk Hturn).
      - apply bind_Some in Hturn.
        destruct Hturn as (o & s2 & l3 & l4 & Hres & Hret & _).
        unfold ret in Hret. injection Hret as <- _.
        exact (checks_under_desired_resume _ _ _ _ _ Hagree Hchk Hres). }
    destruct Hs1 as [ Ha1 Hc1 ]. exact (IH s1 s' l2 Ha1 Hc1 Hrest).
Qed.

Lemma boot_inv (e : Env) :
  one_monitor (boot e) /\ handle_agrees (boot e) /\ checks_under_desired cfg (boot e).
Proof.
  split; [ reflexivity | ]. split; [ reflexivity | ].
  intros h t Hl. cbn in Hl. rewrite lookup_empty in Hl. discriminate.
Qed.

(** A resumption that reports a stall found the task at its loop head. *)
Lemma resume_stuck_at_loop_head (h : nat) (s s' : System) log :
  resume_task cfg h s = Some (Stuck, s', log) ->
  exists t, kernel s !! h = Some t /\ pc t = AtLoopHead.
Proof.
  unfold resume_task. destruct (kernel s !! h) as [ t | ]; [ | discriminate ].
  destruct (intake_monitor_task_function cfg t (env s))
    as [ [ [ [o t'] e1 ] l ] | ] eqn:Hstep; [ | discriminate ].
  intros [= -> <- <-]. exists t. split; [ reflexivity | ].
  destruct (stuck_inv cfg _ _ _ _ _ _ Hstep) as [ Hiff _ ].
  exact (proj1 (proj1 Hiff eq_refl)).
Qed.

End Restore.

Section Part000Restore.

Import Part000.

Lemma part000_step_target (p p' : Pc) (e e' : Env) o log :
  intake_monitor_task p e = Some ((o, p'), e', log) ->
  p' = AtLoopHead ->
  match o with
  | Stuck | Waiting =>
      target_velocity e' = desired_velocity /\
      exists log0, log = log0 ++ [MoveVelocity desired_velocity; Delay 20]
  | NotStuck =>
      p = AtLoopHead /\ target_velocity e' = target_velocity e
  end.
Proof.
  destruct e as [tv vs sts hs]. unfold_prog.
  destruct p; cbn.
  - destruct vs as [ | v vs ]; cbn; [ discriminate | ].
    destruct (Qltb (Qabs v) (inject_Z velocity_threshold)); cbn.
    + destruct (negb (tv =? 0)); cbn.
      * destruct sts as [ | b sts ]; cbn; [ discriminate | ].
        destruct b; cbn; intros [= <- <- <- <-]; cbn; [ | discriminate ].
        intros _. split; [ reflexivity | ].
        exists [LcdPrint 0 "Intake stuck! Reversing...";
                MoveRelative (- reverse_degrees) reverse_speed]. reflexivity.
      * intros [= <- <- <- <-]; cbn; auto.
    + intros [= <- <- <- <-]; cbn; auto.
  - destruct sts as [ | b sts ]; cbn; [ discriminate | ].
    destruct b; cbn; intros [= <- <- <- <-]; cbn; [ | discriminate ].
    intros _. split; [ reflexivity | ]. exists []. reflexivity.
Qed.

Lemma part000_turn_inv (x : Turn) (p p' : Pc) (e e' : Env) log :
  turn x p e = Some (p', e', log) ->
  (p = AtLoopHead -> target_velocity e = 0 \/ target_velocity e = desired_velocity) ->
  p' = AtLoopHead ->
  target_velocity e' = 0 \/ target_velocity e' = desired_velocity.
Proof.
  destruct x as [ r1 | ]; cbn [turn]; intros Hturn Hinv Hp'.
  - destruct r1; cbv in Hturn; injection Hturn as <- <- <-; cbn; auto.
  - apply bind_Some in Hturn.
    destruct Hturn as ([o p1] & e1 & l1 & l2 & Hstep & Hret & _).
    unfold ret in Hret. cbn in Hret. injection Hret as <- <- _.
    pose proof (part000_step_target _ _ _ _ _ _ Hstep Hp') as Hst.
    destruct o.
    + right. exact (proj1 Hst).
    + destruct Hst as [ Hp -> ]. exact (Hinv Hp).
    + right. exact (proj1 Hst).
Qed.

Lemma part000_schedule_inv (l : list Turn) : forall (p p' : Pc) (e e' : Env) log,
  schedule l p e = Some (p', e', log) ->
  (p = AtLoopHead -> target_velocity e = 0 \/ target_velocity e = desired_velocity) ->
  p' = AtLoopHead ->
  target_velocity e' = 0 \/ target_velocity e' = desired_velocity.
Proof.
  induction l as [ | x l IH ]; intros p p' e e' log Hrun Hinv Hp'.
  - cbn in Hrun. unfold ret in Hrun. injection Hrun as <- <- _. exact (Hinv Hp').
  - cbn [schedule] in Hrun. apply bind_Some in Hrun.
    destruct Hrun as (p1 & e1 & l1 & l2 & Hturn & Hrest & _).
    apply (IH p1 p' e1 e' l2 Hrest); [ | exact Hp' ].
    exact (part000_turn_inv x p p1 e e1 l1 Hturn Hinv).
Qed.

Lemma part000_opcontrol_inv (r1 : bool) (l : list Turn) (p : Pc) (e e' : Env) log :
  opcontrol r1 l e = Some (p, e', log) ->
  p = AtLoopHead ->
  target_velocity e' = 0 \/ target_velocity e' = desired_velocity.
Proof.
  unfold opcontrol. intros Hrun. apply bind_Some in Hrun.
  destruct Hrun as ([] & e1 & l1 & l2 & Hfirst & Hrest & _).
  apply (part000_schedule_inv l _ _ _ _ _ Hrest).
  intros _. destruct r1; cbv in Hfirst; injection Hfirst as <- _; cbn; auto.
Qed.

End Part000Restore.

(** The monitor does not remember what was commanded: it ends every
    recovery with the constant.  Under a command of -600 the toggle
    variant would end its recovery by commanding 600; the invariants
    above show that its operator loop never lets it check under -600. *)
Example recovery_commands_the_constant :
  HighStakes.run HighStakes.toggle_variant 1
    (HighStakes.mkTask HighStakes.AtLoopHead false false)
    (mkEnv (-600) [10%Q; 0%Q] [] [])
  = Some (([HighStakes.Stuck], HighStakes.mkTask HighStakes.AtLoopHead false false),
          mkEnv 600 [] [] [],
          [LcdPrint 0 "Intake stuck! Reversing...";
           LcdPrintVelocity 2 "Current velocity: %.2f" 10;
           MoveRelative (-90) (-100); MoveVelocity 600; Delay 20]).
Proof. reflexivity. Qed.

(* ===================================================================== *)
(** ** Colour sorting *)
(* ===================================================================== *)

Section Colours.

Import ColorSort.

Lemma AllianceColor_eqb_eq (a b : AllianceColor) :
  AllianceColor_eqb a b = true <-> a = b.
Proof. destruct a, b; cbn; split; congruence. Qed.

Lemma AllianceColor_eqb_neq (a b : AllianceColor) :
  AllianceColor_eqb a b = false <-> a <> b.
Proof. destruct a, b; cbn; split; congruence. Qed.

Lemma detectColor_RED (hue : Z) : detectColor hue = RED <-> 330 <= hue \/ hue <= 30.
Proof.
  unfold detectColor.
  destruct (Z.leb_spec 330 hue), (Z.leb_spec hue 30); cbn;
    try (split; [ intros _; lia | reflexivity ]).
  destruct (Z.leb_spec 210 hue), (Z.leb_spec hue 270); cbn;
    (split; [ discriminate | lia ]).
Qed.

Lemma detectColor_BLUE (hue : Z) : detectColor hue = BLUE <-> 210 <= hue <= 270.
Proof.
  unfold detectColor.
  destruct (Z.leb_spec 330 hue), (Z.leb_spec hue 30); cbn;
    try (split; [ discriminate | lia ]).
  destruct (Z.leb_spec 210 hue), (Z.leb_spec hue 270); cbn;
    try (split; [ discriminate | lia ]).
  split; [ intros _; lia | reflexivity ].
Qed.

Lemma detectColor_UNKNOWN (hue : Z) :
  detectColor hue = UNKNOWN <-> 30 < hue < 210 \/ 270 < hue < 330.
Proof.
  unfold detectColor.
  destruct (Z.leb_spec 330 hue), (Z.leb_spec hue 30); cbn;
    try (split; [ discriminate | lia ]).
  destruct (Z.leb_spec 210 hue), (Z.leb_spec hue 270); cbn;
    try (split; [ discriminate | lia ]);
    (split; [ intros _; lia | reflexivity ]).
Qed.

(** An iteration of [colorSortTask] on a colour that is neither the
    alliance's nor [UNKNOWN]. *)
Lemma colorSortTask_mismatch (alliance : AllianceColor) (tv : Z) (h : Q) hs vs sts :
  detectColor (Qtruncate h) <> alliance ->
  detectColor (Qtruncate h) <> UNKNOWN ->
  colorSortTask alliance (mkEnv tv vs sts (h :: hs))
  = Some (detectColor (Qtruncate h), mkEnv INTAKE_SPEED vs sts hs,
          [Delay TRAVEL_DELAY; MoveVelocity 0; SetText 2 0 "Color Mismatch!";
           Delay STOP_DELAY; MoveVelocity INTAKE_SPEED; Delay 50]).
Proof.
  intros Ha Hu. apply AllianceColor_eqb_neq in Ha, Hu.
  unfold colorSortTask, read_hue, bind, ret, delay, emit, get_hue, move_velocity,
    set_target. cbn.
  rewrite Ha, Hu. reflexivity.
Qed.

(** An iteration of [colorSortTask] on [UNKNOWN]. *)
Lemma colorSortTask_unknown (alliance : AllianceColor) (tv : Z) (h : Q) hs vs sts :
  detectColor (Qtruncate h) = UNKNOWN ->
  colorSortTask alliance (mkEnv tv vs sts (h :: hs))
  = Some (UNKNOWN, mkEnv tv vs sts hs,
          [SetText 2 0 (match alliance with
                        | UNKNOWN => "Color Match!"
                        | _ => "No Ring!"
                        end);
           Delay 50]).
Proof.
  intros Hu.
  unfold colorSortTask, read_hue, bind, ret, delay, emit, get_hue, move_velocity,
    set_target. cbn.
  rewrite Hu. destruct alliance; reflexivity.
Qed.

End Colours.

(** The monitors never look at the hue sensor. *)
Lemma monitor_ignores_hues (cfg : HighStakes.Config) (t : HighStakes.Task)
    (e : Env) (hs : list Q) :
  HighStakes.intake_monitor_task_function cfg t (ColorSort.with_hues hs e)
  = match HighStakes.intake_monitor_task_function cfg t e with
    | Some (r, e', log) => Some (r, ColorSort.with_hues hs e', log)
    | None => None
    end.
Proof.
  destruct t as [p r g], e as [tv vs sts hs0]. unfold ColorSort.with_hues.
  unfold_prog. destruct p; cbn.
  - destruct vs as [ | v vs ]; cbn; [ reflexivity | ].
    destruct g; cbn; [ reflexivity | ].
    rewrite ?abs_lt_whole.
    destruct (negb r && Qltb (Qabs v) (inject_Z HighStakes.VELOCITY_THRESHOLD)); cbn;
      [ | reflexivity ].
    destruct (negb (tv =? 0)); cbn; [ | reflexivity ].
    destruct vs as [ | w ws ]; cbn; [ reflexivity | ].
    destruct (Qltb 1 (abs (HighStakes.ABS cfg) w)); reflexivity.
  - destruct vs as [ | v vs ]; cbn; [ reflexivity | ].
    destruct (Qltb 1 (abs (HighStakes.ABS cfg) v)); reflexivity.
Qed.

Lemma part000_ignores_hues (p : Part000.Pc) (e : Env) (hs : list Q) :
  Part000.intake_monitor_task p (ColorSort.with_hues hs e)
  = match Part000.intake_monitor_task p e with
    | Some (r, e', log) => Some (r, ColorSort.with_hues hs e', log)
    | None => None
    end.
Proof.
  destruct e as [tv vs sts hs0]. unfold ColorSort.with_hues.
  unfold_prog. destruct p; cbn.
  - destruct vs as [ | v vs ]; cbn; [ reflexivity | ].
    destruct (Qltb (Qabs v) (inject_Z Part000.velocity_threshold)); cbn;
      [ | reflexivity ].
    destruct (negb (tv =? 0)); cbn; [ | reflexivity ].
    destruct sts as [ | b sts ]; cbn; [ reflexivity | ].
    destruct b; reflexivity.
  - destruct sts as [ | b sts ]; cbn; [ reflexivity | ].
    destruct b; reflexivity.
Qed.

(* ===================================================================== *)
(** ** The properties of the specification, C1 to C10 *)
(* ===================================================================== *)

(** C1, as stated, fails for the earlier monitor [intake_monitor_task],
    which has no grace period.  In its program R1 is held, so 200 is
    commanded; the first sample the monitor reads, at its first wake-up,
    is 0, and the motor answers that it has stopped.  The monitor makes
    its stuck check on that first sample, reports the stall and reverses
    at time 0 of its run. *)
Lemma C1_no_grace_counterexample :
  Part000.opcontrol true [] (mkEnv 0 [0%Q] [true] [])
  = Some (Part000.AtLoopHead, mkEnv 200 [0%Q] [true] [],
          [MoveVelocity 200; Delay 20]) /\
  Part000.run 1 Part000.AtLoopHead (mkEnv 200 [0%Q] [true] [])
  = Some (([Part000.Stuck], Part000.AtLoopHead), mkEnv 200 [] [] [],
          [LcdPrint 0 "Intake stuck! Reversing..."; MoveRelative (-90) (-100);
           MoveVelocity 200; Delay 20]) /\
  In (0, MoveRelative (-90) (-100))
     (timeline 0 [LcdPrint 0 "Intake stuck! Reversing..."; MoveRelative (-90) (-100);
                  MoveVelocity 200; Delay 20]) /\
  is_action (MoveRelative (-90) (-100)) = true.
Proof.
  split; [ reflexivity | ].
  split; [ reflexivity | ].
  split; [ cbn; right; left; reflexivity | reflexivity ].
Qed.

(** C1, amended: the grace window is a property of
    [intake_monitor_task_function] only.  The first wake-up of a
    (re)started task of that function, whatever is commanded and whatever
    sample it reads, takes the grace branch: it makes no stuck check,
    reports nothing and commands nothing, and sleeps for [SPIN_UP_GRACE]
    (1000 ms, 200 ms in the second copy).  In every run of a new task,
    every report and every motor command is issued [SPIN_UP_GRACE] ms or
    more after the start.  [startMonitoringTask] on a null handle creates
    such a new task.  The earlier monitor [intake_monitor_task] has no
    grace window: with a velocity other than 0 commanded and a first
    sample under 50 in magnitude, its first wake-up reports the stall and
    reverses, at time 0 of its run. *)
Theorem C1_grace_window_running :
  (forall cfg tv v vs sts hs,
      HighStakes.intake_monitor_task_function cfg HighStakes.new_task
        (mkEnv tv (v :: vs) sts hs)
      = Some ((HighStakes.GraceSkip,
               HighStakes.mkTask HighStakes.AtLoopHead false false),
              mkEnv tv vs sts hs, [Delay (HighStakes.SPIN_UP_GRACE cfg)])) /\
  (forall cfg n e os t e' log,
      HighStakes.run cfg n HighStakes.new_task e = Some ((os, t), e', log) ->
      forall tau ev, In (tau, ev) (timeline 0 log) -> is_action ev = true ->
                     HighStakes.SPIN_UP_GRACE cfg <= tau) /\
  (forall s,
      HighStakes.intake_monitor_task s = None ->
      exists s',
        HighStakes.startMonitoringTask s = Some (tt, s', []) /\
        HighStakes.intake_monitor_task s' = Some (HighStakes.next_handle s) /\
        HighStakes.kernel s' !! HighStakes.next_handle s = Some HighStakes.new_task) /\
  HighStakes.SPIN_UP_GRACE HighStakes.toggle_variant = 1000 /\
  HighStakes.SPIN_UP_GRACE HighStakes.hold_variant = 200 /\
  (forall tv v b vs sts hs,
      tv <> 0 ->
      (Qabs v < 50)%Q ->
      exists log',
        Part000.intake_monitor_task Part000.AtLoopHead
          (mkEnv tv (v :: vs) (b :: sts) hs)
        = Some ((Part000.Stuck,
                 if b then Part000.AtLoopHead else Part000.InStopWait),
                mkEnv (if b then Part000.desired_velocity else Part000.reverse_speed)
                      vs sts hs,
                [LcdPrint 0 "Intake stuck! Reversing..."; MoveRelative (-90) (-100)]
                  ++ log') /\
        In (0, MoveRelative (-90) (-100))
           (timeline 0 ([LcdPrint 0 "Intake stuck! Reversing...";
                         MoveRelative (-90) (-100)] ++ log'))).
Proof.
  split; [ | split; [ | split; [ | split; [ reflexivity | split; [ reflexivity | ] ] ] ] ].
  - intros. apply new_task_first_step.
  - intros cfg n e os t e' log Hrun. exact (grace_window_run cfg n _ _ _ _ _ Hrun).
  - intros s Hnone. unfold HighStakes.startMonitoringTask. rewrite Hnone.
    eexists. split; [ reflexivity | ]. cbn. split; [ reflexivity | ].
    apply lookup_insert_eq.
  - intros tv v b vs sts hs Hne Hv.
    eexists. split; [ apply part000_first_wake_up; assumption | ].
    cbn. right. left. reflexivity.
Qed.

(** C1 on a concrete run of the toggle variant: commanded 600, samples 0
    (start), 10 (stalled) and 0 (reverse motion over).  The reversal is
    issued at 1000 ms, the end of the grace delay. *)
Lemma C1_grace_window_witness :
  HighStakes.run HighStakes.toggle_variant 2 HighStakes.new_task
    (mkEnv 600 [0%Q; 10%Q; 0%Q] [] [])
  = Some (([HighStakes.GraceSkip; HighStakes.Stuck],
           HighStakes.mkTask HighStakes.AtLoopHead false false),
          mkEnv 600 [] [] [],
          [Delay 1000; LcdPrint 0 "Intake stuck! Reversing...";
           LcdPrintVelocity 2 "Current velocity: %.2f" 10;
           MoveRelative (-90) (-100); MoveVelocity 600; Delay 20]) /\
  HighStakes.SPIN_UP_GRACE HighStakes.toggle_variant <= 1000.
Proof.
  assert (Hrun :
    HighStakes.run HighStakes.toggle_variant 2 HighStakes.new_task
      (mkEnv 600 [0%Q; 10%Q; 0%Q] [] [])
    = Some (([HighStakes.GraceSkip; HighStakes.Stuck],
             HighStakes.mkTask HighStakes.AtLoopHead false false),
            mkEnv 600 [] [] [],
            [Delay 1000; LcdPrint 0 "Intake stuck! Reversing...";
             LcdPrintVelocity 2 "Current velocity: %.2f" 10;
             MoveRelative (-90) (-100); MoveVelocity 600; Delay 20]))
    by reflexivity.
  split; [ exact Hrun | ].
  apply (proj1 (proj2 C1_grace_window_running) _ _ _ _ _ _ _ Hrun
           1000 (MoveRelative (-90) (-100))).
  - cbn. do 3 right. left. reflexivity.
  - reflexivity.
Defined.

(** C2, as stated, fails.  R1 starts forward intake and the monitor; the
    monitor passes its grace delay, then reads 10, reverses and, reading
    80, waits.  A new press of R1 at that moment is not rejected: the
    motor is commanded 0, so the commanded velocity changes from -100 to
    0, and the monitor task is removed in the middle of its manoeuvre. *)
Lemma C2_manual_command_counterexample :
  HighStakes.schedule HighStakes.toggle_variant
    [HighStakes.Operator true false; HighStakes.MonitorTask 0; HighStakes.MonitorTask 0]
    (HighStakes.boot (mkEnv 0 [0%Q; 10%Q; 80%Q] [] []))
  = Some (tt,
          HighStakes.mkSystem (mkEnv (-100) [] [] []) HighStakes.FORWARD (Some 0%nat)
            {[ 0%nat := HighStakes.mkTask HighStakes.InReverseWait true false ]} 1%nat,
          [MoveVelocity 600; Delay 20; Delay 1000;
           LcdPrint 0 "Intake stuck! Reversing...";
           LcdPrintVelocity 2 "Current velocity: %.2f" 10;
           MoveRelative (-90) (-100); Delay 10]) /\
  HighStakes.opcontrol HighStakes.toggle_variant true false
    (HighStakes.mkSystem (mkEnv (-100) [] [] []) HighStakes.FORWARD (Some 0%nat)
       {[ 0%nat := HighStakes.mkTask HighStakes.InReverseWait true false ]} 1%nat)
  = Some (tt,
          HighStakes.mkSystem (mkEnv 0 [] [] []) HighStakes.STOPPED None ∅ 1%nat,
          [MoveVelocity 0; Delay 20]) /\
  target_velocity (mkEnv 0 [] [] []) <> target_velocity (mkEnv (-100) [] [] []).
Proof.
  split; [ vm_compute; reflexivity | ].
  split; [ vm_compute; reflexivity | discriminate ].
Qed.

(** C2, amended: the program has no arbiter and rejects nothing.  In
    every state the program can reach in which a monitor task is inside
    its recovery manoeuvre, a new press of R1 or of A is carried out at
    once: the motor is commanded 0 (R1) or [- DESIRED_VELOCITY] (A), the
    commanded velocity becomes that value, and the monitor task is
    removed; without a press [opcontrol] commands nothing. *)
Theorem C2_manual_command_applied_during_recovery :
  forall cfg l e s log h t,
    HighStakes.schedule cfg l (HighStakes.boot e) = Some (tt, s, log) ->
    HighStakes.kernel s !! h = Some t ->
    HighStakes.pc t = HighStakes.InReverseWait ->
    HighStakes.opcontrol cfg true false s
    = Some (tt,
            HighStakes.mkSystem (set_target 0 (HighStakes.env s)) HighStakes.STOPPED
              None ∅ (HighStakes.next_handle s),
            [MoveVelocity 0; Delay 20]) /\
    HighStakes.opcontrol cfg false true s
    = Some (tt,
            HighStakes.mkSystem
              (set_target (- HighStakes.DESIRED_VELOCITY cfg) (HighStakes.env s))
              HighStakes.BACKWARD None ∅ (HighStakes.next_handle s),
            [MoveVelocity (- HighStakes.DESIRED_VELOCITY cfg); Delay 20]) /\
    HighStakes.opcontrol cfg true true s
    = Some (tt,
            HighStakes.mkSystem
              (set_target (- HighStakes.DESIRED_VELOCITY cfg) (HighStakes.env s))
              HighStakes.BACKWARD None ∅ (HighStakes.next_handle s),
            [MoveVelocity 0; MoveVelocity (- HighStakes.DESIRED_VELOCITY cfg);
             Delay 20]) /\
    HighStakes.opcontrol cfg false false s = Some (tt, s, [Delay 20]).
Proof.
  intros cfg l e s log h t Hrun Hl _.
  apply (opcontrol_with_monitor cfg s h t); [ | exact Hl ].
  exact (one_monitor_schedule cfg l _ _ _ (one_monitor_boot e) Hrun).
Qed.

(** C2 (amended) in the state of the counterexample. *)
Lemma C2_manual_command_witness :
  HighStakes.opcontrol HighStakes.toggle_variant true false
    (HighStakes.mkSystem (mkEnv (-100) [] [] []) HighStakes.FORWARD (Some 0%nat)
       {[ 0%nat := HighStakes.mkTask HighStakes.InReverseWait true false ]} 1%nat)
  = Some (tt,
          HighStakes.mkSystem (mkEnv 0 [] [] []) HighStakes.STOPPED None ∅ 1%nat,
          [MoveVelocity 0; Delay 20]).
Proof.
  apply (C2_manual_command_applied_during_recovery HighStakes.toggle_variant
           [HighStakes.Operator true false; HighStakes.MonitorTask 0;
            HighStakes.MonitorTask 0]
           (mkEnv 0 [0%Q; 10%Q; 80%Q] [] [])
           (HighStakes.mkSystem (mkEnv (-100) [] [] []) HighStakes.FORWARD (Some 0%nat)
              {[ 0%nat := HighStakes.mkTask HighStakes.InReverseWait true false ]} 1%nat)
           [MoveVelocity 600; Delay 20; Delay 1000;
            LcdPrint 0 "Intake stuck! Reversing...";
            LcdPrintVelocity 2 "Current velocity: %.2f" 10;
            MoveRelative (-90) (-100); Delay 10]
           0%nat (HighStakes.mkTask HighStakes.InReverseWait true false)).
  - vm_compute. reflexivity.
  - vm_compute. reflexivity.
  - reflexivity.
Defined.

(** C3, as stated, fails: the toggle variant, commanded 600, reads 0 at
    its start, then 10 (stalled), 80 and 0 while it waits for the reverse
    motion, and 20 ms after resuming reads 10 again.  It reports a second
    stall although no wake-up in between found the intake running. *)
Lemma C3_stalled_again_counterexample :
  HighStakes.run HighStakes.toggle_variant 5 HighStakes.new_task
    (mkEnv 600 [0%Q; 10%Q; 80%Q; 0%Q; 10%Q; 80%Q; 0%Q] [] [])
  = Some (([HighStakes.GraceSkip; HighStakes.Stuck; HighStakes.Waiting;
            HighStakes.Stuck; HighStakes.Waiting],
           HighStakes.mkTask HighStakes.AtLoopHead false false),
          mkEnv 600 [] [] [],
          [Delay 1000;
           LcdPrint 0 "Intake stuck! Reversing...";
           LcdPrintVelocity 2 "Current velocity: %.2f" 10;
           MoveRelative (-90) (-100); Delay 10;
           MoveVelocity 600; Delay 20;
           LcdPrint 0 "Intake stuck! Reversing...";
           LcdPrintVelocity 2 "Current velocity: %.2f" 10;
           MoveRelative (-90) (-100); Delay 10;
           MoveVelocity 600; Delay 20]) /\
  stalled_once_per_episode true
    [HighStakes.GraceSkip; HighStakes.Stuck; HighStakes.Waiting;
     HighStakes.Stuck; HighStakes.Waiting]
  = false.
Proof.
  split; reflexivity.
Qed.

(** C3, amended: in every run of a new monitor the log keeps to the
    discipline of the manoeuvre.  A stall is reported and a reversal
    [move_relative(-90, -100)] issued only while no reversal is under way,
    and the only motor command that follows a reversal is the
    [move_velocity(DESIRED_VELOCITY)] that ends it; there are as many
    reversals as stalls reported, and [reversing] is up exactly while the
    task is inside its wait loop.  The same discipline holds for the
    earlier monitor.  The first check after a manoeuvre may report a stall
    again: no reading as running is needed in between. *)
Theorem C3_no_stall_report_during_recovery :
  (forall cfg n e os t e' log,
      HighStakes.run cfg n HighStakes.new_task e = Some ((os, t), e', log) ->
      reversal_protocol 90 (-100) (HighStakes.DESIRED_VELOCITY cfg) false log
      = Some (in_reverse_wait (HighStakes.pc t)) /\
      count_reversals log = count_stuck os /\
      HighStakes.reversing t = in_reverse_wait (HighStakes.pc t)) /\
  (forall n e os p e' log,
      Part000.run n Part000.AtLoopHead e = Some ((os, p), e', log) ->
      reversal_protocol 90 (-100) 200 false log = Some (in_stop_wait p)).
Proof.
  split.
  - intros cfg n e os t e' log Hrun.
    destruct (run_protocol cfg n _ _ _ _ _ _ Hrun) as (Hp & Hc & Hf).
    split; [ exact Hp | ]. split; [ exact Hc | ]. apply Hf. reflexivity.
  - intros n e os p e' log Hrun.
    exact (part000_run_protocol n _ _ _ _ _ _ Hrun).
Qed.

(** C3 (amended) on the run of the counterexample: two stalls, two
    reversals, each ended before the next report. *)
Lemma C3_no_stall_report_witness :
  reversal_protocol 90 (-100) 600 false
    [Delay 1000;
     LcdPrint 0 "Intake stuck! Reversing...";
     LcdPrintVelocity 2 "Current velocity: %.2f" 10;
     MoveRelative (-90) (-100); Delay 10;
     MoveVelocity 600; Delay 20;
     LcdPrint 0 "Intake stuck! Reversing...";
     LcdPrintVelocity 2 "Current velocity: %.2f" 10;
     MoveRelative (-90) (-100); Delay 10;
     MoveVelocity 600; Delay 20]
  = Some false /\
  count_reversals
    [Delay 1000;
     LcdPrint 0 "Intake stuck! Reversing...";
     LcdPrintVelocity 2 "Current velocity: %.2f" 10;
     MoveRelative (-90) (-100); Delay 10;
     MoveVelocity 600; Delay 20;
     LcdPrint 0 "Intake stuck! Reversing...";
     LcdPrintVelocity 2 "Current velocity: %.2f" 10;
     MoveRelative (-90) (-100); Delay 10;
     MoveVelocity 600; Delay 20]
  = count_stuck [HighStakes.GraceSkip; HighStakes.Stuck; HighStakes.Waiting;
                 HighStakes.Stuck; HighStakes.Waiting] /\
  false = false.
Proof.
  apply (proj1 C3_no_stall_report_during_recovery HighStakes.toggle_variant 5%nat
           (mkEnv 600 [0%Q; 10%Q; 80%Q; 0%Q; 10%Q; 80%Q; 0%Q] [] [])
           _ (HighStakes.mkTask HighStakes.AtLoopHead false false)
           (mkEnv 600 [] [] [])).
  reflexivity.
Defined.

(** C4: with a commanded (target) velocity of 0 no wake-up of the monitor
    reports a stall or issues a reversal, whatever the actual velocity; at
    the loop head the wake-up does nothing but delay and the target stays
    0.  Both for [intake_monitor_task_function] (any constants) and for
    the earlier [intake_monitor_task]. *)
Theorem C4_zero_target_never_stalled :
  (forall cfg t e o t' e' log,
      target_velocity e = 0 ->
      HighStakes.intake_monitor_task_function cfg t e = Some ((o, t'), e', log) ->
      o <> HighStakes.Stuck /\ forall p s, ~ In (MoveRelative p s) log) /\
  (forall cfg r g v vs sts hs,
      HighStakes.intake_monitor_task_function cfg
        (HighStakes.mkTask HighStakes.AtLoopHead r g) (mkEnv 0 (v :: vs) sts hs)
      = Some ((if g then HighStakes.GraceSkip else HighStakes.NotStuck,
               HighStakes.mkTask HighStakes.AtLoopHead r false),
              mkEnv 0 vs sts hs,
              [Delay (if g then HighStakes.SPIN_UP_GRACE cfg else 20)])) /\
  (forall p e o p' e' log,
      target_velocity e = 0 ->
      Part000.intake_monitor_task p e = Some ((o, p'), e', log) ->
      o <> Part000.Stuck /\ forall q s, ~ In (MoveRelative q s) log) /\
  (forall v vs sts hs,
      Part000.intake_monitor_task Part000.AtLoopHead (mkEnv 0 (v :: vs) sts hs)
      = Some ((Part000.NotStuck, Part000.AtLoopHead), mkEnv 0 vs sts hs, [Delay 20])).
Proof.
  split; [ | split; [ | split ] ].
  - intros cfg t e o t' e' log Hz Hrun.
    destruct (stuck_inv cfg _ _ _ _ _ _ Hrun) as [Hiff Hrev].
    assert (Hns : o <> HighStakes.Stuck).
    { intros Hs. apply Hiff in Hs. destruct Hs as (_ & _ & _ & Hne & _). contradiction. }
    split; [ exact Hns | exact (Hrev Hns) ].
  - intros. apply zero_target_loop_head.
  - intros p e o p' e' log Hz Hrun.
    destruct (part000_stuck_inv _ _ _ _ _ _ Hrun) as [Hiff Hrev].
    assert (Hns : o <> Part000.Stuck).
    { intros Hs. apply Hiff in Hs. destruct Hs as (_ & Hne & _). contradiction. }
    split; [ exact Hns | exact (Hrev Hns) ].
  - intros. apply part000_zero_target_loop_head.
Qed.

(** C4 at a concrete input: the toggle variant resumed in its wait loop
    with target 0 and a sample of 0, and the earlier monitor at its loop
    head with target 0 and a sample of 0. *)
Lemma C4_zero_target_witness :
  (HighStakes.Waiting <> HighStakes.Stuck /\
   forall p s, ~ In (MoveRelative p s) [MoveVelocity 600; Delay 20]) /\
  (Part000.NotStuck <> Part000.Stuck /\
   forall q s, ~ In (MoveRelative q s) [Delay 20]).
Proof.
  split.
  - apply (proj1 C4_zero_target_never_stalled HighStakes.toggle_variant
             (HighStakes.mkTask HighStakes.InReverseWait true false)
             (mkEnv 0 [0%Q] [] []) HighStakes.Waiting
             (HighStakes.mkTask HighStakes.AtLoopHead false false)
             (mkEnv 600 [] [] [])); reflexivity.
  - apply (proj1 (proj2 (proj2 C4_zero_target_never_stalled))
             Part000.AtLoopHead (mkEnv 0 [0%Q] [] []) Part000.NotStuck
             Part000.AtLoopHead (mkEnv 0 [] [] [])); reflexivity.
Defined.

(** C5, as stated, fails: not every stall episode ends with the velocity
    commanded again.  In the toggle program R1 starts forward intake and
    the monitor; after its grace delay the monitor reads 10 with 600
    commanded, reverses and, reading 80, waits.  A new press of R1 at that
    moment commands 0 and removes the monitor task.  No task is left to
    end the manoeuvre: the reversal is never followed by
    [move_velocity(600)], and the velocity commanded is 0, not the 600
    from before the stall. *)
Lemma C5_cut_short_counterexample :
  HighStakes.schedule HighStakes.toggle_variant
    [HighStakes.Operator true false; HighStakes.MonitorTask 0]
    (HighStakes.boot (mkEnv 0 [0%Q; 10%Q; 80%Q] [] []))
  = Some (tt,
          HighStakes.mkSystem (mkEnv 600 [10%Q; 80%Q] [] []) HighStakes.FORWARD
            (Some 0%nat)
            {[ 0%nat := HighStakes.mkTask HighStakes.AtLoopHead false false ]} 1%nat,
          [MoveVelocity 600; Delay 20; Delay 1000]) /\
  HighStakes.schedule HighStakes.toggle_variant
    [HighStakes.MonitorTask 0; HighStakes.Operator true false]
    (HighStakes.mkSystem (mkEnv 600 [10%Q; 80%Q] [] []) HighStakes.FORWARD
       (Some 0%nat)
       {[ 0%nat := HighStakes.mkTask HighStakes.AtLoopHead false false ]} 1%nat)
  = Some (tt,
          HighStakes.mkSystem (mkEnv 0 [] [] []) HighStakes.STOPPED None ∅ 1%nat,
          [LcdPrint 0 "Intake stuck! Reversing...";
           LcdPrintVelocity 2 "Current velocity: %.2f" 10;
           MoveRelative (-90) (-100); Delay 10;
           MoveVelocity 0; Delay 20]) /\
  (forall h,
      HighStakes.resume_task HighStakes.toggle_variant h
        (HighStakes.mkSystem (mkEnv 0 [] [] []) HighStakes.STOPPED None ∅ 1%nat)
      = None) /\
  target_velocity (mkEnv 0 [] [] []) <> target_velocity (mkEnv 600 [10%Q; 80%Q] [] []).
Proof.
  split; [ vm_compute; reflexivity | ].
  split; [ vm_compute; reflexivity | ].
  split; [ intros h; reflexivity | discriminate ].
Qed.

(** C5, amended: a stall episode that the operator does not cut short.
    On a stall the monitor issues the bounded reversal
    [move_relative(-90, -100)] and polls every 10 ms until the motion is
    over, then commands [DESIRED_VELOCITY].  The motion is over at the
    first reading for which [abs(v) > 1] fails: a magnitude under 2 when
    [abs] is [int abs(int)], as in both variants, a magnitude of at most 1
    when it is the overload on [double]; at the first answer yes of
    [is_stopped()] in the earlier monitor.  A wake-up that ends a
    manoeuvre leaves [DESIRED_VELOCITY] commanded, also when other tasks
    ran during the wait.  In each of the three programs, whenever the
    monitor reports a stall the velocity commanded at that moment is
    [DESIRED_VELOCITY]: the command after the recovery is the command from
    before the stall. *)
Theorem C5_recovery_restores_commanded_velocity :
  (forall cfg tv v w ws vs sts hs,
      tv <> 0 ->
      (Qabs v < 50)%Q ->
      Forall (still_reversing (HighStakes.ABS cfg)) ws ->
      ~ still_reversing (HighStakes.ABS cfg) w ->
      HighStakes.run cfg (S (List.length ws))
        (HighStakes.mkTask HighStakes.AtLoopHead false false)
        (mkEnv tv (v :: ws ++ w :: vs) sts hs)
      = Some ((HighStakes.Stuck :: repeat HighStakes.Waiting (List.length ws),
               HighStakes.mkTask HighStakes.AtLoopHead false false),
              mkEnv (HighStakes.DESIRED_VELOCITY cfg) vs sts hs,
              [LcdPrint 0 "Intake stuck! Reversing...";
               LcdPrintVelocity 2 "Current velocity: %.2f" v;
               MoveRelative (-90) (-100)]
                ++ repeat (Delay 10) (List.length ws)
                ++ [MoveVelocity (HighStakes.DESIRED_VELOCITY cfg); Delay 20])) /\
  (forall tv v k vs sts hs,
      tv <> 0 ->
      (Qabs v < 50)%Q ->
      Part000.run (S k) Part000.AtLoopHead
        (mkEnv tv (v :: vs) (repeat false k ++ true :: sts) hs)
      = Some ((Part000.Stuck :: repeat Part000.Waiting k, Part000.AtLoopHead),
              mkEnv Part000.desired_velocity vs sts hs,
              [LcdPrint 0 "Intake stuck! Reversing..."; MoveRelative (-90) (-100)]
                ++ repeat (Delay 10) k
                ++ [MoveVelocity Part000.desired_velocity; Delay 20])) /\
  (forall cfg t e o t' e' log,
      HighStakes.intake_monitor_task_function cfg t e = Some ((o, t'), e', log) ->
      o = HighStakes.Stuck \/ o = HighStakes.Waiting ->
      HighStakes.pc t' = HighStakes.AtLoopHead ->
      target_velocity e' = HighStakes.DESIRED_VELOCITY cfg /\
      exists log0,
        log = log0 ++ [MoveVelocity (HighStakes.DESIRED_VELOCITY cfg); Delay 20]) /\
  (forall p e o e' log,
      Part000.intake_monitor_task p e = Some ((o, Part000.AtLoopHead), e', log) ->
      o = Part000.Stuck \/ o = Part000.Waiting ->
      target_velocity e' = Part000.desired_velocity /\
      exists log0, log = log0 ++ [MoveVelocity Part000.desired_velocity; Delay 20]) /\
  (forall cfg l e s log h s' log',
      HighStakes.schedule cfg l (HighStakes.boot e) = Some (tt, s, log) ->
      HighStakes.resume_task cfg h s = Some (HighStakes.Stuck, s', log') ->
      target_velocity (HighStakes.env s) = HighStakes.DESIRED_VELOCITY cfg) /\
  (forall cfg l e s log h s' log',
      HighStakes.hold_schedule cfg l (HighStakes.boot e) = Some (tt, s, log) ->
      HighStakes.resume_task cfg h s = Some (HighStakes.Stuck, s', log') ->
      target_velocity (HighStakes.env s) = HighStakes.DESIRED_VELOCITY cfg) /\
  (forall r1 l e p e1 log p2 e2 log2,
      Part000.opcontrol r1 l e = Some (p, e1, log) ->
      Part000.intake_monitor_task p e1 = Some ((Part000.Stuck, p2), e2, log2) ->
      target_velocity e1 = Part000.desired_velocity) /\
  HighStakes.DESIRED_VELOCITY HighStakes.toggle_variant = 600 /\
  HighStakes.DESIRED_VELOCITY HighStakes.hold_variant = 200 /\
  Part000.desired_velocity = 200 /\
  HighStakes.ABS HighStakes.toggle_variant = abs_int /\
  HighStakes.ABS HighStakes.hold_variant = abs_int.
Proof.
  repeat match goal with |- _ /\ _ => split end; try reflexivity.
  - intros cfg tv v w ws vs sts hs Hne Hv Hws Hw.
    apply recovery_run; [ assumption | assumption | | ].
    + revert Hws. apply List.Forall_impl. intros x Hx.
      apply still_reversing_abs. exact Hx.
    + apply Qnot_lt_le. intros Hlt. apply Hw.
      apply still_reversing_abs. exact Hlt.
  - intros. apply part000_recovery_run; assumption.
  - intros cfg t e o t' e' log Hstep Ho Hpc.
    pose proof (step_target cfg _ _ _ _ _ _ Hstep Hpc) as Hst.
    destruct Ho as [ -> | -> ]; exact Hst.
  - intros p e o e' log Hstep Ho.
    pose proof (part000_step_target _ _ _ _ _ _ Hstep eq_refl) as Hst.
    destruct Ho as [ -> | -> ]; exact Hst.
  - intros cfg l e s log h s' log' Hrun Hres.
    destruct (boot_inv cfg e) as (Hb1 & _ & Hb3).
    destruct (toggle_schedule_inv cfg l _ _ _ Hb1 Hb3 Hrun) as [ _ Hchk ].
    destruct (resume_stuck_at_loop_head cfg _ _ _ _ Hres) as (t & Hl & Hpc).
    exact (Hchk h t Hl Hpc).
  - intros cfg l e s log h s' log' Hrun Hres.
    destruct (boot_inv cfg e) as (_ & Hb2 & Hb3).
    destruct (hold_schedule_inv cfg l _ _ _ Hb2 Hb3 Hrun) as [ _ Hchk ].
    destruct (resume_stuck_at_loop_head cfg _ _ _ _ Hres) as (t & Hl & Hpc).
    exact (Hchk h t Hl Hpc).
  - intros r1 l e p e1 log p2 e2 log2 Hrun Hstep.
    destruct (part000_stuck_inv _ _ _ _ _ _ Hstep) as [ Hiff _ ].
    destruct (proj1 Hiff eq_refl) as (Hp & Hne & _).
    destruct (part000_opcontrol_inv _ _ _ _ _ _ Hrun Hp) as [ Hz | Hd ];
      [ contradiction | exact Hd ].
Qed.

(** C5 on a concrete stall of the toggle variant: commanded 600, sample
    10, then 80 and 40 while reversing and 3/2 at the end, which
    [int abs(int)] cuts down to 1. *)
Lemma C5_recovery_witness :
  HighStakes.run HighStakes.toggle_variant 3
    (HighStakes.mkTask HighStakes.AtLoopHead false false)
    (mkEnv 600 [10%Q; 80%Q; 40%Q; 3 # 2] [] [])
  = Some (([HighStakes.Stuck; HighStakes.Waiting; HighStakes.Waiting],
           HighStakes.mkTask HighStakes.AtLoopHead false false),
          mkEnv 600 [] [] [],
          [LcdPrint 0 "Intake stuck! Reversing...";
           LcdPrintVelocity 2 "Current velocity: %.2f" 10;
           MoveRelative (-90) (-100); Delay 10; Delay 10;
           MoveVelocity 600; Delay 20]) /\
  target_velocity
    (HighStakes.env
       (HighStakes.mkSystem (mkEnv 600 [10%Q; 80%Q] [] []) HighStakes.FORWARD
          (Some 0%nat)
          {[ 0%nat := HighStakes.mkTask HighStakes.AtLoopHead false false ]} 1%nat))
  = HighStakes.DESIRED_VELOCITY HighStakes.toggle_variant.
Proof.
  split.
  - apply (proj1 C5_recovery_restores_commanded_velocity HighStakes.toggle_variant
             600 10%Q (3 # 2) [80%Q; 40%Q] [] [] []).
    + discriminate.
    + reflexivity.
    + repeat (constructor; [ vm_compute; discriminate | ]). constructor.
    + vm_compute. intros H. apply H. reflexivity.
  - apply (proj1 (proj2 (proj2 (proj2 (proj2 C5_recovery_restores_commanded_velocity))))
             HighStakes.toggle_variant
             [HighStakes.Operator true false; HighStakes.MonitorTask 0]
             (mkEnv 0 [0%Q; 10%Q; 80%Q] [] [])
             _
             [MoveVelocity 600; Delay 20; Delay 1000]
             0%nat
             (HighStakes.mkSystem (mkEnv (-100) [] [] []) HighStakes.FORWARD
                (Some 0%nat)
                {[ 0%nat := HighStakes.mkTask HighStakes.InReverseWait true false ]}
                1%nat)
             [LcdPrint 0 "Intake stuck! Reversing...";
              LcdPrintVelocity 2 "Current velocity: %.2f" 10;
              MoveRelative (-90) (-100); Delay 10]).
    + vm_compute. reflexivity.
    + vm_compute. reflexivity.
Defined.

(** C6: at most one monitor task is live at any time.  Along every
    schedule of the operator loop and the monitor, in the toggle program
    and in the program of the second copy, the RTOS manages at most one
    monitor task and [intake_monitor_task] is the handle of that task or
    null.  [startMonitoringTask] changes nothing when the handle is set
    and [stopMonitoringTask] nothing when it is null; when
    [stopMonitoringTask] returns, the task has left the RTOS and is never
    resumed; a start right after that stop leaves exactly one task. *)
Theorem C6_at_most_one_monitor_task :
  (forall cfg l e s log,
      HighStakes.schedule cfg l (HighStakes.boot e) = Some (tt, s, log) ->
      one_monitor s /\ (size (HighStakes.kernel s) <= 1)%nat) /\
  (forall cfg l e s log,
      HighStakes.hold_schedule cfg l (HighStakes.boot e) = Some (tt, s, log) ->
      handle_agrees s /\ (size (HighStakes.kernel s) <= 1)%nat) /\
  (forall s h,
      HighStakes.intake_monitor_task s = Some h ->
      HighStakes.startMonitoringTask s = Some (tt, s, [])) /\
  (forall s,
      HighStakes.intake_monitor_task s = None ->
      HighStakes.stopMonitoringTask s = Some (tt, s, [])) /\
  (forall cfg s,
      handle_agrees s ->
      exists s1,
        HighStakes.stopMonitoringTask s = Some (tt, s1, []) /\
        HighStakes.kernel s1 = ∅ /\
        (forall h, HighStakes.resume_task cfg h s1 = None) /\
        exists s2,
          HighStakes.startMonitoringTask s1 = Some (tt, s2, []) /\
          size (HighStakes.kernel s2) = 1%nat).
Proof.
  split; [ | split; [ | split; [ | split ] ] ].
  - intros cfg l e s log Hrun.
    assert (Hinv : one_monitor s)
      by exact (one_monitor_schedule cfg l _ _ _ (one_monitor_boot e) Hrun).
    split; [ exact Hinv | ].
    exact (handle_agrees_size s (one_monitor_agrees s Hinv)).
  - intros cfg l e s log Hrun.
    destruct (boot_inv cfg e) as (_ & Hb2 & Hb3).
    destruct (hold_schedule_inv cfg l _ _ _ Hb2 Hb3 Hrun) as [ Hagree _ ].
    split; [ exact Hagree | exact (handle_agrees_size s Hagree) ].
  - exact start_when_running.
  - exact stop_when_stopped.
  - intros cfg s Hagree.
    destruct (stop_removes s Hagree) as (s1 & Hstop & Hk & Hptr & _ & _).
    exists s1. split; [ exact Hstop | ]. split; [ exact Hk | ]. split.
    + intros h. unfold HighStakes.resume_task. rewrite Hk, lookup_empty. reflexivity.
    + unfold HighStakes.startMonitoringTask. rewrite Hptr. eexists.
      split; [ reflexivity | ]. cbn. rewrite Hk, insert_empty.
      apply map_size_singleton.
Qed.

(** C6 on a concrete schedule: R1 starts the monitor, the monitor runs
    once, R1 stops it and R1 starts it again. *)
Lemma C6_at_most_one_monitor_witness :
  one_monitor
    (HighStakes.mkSystem (mkEnv 600 [] [] []) HighStakes.FORWARD (Some 1%nat)
       {[ 1%nat := HighStakes.new_task ]} 2%nat) /\
  (size (HighStakes.kernel
           (HighStakes.mkSystem (mkEnv 600 [] [] []) HighStakes.FORWARD (Some 1%nat)
              {[ 1%nat := HighStakes.new_task ]} 2%nat)) <= 1)%nat.
Proof.
  apply (proj1 C6_at_most_one_monitor_task HighStakes.toggle_variant
           [HighStakes.Operator true false; HighStakes.MonitorTask 0;
            HighStakes.Operator true false; HighStakes.Operator true false]
           (mkEnv 0 [0%Q] [] [])
           (HighStakes.mkSystem (mkEnv 600 [] [] []) HighStakes.FORWARD (Some 1%nat)
              {[ 1%nat := HighStakes.new_task ]} 2%nat)
           [MoveVelocity 600; Delay 20; Delay 1000; MoveVelocity 0; Delay 20;
            MoveVelocity 600; Delay 20]).
  vm_compute. reflexivity.
Defined.



(** C8: when the colour detected is neither the alliance's nor unknown,
    one iteration of [colorSortTask] first waits [TRAVEL_DELAY] = 100 ms
    without touching the motor, then commands velocity 0, waits
    [STOP_DELAY] = 200 ms and commands [INTAKE_SPEED] = 100, which is the
    commanded velocity when the iteration ends. *)
Theorem C8_eject_window :
  forall alliance tv h hs vs sts,
    ColorSort.detectColor (Qtruncate h) <> alliance ->
    ColorSort.detectColor (Qtruncate h) <> ColorSort.UNKNOWN ->
    ColorSort.colorSortTask alliance (mkEnv tv vs sts (h :: hs))
    = Some (ColorSort.detectColor (Qtruncate h),
            mkEnv ColorSort.INTAKE_SPEED vs sts hs,
            [Delay 100; MoveVelocity 0; SetText 2 0 "Color Mismatch!";
             Delay 200; MoveVelocity 100; Delay 50]) /\
    (forall now,
        timeline now
          [Delay 100; MoveVelocity 0; SetText 2 0 "Color Mismatch!";
           Delay 200; MoveVelocity 100; Delay 50]
        = [(now, Delay 100);
           (now + 100, MoveVelocity 0);
           (now + 100, SetText 2 0 "Color Mismatch!");
           (now + 100, Delay 200);
           (now + 100 + 200, MoveVelocity 100);
           (now + 100 + 200, Delay 50)]) /\
    ColorSort.TRAVEL_DELAY = 100 /\ ColorSort.STOP_DELAY = 200 /\
    ColorSort.INTAKE_SPEED = 100.
Proof.
  intros alliance tv h hs vs sts Ha Hu.
  split; [ exact (colorSortTask_mismatch alliance tv h hs vs sts Ha Hu) | ].
  repeat split; reflexivity.
Qed.

(** C8 for a red alliance and a blue ring (hue 240.5) while 600 is
    commanded. *)
Lemma C8_eject_window_witness :
  ColorSort.colorSortTask ColorSort.RED (mkEnv 600 [] [] [(481 # 2)%Q])
  = Some (ColorSort.BLUE, mkEnv 100 [] [] [],
          [Delay 100; MoveVelocity 0; SetText 2 0 "Color Mismatch!";
           Delay 200; MoveVelocity 100; Delay 50]).
Proof.
  apply (proj1 (C8_eject_window ColorSort.RED 600 (481 # 2)%Q [] [] []
                  ltac:(discriminate) ltac:(discriminate))).
Defined.

(** C9: an iteration of [colorSortTask] that detects [UNKNOWN] writes one
    line to the controller screen and sleeps: it commands nothing and the
    commanded velocity is the one from before.  The monitors do not read
    the hue sensor, so no reading of it makes them reverse. *)
Theorem C9_unknown_commands_nothing :
  (forall alliance tv h hs vs sts,
      ColorSort.detectColor (Qtruncate h) = ColorSort.UNKNOWN ->
      ColorSort.colorSortTask alliance (mkEnv tv vs sts (h :: hs))
      = Some (ColorSort.UNKNOWN, mkEnv tv vs sts hs,
              [SetText 2 0 (match alliance with
                            | ColorSort.UNKNOWN => "Color Match!"
                            | _ => "No Ring!"
                            end);
               Delay 50]) /\
      motor_commands
        [SetText 2 0 (match alliance with
                      | ColorSort.UNKNOWN => "Color Match!"
                      | _ => "No Ring!"
                      end);
         Delay 50] = []) /\
  (forall cfg t e hs,
      HighStakes.intake_monitor_task_function cfg t (ColorSort.with_hues hs e)
      = match HighStakes.intake_monitor_task_function cfg t e with
        | Some (r, e', log) => Some (r, ColorSort.with_hues hs e', log)
        | None => None
        end) /\
  (forall p e hs,
      Part000.intake_monitor_task p (ColorSort.with_hues hs e)
      = match Part000.intake_monitor_task p e with
        | Some (r, e', log) => Some (r, ColorSort.with_hues hs e', log)
        | None => None
        end).
Proof.
  split; [ | split ].
  - intros alliance tv h hs vs sts Hu.
    split; [ exact (colorSortTask_unknown alliance tv h hs vs sts Hu) | reflexivity ].
  - exact monitor_ignores_hues.
  - exact part000_ignores_hues.
Qed.

(** C9 for a red alliance and a hue of 90 while 600 is commanded. *)
Lemma C9_unknown_witness :
  ColorSort.colorSortTask ColorSort.RED (mkEnv 600 [] [] [90%Q])
  = Some (ColorSort.UNKNOWN, mkEnv 600 [] [] [], [SetText 2 0 "No Ring!"; Delay 50]).
Proof.
  apply (proj1 (proj1 C9_unknown_commands_nothing ColorSort.RED 600 90%Q [] [] []
                  eq_refl)).
Defined.

(** C10: the comparison with the threshold is strict.  Past the grace
    period a sample whose magnitude is exactly 50 gives [NotStuck] and a
    plain 20 ms delay, whatever is commanded; a wake-up that reports
    [Stuck] has read a sample of magnitude strictly below 50; and with the
    flag down and a non-zero command every such sample is reported. *)
Theorem C10_threshold_is_strict :
  (forall cfg r tv v vs sts hs,
      (Qabs v == 50)%Q ->
      HighStakes.intake_monitor_task_function cfg
        (HighStakes.mkTask HighStakes.AtLoopHead r false) (mkEnv tv (v :: vs) sts hs)
      = Some ((HighStakes.NotStuck, HighStakes.mkTask HighStakes.AtLoopHead r false),
              mkEnv tv vs sts hs, [Delay 20])) /\
  (forall cfg t e t' e' log,
      HighStakes.intake_monitor_task_function cfg t e
      = Some ((HighStakes.Stuck, t'), e', log) ->
      exists v vs, velocities e = v :: vs /\ (Qabs v < 50)%Q) /\
  (forall cfg tv v w ws sts hs,
      tv <> 0 -> (Qabs v < 50)%Q ->
      exists t' e' log,
        HighStakes.intake_monitor_task_function cfg
          (HighStakes.mkTask HighStakes.AtLoopHead false false)
          (mkEnv tv (v :: w :: ws) sts hs)
        = Some ((HighStakes.Stuck, t'), e', log) /\
        In (MoveRelative (-90) (-100)) log) /\
  (forall tv v vs sts hs,
      (Qabs v == 50)%Q ->
      Part000.intake_monitor_task Part000.AtLoopHead (mkEnv tv (v :: vs) sts hs)
      = Some ((Part000.NotStuck, Part000.AtLoopHead), mkEnv tv vs sts hs, [Delay 20])) /\
  (forall p e p' e' log,
      Part000.intake_monitor_task p e = Some ((Part000.Stuck, p'), e', log) ->
      exists v vs, velocities e = v :: vs /\ (Qabs v < 50)%Q) /\
  (forall tv v vs b sts hs,
      tv <> 0 -> (Qabs v < 50)%Q ->
      exists p' e' log,
        Part000.intake_monitor_task Part000.AtLoopHead (mkEnv tv (v :: vs) (b :: sts) hs)
        = Some ((Part000.Stuck, p'), e', log) /\
        In (MoveRelative (-90) (-100)) log).
Proof.
  repeat match goal with |- _ /\ _ => split end.
  - intros cfg r tv v vs sts hs Hv. unfold_prog.
    rewrite (Qltb_eq_false (Qabs v) (inject_Z HighStakes.VELOCITY_THRESHOLD) Hv).
    rewrite andb_false_r. reflexivity.
  - intros cfg t e t' e' log Hrun.
    destruct (stuck_inv cfg _ _ _ _ _ _ Hrun) as [Hiff _].
    destruct (proj1 Hiff eq_refl) as (_ & _ & _ & _ & v & vs & Hvs & Hv).
    exists v, vs. split; assumption.
  - intros cfg tv v w ws sts hs Hne Hv. unfold_prog.
    apply Qltb_true in Hv.
    change (inject_Z HighStakes.VELOCITY_THRESHOLD) with 50%Q. rewrite Hv. cbn.
    destruct (Z.eqb_spec tv 0) as [ ? | _ ]; [ contradiction | ]. cbn.
    destruct (Qltb 1 (abs (HighStakes.ABS cfg) w)); cbn; do 3 eexists; (split; [ reflexivity | ]);
      cbn; auto.
  - intros tv v vs sts hs Hv. unfold_prog.
    rewrite (Qltb_eq_false (Qabs v) (inject_Z Part000.velocity_threshold) Hv).
    reflexivity.
  - intros p e p' e' log Hrun.
    destruct (part000_stuck_inv _ _ _ _ _ _ Hrun) as [Hiff _].
    destruct (proj1 Hiff eq_refl) as (_ & _ & v & vs & Hvs & Hv).
    exists v, vs. split; assumption.
  - intros tv v vs b sts hs Hne Hv. unfold_prog.
    apply Qltb_true in Hv.
    change (inject_Z Part000.velocity_threshold) with 50%Q. rewrite Hv. cbn.
    destruct (Z.eqb_spec tv 0) as [ ? | _ ]; [ contradiction | ]. cbn.
    destruct b; cbn; do 3 eexists; (split; [ reflexivity | ]); cbn; auto.
Qed.

(** C10 at concrete inputs: a sample of -50 under a command of 600 is not
    a stall, a sample of 49 is. *)
Lemma C10_threshold_witness :
  HighStakes.intake_monitor_task_function HighStakes.toggle_variant
    (HighStakes.mkTask HighStakes.AtLoopHead false false)
    (mkEnv 600 [(-50)%Q] [] [])
  = Some ((HighStakes.NotStuck, HighStakes.mkTask HighStakes.AtLoopHead false false),
          mkEnv 600 [] [] [], [Delay 20]) /\
  (exists t' e' log,
      HighStakes.intake_monitor_task_function HighStakes.toggle_variant
        (HighStakes.mkTask HighStakes.AtLoopHead false false)
        (mkEnv 600 [49%Q; 0%Q] [] [])
      = Some ((HighStakes.Stuck, t'), e', log) /\
      In (MoveRelative (-90) (-100)) log).
Proof.
  split.
  - apply (proj1 C10_threshold_is_strict). reflexivity.
  - apply (proj1 (proj2 (proj2 C10_threshold_is_strict))).
    + discriminate.
    + reflexivity.
Defined.

(* ===================================================================== *)
(** ** Further properties of the code, X1 and following *)
(* ===================================================================== *)

Section ToggleProgram.
Variable cfg : HighStakes.Config.

Import HighStakes.

Lemma forward_iff_monitor_opcontrol (r1 a : bool) (s s' : System) log :
  forward_iff_monitor s ->
  opcontrol cfg r1 a s = Some (tt, s', log) ->
  forward_iff_monitor s'.
Proof.
  destruct s as [e d ptr k nh]. unfold forward_iff_monitor. cbn. intros Hinv.
  unfold opcontrol, startMonitoringTask, stopMonitoringTask, lift, set_direction,
    task_create, task_remove, set_intake_monitor_task, move_velocity, delay, emit,
    bind, ret.
  destruct r1, a, d, ptr as [ h | ]; cbn; intros [= <- <-]; cbn;
    try exact Hinv; split; intros H; try congruence; try discriminate H;
    try (exfalso; apply (proj1 Hinv); [ reflexivity | reflexivity ]);
    try (exfalso; apply (proj2 Hinv) in H; discriminate H);
    try (apply (proj2 Hinv); discriminate).
Qed.

Lemma forward_iff_monitor_resume (h : nat) (s s' : System) o log :
  forward_iff_monitor s ->
  resume_task cfg h s = Some (o, s', log) ->
  forward_iff_monitor s'.
Proof.
  destruct s as [e d ptr k nh]. unfold forward_iff_monitor, resume_task. cbn.
  intros Hinv.
  destruct (k !! h) as [ t | ]; [ | discriminate ].
  destruct (intake_monitor_task_function cfg t e) as [ [ [ [o' t'] e1 ] l ] | ];
    [ | discriminate ].
  intros [= <- <- <-]. exact Hinv.
Qed.

(** A wake-up keeps the commanded velocity in step with the resume point
    of the task: [DESIRED_VELOCITY] at the loop head, [REVERSE_SPEED] in
    the wait loop. *)
Lemma step_forward_target (t t' : Task) (e e' : Env) o log :
  intake_monitor_task_function cfg t e = Some ((o, t'), e', log) ->
  target_velocity e = forward_target cfg t ->
  target_velocity e' = forward_target cfg t'.
Proof.
  destruct t as [p r g], e as [tv vs sts hs]. unfold forward_target. unfold_prog.
  destruct p; cbn.
  - destruct vs as [ | v vs ]; cbn; [ discriminate | ].
    destruct g; cbn; [ intros [= <- <- <- <-]; cbn; auto | ].
    rewrite ?abs_lt_whole.
    destruct (negb r && Qltb (Qabs v) (inject_Z VELOCITY_THRESHOLD)); cbn.
    + destruct (negb (tv =? 0)); cbn.
      * destruct vs as [ | w ws ]; cbn; [ discriminate | ].
        destruct (Qltb 1 (abs (HighStakes.ABS cfg) w)); cbn; intros [= <- <- <- <-]; cbn; auto.
      * intros [= <- <- <- <-]; cbn; auto.
    + intros [= <- <- <- <-]; cbn; auto.
  - destruct vs as [ | v vs ]; cbn; [ discriminate | ].
    destruct (Qltb 1 (abs (HighStakes.ABS cfg) v)); cbn; intros [= <- <- <- <-]; cbn; auto.
Qed.

Lemma direction_agrees_opcontrol (r1 a : bool) (s s' : System) log :
  one_monitor s ->
  direction_agrees cfg s ->
  opcontrol cfg r1 a s = Some (tt, s', log) ->
  direction_agrees cfg s'.
Proof.
  destruct s as [e d ptr k nh]. unfold one_monitor, direction_agrees. cbn.
  intros Hinv Hdir.
  unfold opcontrol, startMonitoringTask, stopMonitoringTask, lift, set_direction,
    task_create, task_remove, set_intake_monitor_task, move_velocity, delay, emit,
    bind, ret.
  destruct r1, a, d, ptr as [ h | ]; cbn; intros [= <- <-]; cbn;
    repeat match goal with
           | H : _ /\ _ |- _ => destruct H
           | H : exists _, _ |- _ => destruct H
           | H : FORWARD = _ |- _ => discriminate H
           | H : _ = FORWARD |- _ => discriminate H
           end; subst;
    rewrite ?insert_empty, ?delete_singleton_eq, ?delete_empty;
    try reflexivity; try exact Hdir;
    intros h1 t1 Hl;
    try (rewrite lookup_empty in Hl; discriminate Hl);
    apply lookup_singleton_Some in Hl; destruct Hl as [ _ <- ]; reflexivity.
Qed.

Lemma direction_agrees_resume (h : nat) (s s' : System) o log :
  one_monitor s ->
  direction_agrees cfg s ->
  resume_task cfg h s = Some (o, s', log) ->
  direction_agrees cfg s'.
Proof.
  destruct s as [e d ptr k nh]. unfold one_monitor, direction_agrees, resume_task.
  cbn. intros Hinv Hdir.
  destruct (k !! h) as [ t | ] eqn:Hk; [ | discriminate ].
  destruct (intake_monitor_task_function cfg t e) as [ [ [ [o' t'] e1 ] l ] | ] eqn:Hstep;
    [ | discriminate ].
  intros [= <- <- <-]. cbn.
  destruct ptr as [ h0 | ].
  - destruct Hinv as (-> & t0 & ->).
    apply lookup_singleton_Some in Hk. destruct Hk as [ -> -> ].
    rewrite insert_singleton_eq. intros h1 t1 Hl.
    apply lookup_singleton_Some in Hl. destruct Hl as [ _ <- ].
    apply (step_forward_target _ _ _ _ _ _ Hstep).
    apply (Hdir h). apply lookup_singleton_eq.
  - subst k. rewrite lookup_empty in Hk. discriminate.
Qed.

Lemma toggle_program_inv (l : list Turn) : forall (s s' : System) log,
  one_monitor s -> forward_iff_monitor s -> direction_agrees cfg s ->
  schedule cfg l s = Some (tt, s', log) ->
  one_monitor s' /\ forward_iff_monitor s' /\ direction_agrees cfg s'.
Proof.
  induction l as [ | x l IH ]; intros s s' log Hone Hfwd Hdir Hrun.
  - cbn in Hrun. unfold ret in Hrun. injection Hrun as <- <-. auto.
  - cbn [schedule] in Hrun. apply bind_Some in Hrun.
    destruct Hrun as ([] & s1 & l1 & l2 & Hturn & Hrest & ->).
    assert (Hs1 : one_monitor s1 /\ forward_iff_monitor s1 /\ direction_agrees cfg s1).
    { destruct x as [ r1 a | h ]; cbn [turn] in Hturn.
      - split; [ | split ].
        + exact (one_monitor_opcontrol cfg _ _ _ _ _ Hone Hturn).
        + exact (forward_iff_monitor_opcontrol _ _ _ _ _ Hfwd Hturn).
        + exact (direction_agrees_opcontrol _ _ _ _ _ Hone Hdir Hturn).
      - apply bind_Some in Hturn.
        destruct Hturn as (o & s2 & l3 & l4 & Hres & Hret & _).
        unfold ret in Hret. injection Hret as <- _. split; [ | split ].
        + exact (one_monitor_resume cfg _ _ _ _ _ Hone Hres).
        + exact (forward_iff_monitor_resume _ _ _ _ _ Hfwd Hres).
        + exact (direction_agrees_resume _ _ _ _ _ Hone Hdir Hres). }
    destruct Hs1 as (H1 & H2 & H3). exact (IH s1 s' l2 H1 H2 H3 Hrest).
Qed.

Lemma forward_iff_monitor_schedule (l : list Turn) : forall (s s' : System) log,
  forward_iff_monitor s ->
  schedule cfg l s = Some (tt, s', log) ->
  forward_iff_monitor s'.
Proof.
  induction l as [ | x l IH ]; intros s s' log Hfwd Hrun.
  - cbn in Hrun. unfold ret in Hrun. injection Hrun as <- <-. exact Hfwd.
  - cbn [schedule] in Hrun. apply bind_Some in Hrun.
    destruct Hrun as ([] & s1 & l1 & l2 & Hturn & Hrest & ->).
    apply (IH s1 s' l2); [ | exact Hrest ].
    destruct x as [ r1 a | h ]; cbn [turn] in Hturn.
    + exact (forward_iff_monitor_opcontrol _ _ _ _ _ Hfwd Hturn).
    + apply bind_Some in Hturn.
      destruct Hturn as (o & s2 & l3 & l4 & Hres & Hret & _).
      unfold ret in Hret. injection Hret as <- _.
      exact (forward_iff_monitor_resume _ _ _ _ _ Hfwd Hres).
Qed.

Lemma forward_iff_monitor_boot (e : Env) : forward_iff_monitor (boot e).
Proof.
  split; [ discriminate | ]. intros H. exfalso. apply H. reflexivity.
Qed.

End ToggleProgram.

(** X1: in the toggle program a monitor task exists exactly while
    [intake_direction] is [FORWARD], along every schedule: it is started
    with forward intake and removed by whatever ends forward intake. *)
Theorem X1_monitor_iff_forward :
  forall cfg l e s log,
    HighStakes.schedule cfg l (HighStakes.boot e) = Some (tt, s, log) ->
    (HighStakes.intake_direction s = HighStakes.FORWARD <->
     exists h t, HighStakes.intake_monitor_task s = Some h /\
                 HighStakes.kernel s = {[ h := t ]}) /\
    (HighStakes.intake_direction s <> HighStakes.FORWARD <->
     HighStakes.intake_monitor_task s = None /\ HighStakes.kernel s = ∅).
Proof.
  intros cfg l e s log Hrun.
  pose proof (one_monitor_schedule cfg l _ _ _ (one_monitor_boot e) Hrun) as Hone.
  pose proof (forward_iff_monitor_schedule cfg l _ _ _
                (forward_iff_monitor_boot e) Hrun) as Hfwd.
  unfold one_monitor in Hone. unfold forward_iff_monitor in Hfwd.
  destruct (HighStakes.intake_monitor_task s) as [ h | ].
  - destruct Hone as (Hd & t & Hk). split.
    + split; [ intros _; exists h, t; auto | intros _; exact Hd ].
    + split; [ intros Hn; contradiction | intros [ Hn _ ]; discriminate Hn ].
  - split.
    + split.
      * intros Hd. apply Hfwd in Hd. exfalso. apply Hd. reflexivity.
      * intros (h & t & Hn & _). discriminate Hn.
    + split; [ intros _; auto | ].
      intros _ Hd. apply Hfwd in Hd. apply Hd. reflexivity.
Qed.

(** X1 on a concrete schedule: R1 (forward, monitor), then A (reverse, no
    monitor). *)
Lemma X1_monitor_iff_forward_witness :
  HighStakes.intake_direction
    (HighStakes.mkSystem (mkEnv (-600) [] [] []) HighStakes.BACKWARD None ∅ 1%nat)
  <> HighStakes.FORWARD <->
  HighStakes.intake_monitor_task
    (HighStakes.mkSystem (mkEnv (-600) [] [] []) HighStakes.BACKWARD None ∅ 1%nat)
  = None /\
  HighStakes.kernel
    (HighStakes.mkSystem (mkEnv (-600) [] [] []) HighStakes.BACKWARD None ∅ 1%nat)
  = ∅.
Proof.
  apply (X1_monitor_iff_forward HighStakes.toggle_variant
           [HighStakes.Operator true false; HighStakes.Operator false true]
           (mkEnv 0 [] [] [])
           (HighStakes.mkSystem (mkEnv (-600) [] [] []) HighStakes.BACKWARD None ∅ 1%nat)
           [MoveVelocity 600; Delay 20; MoveVelocity (-600); Delay 20]).
  vm_compute. reflexivity.
Defined.

(** X2: in the toggle program, entered with nothing commanded,
    [intake_direction] always tells what is commanded: 0 when [STOPPED],
    [- DESIRED_VELOCITY] when [BACKWARD]; when [FORWARD] there is one
    monitor and the command is [DESIRED_VELOCITY] while that monitor is at
    its loop head and [REVERSE_SPEED] while it waits for its reversal. *)
Theorem X2_direction_tells_command :
  forall cfg l e s log,
    target_velocity e = 0 ->
    HighStakes.schedule cfg l (HighStakes.boot e) = Some (tt, s, log) ->
    match HighStakes.intake_direction s with
    | HighStakes.STOPPED => target_velocity (HighStakes.env s) = 0
    | HighStakes.BACKWARD =>
        target_velocity (HighStakes.env s) = - HighStakes.DESIRED_VELOCITY cfg
    | HighStakes.FORWARD =>
        exists h t,
          HighStakes.kernel s = {[ h := t ]} /\
          target_velocity (HighStakes.env s)
          = match HighStakes.pc t with
            | HighStakes.AtLoopHead => HighStakes.DESIRED_VELOCITY cfg
            | HighStakes.InReverseWait => HighStakes.REVERSE_SPEED
            end
    end.
Proof.
  intros cfg l e s log Hz Hrun.
  destruct (toggle_program_inv cfg l _ _ _ (one_monitor_boot e)
              (forward_iff_monitor_boot e) Hz Hrun) as (Hone & Hfwd & Hdir).
  unfold direction_agrees in Hdir. unfold one_monitor in Hone.
  unfold forward_iff_monitor in Hfwd.
  destruct (HighStakes.intake_direction s); try exact Hdir.
  destruct (HighStakes.intake_monitor_task s) as [ h | ].
  - destruct Hone as (_ & t & Hk). exists h, t. split; [ exact Hk | ].
    apply (Hdir h t). rewrite Hk. apply lookup_singleton_eq.
  - exfalso. apply (proj1 Hfwd); reflexivity.
Qed.

(** X2 on a concrete schedule: R1, grace delay, a stall that keeps the
    monitor waiting: [FORWARD] with [REVERSE_SPEED] commanded. *)
Lemma X2_direction_tells_command_witness :
  exists h t,
    HighStakes.kernel
      (HighStakes.mkSystem (mkEnv (-100) [] [] []) HighStakes.FORWARD (Some 0%nat)
         {[ 0%nat := HighStakes.mkTask HighStakes.InReverseWait true false ]} 1%nat)
    = {[ h := t ]} /\
    target_velocity
      (HighStakes.env
         (HighStakes.mkSystem (mkEnv (-100) [] [] []) HighStakes.FORWARD (Some 0%nat)
            {[ 0%nat := HighStakes.mkTask HighStakes.InReverseWait true false ]} 1%nat))
    = match HighStakes.pc t with
      | HighStakes.AtLoopHead => HighStakes.DESIRED_VELOCITY HighStakes.toggle_variant
      | HighStakes.InReverseWait => HighStakes.REVERSE_SPEED
      end.
Proof.
  apply (X2_direction_tells_command HighStakes.toggle_variant
           [HighStakes.Operator true false; HighStakes.MonitorTask 0;
            HighStakes.MonitorTask 0]
           (mkEnv 0 [0%Q; 10%Q; 80%Q] [] [])
           (HighStakes.mkSystem (mkEnv (-100) [] [] []) HighStakes.FORWARD (Some 0%nat)
              {[ 0%nat := HighStakes.mkTask HighStakes.InReverseWait true false ]} 1%nat)
           [MoveVelocity 600; Delay 20; Delay 1000;
            LcdPrint 0 "Intake stuck! Reversing...";
            LcdPrintVelocity 2 "Current velocity: %.2f" 10;
            MoveRelative (-90) (-100); Delay 10]).
  - reflexivity.
  - vm_compute. reflexivity.
Defined.

Section HoldProgram.
Variable cfg : HighStakes.Config.

Import HighStakes.

(** A wake-up of the monitor in the program of the second copy: the
    command stays [DESIRED_VELOCITY], or is the task's own reversal. *)
Lemma step_hold_target (t t' : Task) (e e' : Env) o log :
  intake_monitor_task_function cfg t e = Some ((o, t'), e', log) ->
  target_velocity e = DESIRED_VELOCITY cfg \/
    (pc t = InReverseWait /\ target_velocity e = REVERSE_SPEED) ->
  target_velocity e' = DESIRED_VELOCITY cfg \/
    (pc t' = InReverseWait /\ target_velocity e' = REVERSE_SPEED).
Proof.
  destruct t as [p r g], e as [tv vs sts hs]. unfold_prog.
  destruct p; cbn.
  - intros Hstep [ Hd | [ Hp _ ] ]; [ | discriminate Hp ]. revert Hstep.
    destruct vs as [ | v vs ]; cbn; [ discriminate | ].
    destruct g; cbn; [ intros [= <- <- <- <-]; cbn; auto | ].
    rewrite ?abs_lt_whole.
    destruct (negb r && Qltb (Qabs v) (inject_Z VELOCITY_THRESHOLD)); cbn.
    + destruct (negb (tv =? 0)); cbn.
      * destruct vs as [ | w ws ]; cbn; [ discriminate | ].
        destruct (Qltb 1 (abs (HighStakes.ABS cfg) w)); cbn; intros [= <- <- <- <-]; cbn; auto.
      * intros [= <- <- <- <-]; cbn; auto.
    + intros [= <- <- <- <-]; cbn; auto.
  - destruct vs as [ | v vs ]; cbn; [ discriminate | ].
    destruct (Qltb 1 (abs (HighStakes.ABS cfg) v)); cbn; intros [= <- <- <- <-]; cbn; auto.
Qed.

Lemma hold_agrees_opcontrol (r1 : bool) (s s' : System) log :
  hold_agrees cfg s ->
  opcontrol_hold cfg r1 s = Some (tt, s', log) ->
  hold_agrees cfg s'.
Proof.
  destruct s as [e d ptr k nh]. unfold hold_agrees. cbn. intros Hinv.
  unfold opcontrol_hold, startMonitoringTask, stopMonitoringTask, lift,
    task_create, task_remove, set_intake_monitor_task, move_velocity, delay, emit,
    bind, ret.
  destruct r1, ptr as [ h | ]; cbn; intros [= <- <-]; cbn.
  - destruct Hinv as (t & -> & _). eauto.
  - destruct Hinv as [ -> _ ]. rewrite insert_empty. eauto.
  - destruct Hinv as (t & -> & _). rewrite delete_singleton_eq. auto.
  - destruct Hinv as [ -> _ ]. auto.
Qed.

Lemma hold_agrees_resume (h : nat) (s s' : System) o log :
  hold_agrees cfg s ->
  resume_task cfg h s = Some (o, s', log) ->
  hold_agrees cfg s'.
Proof.
  destruct s as [e d ptr k nh]. unfold hold_agrees, resume_task. cbn. intros Hinv.
  destruct (k !! h) as [ t | ] eqn:Hk; [ | discriminate ].
  destruct (intake_monitor_task_function cfg t e) as [ [ [ [o' t'] e1 ] l ] | ] eqn:Hstep;
    [ | discriminate ].
  intros [= <- <- <-]. cbn.
  destruct ptr as [ h0 | ].
  - destruct Hinv as (t0 & -> & Ht).
    apply lookup_singleton_Some in Hk. destruct Hk as [ -> -> ].
    exists t'. split; [ apply insert_singleton_eq | ].
    exact (step_hold_target _ _ _ _ _ _ Hstep Ht).
  - destruct Hinv as [ -> _ ]. rewrite lookup_empty in Hk. discriminate.
Qed.

Lemma hold_agrees_schedule (l : list HoldTurn) : forall (s s' : System) log,
  hold_agrees cfg s ->
  hold_schedule cfg l s = Some (tt, s', log) ->
  hold_agrees cfg s'.
Proof.
  induction l as [ | x l IH ]; intros s s' log Hinv Hrun.
  - cbn in Hrun. unfold ret in Hrun. injection Hrun as <- <-. exact Hinv.
  - cbn [hold_schedule] in Hrun. apply bind_Some in Hrun.
    destruct Hrun as ([] & s1 & l1 & l2 & Hturn & Hrest & ->).
    apply (IH s1 s' l2); [ | exact Hrest ].
    destruct x as [ r1 | h ]; cbn [hold_turn] in Hturn.
    + exact (hold_agrees_opcontrol _ _ _ _ Hinv Hturn).
    + apply bind_Some in Hturn.
      destruct Hturn as (o & s2 & l3 & l4 & Hres & Hret & _).
      unfold ret in Hret. injection Hret as <- _.
      exact (hold_agrees_resume _ _ _ _ _ Hinv Hres).
Qed.

(** What the operator loop of the second copy does when a monitor
    exists, whatever that monitor is doing. *)
Lemma opcontrol_hold_with_monitor (s : System) (h : nat) (t : Task) :
  handle_agrees s ->
  kernel s !! h = Some t ->
  opcontrol_hold cfg true s
  = Some (tt,
          mkSystem (set_target (DESIRED_VELOCITY cfg) (env s)) (intake_direction s)
            (intake_monitor_task s) (kernel s) (next_handle s),
          [MoveVelocity (DESIRED_VELOCITY cfg); Delay 20]) /\
  opcontrol_hold cfg false s
  = Some (tt,
          mkSystem (set_target 0 (env s)) (intake_direction s) None ∅ (next_handle s),
          [MoveVelocity 0; Delay 20]).
Proof.
  destruct s as [e d ptr k nh]. unfold handle_agrees. cbn. intros Hinv Hl.
  destruct ptr as [ h0 | ].
  - destruct Hinv as (t0 & ->).
    unfold opcontrol_hold, startMonitoringTask, stopMonitoringTask, lift,
      task_create, task_remove, set_intake_monitor_task, move_velocity, delay, emit,
      bind, ret. cbn.
    rewrite delete_singleton_eq. split; reflexivity.
  - subst k. rewrite lookup_empty in Hl. discriminate.
Qed.

End HoldProgram.

(** X3: in the program of the second copy, entered with nothing
    commanded, along every schedule either there is no monitor and 0 is
    commanded, or there is exactly one monitor and [DESIRED_VELOCITY] is
    commanded, except that [REVERSE_SPEED] may be commanded while that
    monitor waits for its own reversal. *)
Theorem X3_hold_program_command :
  forall cfg l e s log,
    target_velocity e = 0 ->
    HighStakes.hold_schedule cfg l (HighStakes.boot e) = Some (tt, s, log) ->
    (HighStakes.intake_monitor_task s = None /\ HighStakes.kernel s = ∅ /\
     target_velocity (HighStakes.env s) = 0) \/
    (exists h t,
        HighStakes.intake_monitor_task s = Some h /\
        HighStakes.kernel s = {[ h := t ]} /\
        (target_velocity (HighStakes.env s) = HighStakes.DESIRED_VELOCITY cfg \/
         (HighStakes.pc t = HighStakes.InReverseWait /\
          target_velocity (HighStakes.env s) = HighStakes.REVERSE_SPEED))).
Proof.
  intros cfg l e s log Hz Hrun.
  assert (Hb : hold_agrees cfg (HighStakes.boot e)) by (split; [ reflexivity | exact Hz ]).
  pose proof (hold_agrees_schedule cfg l _ _ _ Hb Hrun) as Hinv.
  unfold hold_agrees in Hinv.
  destruct (HighStakes.intake_monitor_task s) as [ h | ].
  - right. destruct Hinv as (t & Hk & Ht). exists h, t. auto.
  - left. destruct Hinv as [ Hk Ht ]. auto.
Qed.

(** X3 on a concrete schedule: R1 held, then released. *)
Lemma X3_hold_program_command_witness :
  (HighStakes.intake_monitor_task
     (HighStakes.mkSystem (mkEnv 0 [] [] []) HighStakes.STOPPED None ∅ 1%nat) = None /\
   HighStakes.kernel
     (HighStakes.mkSystem (mkEnv 0 [] [] []) HighStakes.STOPPED None ∅ 1%nat) = ∅ /\
   target_velocity
     (HighStakes.env
        (HighStakes.mkSystem (mkEnv 0 [] [] []) HighStakes.STOPPED None ∅ 1%nat)) = 0) \/
  (exists h t,
      HighStakes.intake_monitor_task
        (HighStakes.mkSystem (mkEnv 0 [] [] []) HighStakes.STOPPED None ∅ 1%nat) = Some h /\
      HighStakes.kernel
        (HighStakes.mkSystem (mkEnv 0 [] [] []) HighStakes.STOPPED None ∅ 1%nat)
      = {[ h := t ]} /\
      (target_velocity
         (HighStakes.env
            (HighStakes.mkSystem (mkEnv 0 [] [] []) HighStakes.STOPPED None ∅ 1%nat))
       = HighStakes.DESIRED_VELOCITY HighStakes.hold_variant \/
       (HighStakes.pc t = HighStakes.InReverseWait /\
        target_velocity
          (HighStakes.env
             (HighStakes.mkSystem (mkEnv 0 [] [] []) HighStakes.STOPPED None ∅ 1%nat))
        = HighStakes.REVERSE_SPEED))).
Proof.
  apply (X3_hold_program_command HighStakes.hold_variant
           [HighStakes.HoldOperator true; HighStakes.HoldOperator false]
           (mkEnv 0 [] [] [])
           (HighStakes.mkSystem (mkEnv 0 [] [] []) HighStakes.STOPPED None ∅ 1%nat)
           [MoveVelocity 200; Delay 20; MoveVelocity 0; Delay 20]).
  - reflexivity.
  - vm_compute. reflexivity.
Defined.

(** X4: in the program of the second copy the operator loop writes to
    the motor at every pass, also while the monitor is in the middle of
    its reversal.  With R1 held it commands [DESIRED_VELOCITY] over the
    reversal and leaves the monitor waiting; with R1 released it commands
    0 and removes the monitor. *)
Theorem X4_hold_operator_overrides_reversal :
  forall cfg l e s log h t,
    HighStakes.hold_schedule cfg l (HighStakes.boot e) = Some (tt, s, log) ->
    HighStakes.kernel s !! h = Some t ->
    HighStakes.pc t = HighStakes.InReverseWait ->
    HighStakes.opcontrol_hold cfg true s
    = Some (tt,
            HighStakes.mkSystem
              (set_target (HighStakes.DESIRED_VELOCITY cfg) (HighStakes.env s))
              (HighStakes.intake_direction s) (HighStakes.intake_monitor_task s)
              (HighStakes.kernel s) (HighStakes.next_handle s),
            [MoveVelocity (HighStakes.DESIRED_VELOCITY cfg); Delay 20]) /\
    HighStakes.opcontrol_hold cfg false s
    = Some (tt,
            HighStakes.mkSystem (set_target 0 (HighStakes.env s))
              (HighStakes.intake_direction s) None ∅ (HighStakes.next_handle s),
            [MoveVelocity 0; Delay 20]).
Proof.
  intros cfg l e s log h t Hrun Hl _.
  apply (opcontrol_hold_with_monitor cfg s h t); [ | exact Hl ].
  destruct (boot_inv cfg e) as (_ & Hb2 & Hb3).
  exact (proj1 (hold_schedule_inv cfg l _ _ _ Hb2 Hb3 Hrun)).
Qed.

(** X4 on a concrete schedule: R1 held, the monitor passes its grace
    delay, stalls and waits; the next pass of the operator loop commands
    200 over the reversal. *)
Lemma X4_hold_operator_overrides_witness :
  HighStakes.opcontrol_hold HighStakes.hold_variant true
    (HighStakes.mkSystem (mkEnv (-100) [] [] []) HighStakes.STOPPED (Some 0%nat)
       {[ 0%nat := HighStakes.mkTask HighStakes.InReverseWait true false ]} 1%nat)
  = Some (tt,
          HighStakes.mkSystem (mkEnv 200 [] [] []) HighStakes.STOPPED (Some 0%nat)
            {[ 0%nat := HighStakes.mkTask HighStakes.InReverseWait true false ]} 1%nat,
          [MoveVelocity 200; Delay 20]).
Proof.
  refine (proj1 (X4_hold_operator_overrides_reversal HighStakes.hold_variant
           [HighStakes.HoldOperator true; HighStakes.HoldMonitor 0;
            HighStakes.HoldMonitor 0]
           (mkEnv 0 [0%Q; 10%Q; 80%Q] [] [])
           (HighStakes.mkSystem (mkEnv (-100) [] [] []) HighStakes.STOPPED (Some 0%nat)
              {[ 0%nat := HighStakes.mkTask HighStakes.InReverseWait true false ]} 1%nat)
           [MoveVelocity 200; Delay 20; Delay 200;
            LcdPrint 0 "Intake stuck! Reversing...";
            LcdPrintVelocity 2 "Current velocity: %.2f" 10;
            MoveRelative (-90) (-100); Delay 10]
           0%nat (HighStakes.mkTask HighStakes.InReverseWait true false) _ _ _)).
  - vm_compute. reflexivity.
  - vm_compute. reflexivity.
  - reflexivity.
Defined.

Section Part000Program.

Import Part000.

Lemma part000_target_ok_step (p p' : Pc) (e e' : Env) o log :
  intake_monitor_task p e = Some ((o, p'), e', log) ->
  part000_target_ok p e ->
  part000_target_ok p' e'.
Proof.
  destruct e as [tv vs sts hs]. unfold part000_target_ok. unfold_prog.
  destruct p; cbn.
  - intros Hstep Hok.
    assert (Hok' : tv = 0 \/ tv = desired_velocity)
      by (destruct Hok as [ ? | [ ? | [ Hp _ ] ] ]; [ auto | auto | discriminate Hp ]).
    clear Hok. revert Hstep.
    destruct vs as [ | v vs ]; cbn; [ discriminate | ].
    destruct (Qltb (Qabs v) (inject_Z velocity_threshold)); cbn.
    + destruct (negb (tv =? 0)); cbn.
      * destruct sts as [ | b sts ]; cbn; [ discriminate | ].
        destruct b; cbn; intros [= <- <- <- <-]; cbn; auto.
      * intros [= <- <- <- <-]; cbn. destruct Hok'; auto.
    + intros [= <- <- <- <-]; cbn. destruct Hok'; auto.
  - destruct sts as [ | b sts ]; cbn; [ discriminate | ].
    destruct b; cbn; intros [= <- <- <- <-]; cbn; auto.
Qed.

Lemma part000_target_ok_turn (x : Turn) (p p' : Pc) (e e' : Env) log :
  turn x p e = Some (p', e', log) ->
  part000_target_ok p e ->
  part000_target_ok p' e'.
Proof.
  destruct x as [ r1 | ]; cbn [turn]; intros Hturn Hok.
  - destruct r1; cbv in Hturn; injection Hturn as <- <- <-;
      unfold part000_target_ok; cbn; auto.
  - apply bind_Some in Hturn.
    destruct Hturn as ([o p1] & e1 & l1 & l2 & Hstep & Hret & _).
    unfold ret in Hret. cbn in Hret. injection Hret as <- <- _.
    exact (part000_target_ok_step _ _ _ _ _ _ Hstep Hok).
Qed.

Lemma part000_target_ok_schedule (l : list Turn) : forall (p p' : Pc) (e e' : Env) log,
  schedule l p e = Some (p', e', log) ->
  part000_target_ok p e ->
  part000_target_ok p' e'.
Proof.
  induction l as [ | x l IH ]; intros p p' e e' log Hrun Hok.
  - cbn in Hrun. unfold ret in Hrun. injection Hrun as <- <- _. exact Hok.
  - cbn [schedule] in Hrun. apply bind_Some in Hrun.
    destruct Hrun as (p1 & e1 & l1 & l2 & Hturn & Hrest & _).
    apply (IH p1 p' e1 e' l2 Hrest).
    exact (part000_target_ok_turn x p p1 e e1 l1 Hturn Hok).
Qed.

End Part000Program.

(** X5: in the earlier program, whatever the motor was commanded when
    [opcontrol] is entered, from the first delay of the operator loop on
    the commanded velocity is 0 or [desired_velocity] (200), or
    [reverse_speed] (-100) while the monitor waits for its reversal. *)
Theorem X5_part000_commanded_velocities :
  forall r1 l e p e' log,
    Part000.opcontrol r1 l e = Some (p, e', log) ->
    target_velocity e' = 0 \/ target_velocity e' = 200 \/
    (p = Part000.InStopWait /\ target_velocity e' = -100).
Proof.
  intros r1 l e p e' log Hrun. unfold Part000.opcontrol in Hrun.
  apply bind_Some in Hrun.
  destruct Hrun as ([] & e1 & l1 & l2 & Hfirst & Hrest & _).
  apply (part000_target_ok_schedule l _ _ _ _ _ Hrest).
  unfold part000_target_ok.
  destruct r1; cbv in Hfirst; injection Hfirst as <- _; cbn; auto.
Qed.

(** X5 on a concrete schedule, entered with 300 commanded: R1 held, a
    stall whose reversal is still under way. *)
Lemma X5_part000_commanded_velocities_witness :
  target_velocity (mkEnv (-100) [] [] []) = 0 \/
  target_velocity (mkEnv (-100) [] [] []) = 200 \/
  (Part000.InStopWait = Part000.InStopWait /\
   target_velocity (mkEnv (-100) [] [] []) = -100).
Proof.
  apply (X5_part000_commanded_velocities true [Part000.Monitor]
           (mkEnv 300 [10%Q] [false] [])
           Part000.InStopWait (mkEnv (-100) [] [] [])
           [MoveVelocity 200; Delay 20; LcdPrint 0 "Intake stuck! Reversing...";
            MoveRelative (-90) (-100); Delay 10]).
  reflexivity.
Defined.

(* ===================================================================== *)
(** *** Readings consumed and time taken *)
(* ===================================================================== *)

Lemma elapsed_app (l1 l2 : list Event) : elapsed (l1 ++ l2) = elapsed l1 + elapsed l2.
Proof.
  induction l1 as [ | x l1 IH ]; [ reflexivity | ].
  destruct x; cbn; rewrite ?IH; lia.
Qed.

Section Progress.
Variable cfg : HighStakes.Config.

Import HighStakes.

(** A wake-up needs at most two velocity samples, uses one or two of
    them, and reads nothing else. *)
Lemma step_progress (t : Task) (e : Env) :
  (2 <= List.length (velocities e))%nat ->
  exists o t' e' log,
    intake_monitor_task_function cfg t e = Some ((o, t'), e', log) /\
    (List.length (velocities e') + 1 <= List.length (velocities e))%nat /\
    (List.length (velocities e) <= List.length (velocities e') + 2)%nat /\
    stopped e' = stopped e /\ hues e' = hues e.
Proof.
  destruct t as [p r g], e as [tv vs sts hs]. cbn.
  destruct vs as [ | v [ | w ws ] ]; cbn; try lia. intros _.
  unfold_prog. destruct p; cbn.
  - destruct g; cbn; [ do 4 eexists; split; [ reflexivity | cbn; repeat split; lia ] | ].
    rewrite ?abs_lt_whole.
    destruct (negb r && Qltb (Qabs v) (inject_Z VELOCITY_THRESHOLD)); cbn.
    + destruct (negb (tv =? 0)); cbn.
      * destruct (Qltb 1 (abs (HighStakes.ABS cfg) w)); cbn;
          do 4 eexists; (split; [ reflexivity | cbn; repeat split; lia ]).
      * do 4 eexists; split; [ reflexivity | cbn; repeat split; lia ].
    + do 4 eexists; split; [ reflexivity | cbn; repeat split; lia ].
  - destruct (Qltb 1 (abs (HighStakes.ABS cfg) v)); cbn;
      do 4 eexists; (split; [ reflexivity | cbn; repeat split; lia ]).
Qed.

Lemma run_progress (n : nat) : forall (t : Task) (e : Env),
  (2 * n <= List.length (velocities e))%nat ->
  exists os t' e' log,
    run cfg n t e = Some ((os, t'), e', log) /\
    List.length os = n /\
    (List.length (velocities e') + n <= List.length (velocities e))%nat /\
    (List.length (velocities e) <= List.length (velocities e') + 2 * n)%nat /\
    stopped e' = stopped e /\ hues e' = hues e.
Proof.
  induction n as [ | n IH ]; intros t e Hlen.
  - exists [], t, e, []. cbn. repeat split; lia.
  - destruct (step_progress t e ltac:(lia)) as (o & t1 & e1 & log1 & Hstep & H1 & H2 & H3 & H4).
    destruct (IH t1 e1 ltac:(lia)) as (os & t2 & e2 & log2 & Hrun & Hn & H5 & H6 & H7 & H8).
    exists (o :: os), t2, e2, (log1 ++ log2).
    split; [ exact (run_step cfg n _ _ _ _ _ _ _ _ _ _ Hstep Hrun) | ].
    cbn [List.length]. repeat split; try lia; congruence.
Qed.

(** Past the grace period a wake-up ends in one delay of 10 or 20 ms. *)
Lemma step_elapsed (t t' : Task) (e e' : Env) o log :
  spin_up_grace t = false ->
  intake_monitor_task_function cfg t e = Some ((o, t'), e', log) ->
  spin_up_grace t' = false /\ (elapsed log = 10 \/ elapsed log = 20).
Proof.
  destruct t as [p r g], e as [tv vs sts hs]. cbn. intros ->. unfold_prog.
  destruct p; cbn.
  - destruct vs as [ | v vs ]; cbn; [ discriminate | ].
    rewrite ?abs_lt_whole.
    destruct (negb r && Qltb (Qabs v) (inject_Z VELOCITY_THRESHOLD)); cbn.
    + destruct (negb (tv =? 0)); cbn.
      * destruct vs as [ | w ws ]; cbn; [ discriminate | ].
        destruct (Qltb 1 (abs (HighStakes.ABS cfg) w)); cbn; intros [= <- <- <- <-]; cbn; auto.
      * intros [= <- <- <- <-]; cbn; auto.
    + intros [= <- <- <- <-]; cbn; auto.
  - destruct vs as [ | v vs ]; cbn; [ discriminate | ].
    destruct (Qltb 1 (abs (HighStakes.ABS cfg) v)); cbn; intros [= <- <- <- <-]; cbn; auto.
Qed.

Lemma run_elapsed (n : nat) : forall (t t' : Task) (e e' : Env) os log,
  spin_up_grace t = false ->
  run cfg n t e = Some ((os, t'), e', log) ->
  10 * Z.of_nat n <= elapsed log <= 20 * Z.of_nat n.
Proof.
  induction n as [ | n IH ]; intros t t' e e' os log Hg Hrun.
  - cbn in Hrun. unfold ret in Hrun. injection Hrun as <- <- <- <-. cbn. lia.
  - apply run_succ in Hrun.
    destruct Hrun as (o & t1 & e1 & log1 & os' & log2 & Hstep & Hrest & -> & ->).
    destruct (step_elapsed _ _ _ _ _ _ Hg Hstep) as [ Hg1 Hd ].
    specialize (IH _ _ _ _ _ _ Hg1 Hrest). rewrite elapsed_app. lia.
Qed.

End Progress.

Section Part000Progress.

Import Part000.

Lemma part000_step_progress (p : Pc) (e : Env) :
  (1 <= List.length (velocities e))%nat ->
  (1 <= List.length (stopped e))%nat ->
  exists o p' e' log,
    intake_monitor_task p e = Some ((o, p'), e', log) /\
    (List.length (velocities e) <= List.length (velocities e') + 1)%nat /\
    (List.length (stopped e) <= List.length (stopped e') + 1)%nat /\
    hues e' = hues e /\
    (elapsed log = 10 \/ elapsed log = 20).
Proof.
  destruct e as [tv vs sts hs]. cbn.
  destruct vs as [ | v vs ]; cbn; try lia.
  destruct sts as [ | b sts ]; cbn; try lia. intros _ _.
  unfold_prog. destruct p; cbn.
  - destruct (Qltb (Qabs v) (inject_Z velocity_threshold)); cbn.
    + destruct (negb (tv =? 0)); cbn.
      * destruct b; cbn;
          do 4 eexists; (split; [ reflexivity | cbn; repeat split; auto; lia ]).
      * do 4 eexists; split; [ reflexivity | cbn; repeat split; auto; lia ].
    + do 4 eexists; split; [ reflexivity | cbn; repeat split; auto; lia ].
  - destruct b; cbn;
      do 4 eexists; (split; [ reflexivity | cbn; repeat split; auto; lia ]).
Qed.

Lemma part000_run_progress (n : nat) : forall (p : Pc) (e : Env),
  (n <= List.length (velocities e))%nat ->
  (n <= List.length (stopped e))%nat ->
  exists os p' e' log,
    run n p e = Some ((os, p'), e', log) /\
    List.length os = n /\
    (List.length (velocities e) <= List.length (velocities e') + n)%nat /\
    (List.length (stopped e) <= List.length (stopped e') + n)%nat /\
    hues e' = hues e /\
    10 * Z.of_nat n <= elapsed log <= 20 * Z.of_nat n.
Proof.
  induction n as [ | n IH ]; intros p e Hv Hs.
  - exists [], p, e, []. cbn. repeat split; lia.
  - destruct (part000_step_progress p e ltac:(lia) ltac:(lia))
      as (o & p1 & e1 & log1 & Hstep & H1 & H2 & H3 & H4).
    destruct (IH p1 e1 ltac:(lia) ltac:(lia))
      as (os & p2 & e2 & log2 & Hrun & Hn & H5 & H6 & H7 & H8).
    exists (o :: os), p2, e2, (log1 ++ log2).
    split; [ exact (part000_run_step n _ _ _ _ _ _ _ _ _ _ Hstep Hrun) | ].
    cbn [List.length]. rewrite elapsed_app. repeat split; try lia; congruence.
Qed.

End Part000Progress.

(** X6: the monitors never block for lack of anything but readings.
    With [2 * n] velocity samples at hand, [n] wake-ups of
    [intake_monitor_task_function] all return; they use between [n] and
    [2 * n] samples and read neither [is_stopped()] nor the hue sensor.
    With [n] velocity samples and [n] answers of [is_stopped()], [n]
    wake-ups of the earlier [intake_monitor_task] all return, using at
    most [n] of each. *)
Theorem X6_monitor_progress :
  (forall cfg n t e,
      (2 * n <= List.length (velocities e))%nat ->
      exists os t' e' log,
        HighStakes.run cfg n t e = Some ((os, t'), e', log) /\
        List.length os = n /\
        (List.length (velocities e') + n <= List.length (velocities e))%nat /\
        (List.length (velocities e) <= List.length (velocities e') + 2 * n)%nat /\
        stopped e' = stopped e /\ hues e' = hues e) /\
  (forall n p e,
      (n <= List.length (velocities e))%nat ->
      (n <= List.length (stopped e))%nat ->
      exists os p' e' log,
        Part000.run n p e = Some ((os, p'), e', log) /\
        List.length os = n /\
        (List.length (velocities e) <= List.length (velocities e') + n)%nat /\
        (List.length (stopped e) <= List.length (stopped e') + n)%nat /\
        hues e' = hues e).
Proof.
  split.
  - intros cfg n t e Hlen. exact (run_progress cfg n t e Hlen).
  - intros n p e Hv Hs.
    destruct (part000_run_progress n p e Hv Hs)
      as (os & p' & e' & log & H1 & H2 & H3 & H4 & H5 & _).
    exists os, p', e', log. auto.
Qed.

(** X6 on four samples and two wake-ups of a new task of the toggle
    variant. *)
Lemma X6_monitor_progress_witness :
  exists os t' e' log,
    HighStakes.run HighStakes.toggle_variant 2 HighStakes.new_task
      (mkEnv 600 [0%Q; 10%Q; 80%Q; 0%Q] [] []) = Some ((os, t'), e', log) /\
    List.length os = 2%nat /\
    (List.length (velocities e') + 2
     <= List.length (velocities (mkEnv 600 [0%Q; 10%Q; 80%Q; 0%Q] [] [])))%nat /\
    (List.length (velocities (mkEnv 600 [0%Q; 10%Q; 80%Q; 0%Q] [] []))
     <= List.length (velocities e') + 2 * 2)%nat /\
    stopped e' = stopped (mkEnv 600 [0%Q; 10%Q; 80%Q; 0%Q] [] []) /\
    hues e' = hues (mkEnv 600 [0%Q; 10%Q; 80%Q; 0%Q] [] []).
Proof.
  apply (proj1 X6_monitor_progress HighStakes.toggle_variant 2%nat HighStakes.new_task
           (mkEnv 600 [0%Q; 10%Q; 80%Q; 0%Q] [] [])).
  cbn. lia.
Defined.

(** X7: a monitor suspends at every wake-up and polls at least every
    20 ms.  Past the grace period, [n] wake-ups of
    [intake_monitor_task_function] take between [10 * n] and [20 * n] ms;
    a new task takes [SPIN_UP_GRACE] for its first wake-up and then the
    same; [n] wake-ups of the earlier monitor take between [10 * n] and
    [20 * n] ms. *)
Theorem X7_monitor_polling_period :
  (forall cfg n t e os t' e' log,
      HighStakes.spin_up_grace t = false ->
      HighStakes.run cfg n t e = Some ((os, t'), e', log) ->
      10 * Z.of_nat n <= elapsed log <= 20 * Z.of_nat n) /\
  (forall cfg n e os t' e' log,
      HighStakes.run cfg (S n) HighStakes.new_task e = Some ((os, t'), e', log) ->
      HighStakes.SPIN_UP_GRACE cfg + 10 * Z.of_nat n <= elapsed log
      <= HighStakes.SPIN_UP_GRACE cfg + 20 * Z.of_nat n) /\
  (forall n p e os p' e' log,
      Part000.run n p e = Some ((os, p'), e', log) ->
      10 * Z.of_nat n <= elapsed log <= 20 * Z.of_nat n).
Proof.
  split; [ | split ].
  - intros cfg n t e os t' e' log Hg Hrun. exact (run_elapsed cfg n _ _ _ _ _ _ Hg Hrun).
  - intros cfg n e os t' e' log Hrun.
    apply run_succ in Hrun.
    destruct Hrun as (o & t1 & e1 & log1 & os' & log2 & Hstep & Hrest & -> & ->).
    destruct e as [tv vs sts hs]. destruct vs as [ | v vs ]; [ discriminate Hstep | ].
    rewrite new_task_first_step in Hstep. injection Hstep as <- <- <- <-.
    assert (Hb : 10 * Z.of_nat n <= elapsed log2 <= 20 * Z.of_nat n).
    { refine (run_elapsed cfg n _ _ _ _ _ _ _ Hrest). reflexivity. }
    rewrite elapsed_app. cbn [elapsed]. lia.
  - intros n. induction n as [ | n IH ]; intros p e os p' e' log Hrun.
    + cbn in Hrun. unfold ret in Hrun. injection Hrun as <- <- <- <-. cbn. lia.
    + apply part000_run_succ in Hrun.
      destruct Hrun as (o & p1 & e1 & log1 & os' & log2 & Hstep & Hrest & -> & ->).
      specialize (IH _ _ _ _ _ _ Hrest). rewrite elapsed_app.
      assert (Hd : elapsed log1 = 10 \/ elapsed log1 = 20).
      { clear - Hstep. destruct e as [tv vs sts hs]. unfold_prog.
        destruct p; cbn in Hstep.
        - destruct vs as [ | v vs ]; cbn in Hstep; [ discriminate | ].
          destruct (Qltb (Qabs v) (inject_Z Part000.velocity_threshold)); cbn in Hstep.
          + destruct (negb (tv =? 0)); cbn in Hstep.
            * destruct sts as [ | b sts ]; cbn in Hstep; [ discriminate | ].
              destruct b; cbn in Hstep; injection Hstep as <- <- <- <-; cbn; auto.
            * injection Hstep as <- <- <- <-; cbn; auto.
          + injection Hstep as <- <- <- <-; cbn; auto.
        - destruct sts as [ | b sts ]; cbn in Hstep; [ discriminate | ].
          destruct b; cbn in Hstep; injection Hstep as <- <- <- <-; cbn; auto. }
      lia.
Qed.

(** X7 on the run of a new task of the toggle variant through a stall:
    1000 ms of grace, then 10 + 20 ms. *)
Lemma X7_monitor_polling_witness :
  HighStakes.SPIN_UP_GRACE HighStakes.toggle_variant + 10 * Z.of_nat 2
  <= elapsed
       [Delay 1000; LcdPrint 0 "Intake stuck! Reversing...";
        LcdPrintVelocity 2 "Current velocity: %.2f" 10;
        MoveRelative (-90) (-100); Delay 10; MoveVelocity 600; Delay 20]
  <= HighStakes.SPIN_UP_GRACE HighStakes.toggle_variant + 20 * Z.of_nat 2.
Proof.
  apply (proj1 (proj2 X7_monitor_polling_period) HighStakes.toggle_variant 2%nat
           (mkEnv 600 [0%Q; 10%Q; 80%Q; 0%Q] [] [])
           [HighStakes.GraceSkip; HighStakes.Stuck; HighStakes.Waiting]
           (HighStakes.mkTask HighStakes.AtLoopHead false false)
           (mkEnv 600 [] [] [])).
  reflexivity.
Defined.

(* ===================================================================== *)
(** *** Colour sorting: readings, ejects and the program *)
(* ===================================================================== *)

Lemma motor_commands_app (l1 l2 : list Event) :
  motor_commands (l1 ++ l2) = motor_commands l1 ++ motor_commands l2.
Proof. unfold motor_commands. apply List.filter_app. Qed.

(** Dropping the fraction of a reading: at most [k] exactly below
    [k + 1], at least [k] exactly from [k] on. *)
Lemma Qtruncate_le (q : Q) (k : Z) :
  0 <= k -> (Qtruncate q <= k <-> (q < inject_Z (k + 1))%Q).
Proof.
  intros Hk. destruct q as [n d]. unfold Qtruncate, Qlt. cbn.
  pose proof (Z.quot_rem' n (Zpos d)) as Hqr.
  destruct (Z.le_gt_cases 0 n) as [ Hn | Hn ].
  - pose proof (Z.rem_bound_pos n (Zpos d) Hn ltac:(lia)) as Hr. split; intros H; nia.
  - pose proof (Z.rem_bound_pos_neg n (Zpos d) ltac:(lia) ltac:(lia)) as Hr.
    split; intros H; nia.
Qed.

Lemma Qtruncate_ge (q : Q) (k : Z) :
  0 < k -> (k <= Qtruncate q <-> (inject_Z k <= q)%Q).
Proof.
  intros Hk. destruct q as [n d]. unfold Qtruncate, Qle. cbn.
  pose proof (Z.quot_rem' n (Zpos d)) as Hqr.
  destruct (Z.le_gt_cases 0 n) as [ Hn | Hn ].
  - pose proof (Z.rem_bound_pos n (Zpos d) Hn ltac:(lia)) as Hr. split; intros H; nia.
  - pose proof (Z.rem_bound_pos_neg n (Zpos d) ltac:(lia) ltac:(lia)) as Hr.
    split; intros H; nia.
Qed.

Section ColourIteration.

Import ColorSort.

(** The three ways through one pass of [colorSortTask]. *)
Lemma colorSortTask_cases (alliance : AllianceColor) (tv : Z) (h : Q) hs vs sts :
  exists log,
    colorSortTask alliance (mkEnv tv vs sts (h :: hs))
    = Some (detectColor (Qtruncate h),
            mkEnv (match motor_commands log with [] => tv | _ => INTAKE_SPEED end)
              vs sts hs, log) /\
    ((detectColor (Qtruncate h) = alliance \/ detectColor (Qtruncate h) = UNKNOWN) /\
     motor_commands log = [] /\ elapsed log = 50
     \/
     (detectColor (Qtruncate h) <> alliance /\ detectColor (Qtruncate h) <> UNKNOWN) /\
     motor_commands log = [MoveVelocity 0; MoveVelocity INTAKE_SPEED] /\
     elapsed log = 350).
Proof.
  destruct (AllianceColor_eqb (detectColor (Qtruncate h)) alliance) eqn:Ha.
  - apply AllianceColor_eqb_eq in Ha.
    exists [SetText 2 0 "Color Match!"; Delay 50]. split.
    + unfold colorSortTask, read_hue, bind, ret, delay, emit, get_hue. cbn.
      rewrite Ha. rewrite (proj2 (AllianceColor_eqb_eq alliance alliance) eq_refl).
      reflexivity.
    + left. auto.
  - apply AllianceColor_eqb_neq in Ha.
    destruct (AllianceColor_eqb (detectColor (Qtruncate h)) UNKNOWN) eqn:Hu.
    + apply AllianceColor_eqb_eq in Hu.
      exists [SetText 2 0 (match alliance with
                           | UNKNOWN => "Color Match!"
                           | _ => "No Ring!"
                           end); Delay 50].
      split; [ | left; auto ].
      rewrite (colorSortTask_unknown alliance tv h hs vs sts Hu). rewrite Hu.
      reflexivity.
    + apply AllianceColor_eqb_neq in Hu.
      exists [Delay TRAVEL_DELAY; MoveVelocity 0; SetText 2 0 "Color Mismatch!";
              Delay STOP_DELAY; MoveVelocity INTAKE_SPEED; Delay 50].
      split; [ | right; auto ].
      rewrite (colorSortTask_mismatch alliance tv h hs vs sts Ha Hu). reflexivity.
Qed.

End ColourIteration.

(** X8: one pass of [colorSortTask] with a hue reading at hand always
    returns, uses that one reading and no other sensor, and commands the
    motor exactly when the colour detected is neither the alliance's nor
    [UNKNOWN].  Without a command the pass takes 50 ms and leaves the
    commanded velocity as it was; with one it takes 350 ms, commands 0 and
    then [INTAKE_SPEED], and leaves [INTAKE_SPEED] commanded. *)
Theorem X8_sort_pass :
  forall alliance tv h hs vs sts,
  exists log tv',
    ColorSort.colorSortTask alliance (mkEnv tv vs sts (h :: hs))
    = Some (ColorSort.detectColor (Qtruncate h), mkEnv tv' vs sts hs, log) /\
    (motor_commands log = [] <->
       ColorSort.detectColor (Qtruncate h) = alliance \/
       ColorSort.detectColor (Qtruncate h) = ColorSort.UNKNOWN) /\
    (motor_commands log = [] -> tv' = tv /\ elapsed log = 50) /\
    (motor_commands log <> [] ->
       motor_commands log = [MoveVelocity 0; MoveVelocity ColorSort.INTAKE_SPEED] /\
       tv' = ColorSort.INTAKE_SPEED /\ elapsed log = 350).
Proof.
  intros alliance tv h hs vs sts.
  destruct (colorSortTask_cases alliance tv h hs vs sts) as (log & Hrun & Hcases).
  exists log, (match motor_commands log with [] => tv | _ => ColorSort.INTAKE_SPEED end).
  split; [ exact Hrun | ].
  destruct Hcases as [ (Hc & Hm & He) | ((Ha & Hu) & Hm & He) ]; rewrite Hm.
  - split; [ split; auto | ]. split; [ auto | intros H; contradiction ].
  - split; [ | split ].
    + split; [ discriminate | intros [ ? | ? ]; contradiction ].
    + discriminate.
    + auto.
Qed.

(** The bands of [detectColor] on readings with a fraction. *)
Lemma detectColor_on_readings :
  forall q : Q,
    (ColorSort.detectColor (Qtruncate q) = ColorSort.RED <->
       (330 <= q)%Q \/ (q < 31)%Q) /\
    (ColorSort.detectColor (Qtruncate q) = ColorSort.BLUE <->
       (210 <= q)%Q /\ (q < 271)%Q) /\
    (ColorSort.detectColor (Qtruncate q) = ColorSort.UNKNOWN <->
       ((31 <= q)%Q /\ (q < 210)%Q) \/ ((271 <= q)%Q /\ (q < 330)%Q)).
Proof.
  intros q.
  pose proof (Qtruncate_ge q 330 ltac:(lia)) as H330.
  pose proof (Qtruncate_ge q 210 ltac:(lia)) as H210.
  pose proof (Qtruncate_ge q 31 ltac:(lia)) as H31.
  pose proof (Qtruncate_ge q 271 ltac:(lia)) as H271.
  pose proof (Qtruncate_le q 30 ltac:(lia)) as L30.
  pose proof (Qtruncate_le q 270 ltac:(lia)) as L270.
  pose proof (Qtruncate_le q 209 ltac:(lia)) as L209.
  pose proof (Qtruncate_le q 329 ltac:(lia)) as L329.
  change (inject_Z 330) with 330%Q in H330. change (inject_Z 210) with 210%Q in H210.
  change (inject_Z 31) with 31%Q in H31. change (inject_Z 271) with 271%Q in H271.
  change (inject_Z (30 + 1)) with 31%Q in L30.
  change (inject_Z (270 + 1)) with 271%Q in L270.
  change (inject_Z (209 + 1)) with 210%Q in L209.
  change (inject_Z (329 + 1)) with 330%Q in L329.
  rewrite detectColor_RED, detectColor_BLUE, detectColor_UNKNOWN.
  rewrite <- H330, <- H210, <- H31, <- H271, <- L30, <- L270, <- L209, <- L329.
  repeat split; intros; lia.
Qed.

(** X9: [detectColor] on a reading of the sensor, which [int hue = ...]
    cuts down to its whole part: the reading is [RED] from 330 on and
    below 31, [BLUE] from 210 to below 271, and [UNKNOWN] from 31 to
    below 210 and from 271 to below 330.  So 30.9 is still red and 270.9
    still blue. *)
Theorem X9_bands_on_readings :
  forall q : Q,
    (ColorSort.detectColor (Qtruncate q) = ColorSort.RED <->
       (330 <= q)%Q \/ (q < 31)%Q) /\
    (ColorSort.detectColor (Qtruncate q) = ColorSort.BLUE <->
       (210 <= q)%Q /\ (q < 271)%Q) /\
    (ColorSort.detectColor (Qtruncate q) = ColorSort.UNKNOWN <->
       ((31 <= q)%Q /\ (q < 210)%Q) \/ ((271 <= q)%Q /\ (q < 330)%Q)).
Proof. exact detectColor_on_readings. Qed.

(** X10: which rings a red and a blue alliance eject, in terms of the
    reading of the hue sensor.  With [ALLIANCE_COLOR = RED] (the default)
    a pass of [colorSortTask] stops the intake exactly for readings from
    210 to below 271; with [ALLIANCE_COLOR = BLUE] exactly for readings
    from 330 on or below 31. *)
Theorem X10_ejected_readings :
  forall tv h hs vs sts,
    (exists log e',
        ColorSort.colorSortTask ColorSort.RED (mkEnv tv vs sts (h :: hs))
        = Some (ColorSort.detectColor (Qtruncate h), e', log) /\
        (In (MoveVelocity 0) log <-> (210 <= h)%Q /\ (h < 271)%Q)) /\
    (exists log e',
        ColorSort.colorSortTask ColorSort.BLUE (mkEnv tv vs sts (h :: hs))
        = Some (ColorSort.detectColor (Qtruncate h), e', log) /\
        (In (MoveVelocity 0) log <-> (330 <= h)%Q \/ (h < 31)%Q)).
Proof.
  intros tv h hs vs sts.
  destruct (detectColor_on_readings h) as (Hred & Hblue & Hunk).
  split.
  - destruct (colorSortTask_cases ColorSort.RED tv h hs vs sts) as (log & Hrun & Hcases).
    exists log. eexists. split; [ exact Hrun | ].
    rewrite <- Hblue.
    destruct Hcases as [ ([ Hc | Hc ] & Hm & _) | ((Ha & Hu) & Hm & _) ].
    + split; [ | intros Hb; congruence ].
      intros Hin. exfalso.
      assert (Hf : In (MoveVelocity 0) (motor_commands log))
        by (apply List.filter_In; split; [ exact Hin | reflexivity ]).
      rewrite Hm in Hf. destruct Hf.
    + split; [ | intros Hb; congruence ].
      intros Hin. exfalso.
      assert (Hf : In (MoveVelocity 0) (motor_commands log))
        by (apply List.filter_In; split; [ exact Hin | reflexivity ]).
      rewrite Hm in Hf. destruct Hf.
    + split.
      * intros _. destruct (ColorSort.detectColor (Qtruncate h)); congruence.
      * intros _.
        assert (Hf : In (MoveVelocity 0) (motor_commands log))
          by (rewrite Hm; left; reflexivity).
        apply List.filter_In in Hf. exact (proj1 Hf).
  - destruct (colorSortTask_cases ColorSort.BLUE tv h hs vs sts) as (log & Hrun & Hcases).
    exists log. eexists. split; [ exact Hrun | ].
    rewrite <- Hred.
    destruct Hcases as [ ([ Hc | Hc ] & Hm & _) | ((Ha & Hu) & Hm & _) ].
    + split; [ | intros Hb; congruence ].
      intros Hin. exfalso.
      assert (Hf : In (MoveVelocity 0) (motor_commands log))
        by (apply List.filter_In; split; [ exact Hin | reflexivity ]).
      rewrite Hm in Hf. destruct Hf.
    + split; [ | intros Hb; congruence ].
      intros Hin. exfalso.
      assert (Hf : In (MoveVelocity 0) (motor_commands log))
        by (apply List.filter_In; split; [ exact Hin | reflexivity ]).
      rewrite Hm in Hf. destruct Hf.
    + split.
      * intros _. destruct (ColorSort.detectColor (Qtruncate h)); congruence.
      * intros _.
        assert (Hf : In (MoveVelocity 0) (motor_commands log))
          by (rewrite Hm; left; reflexivity).
        apply List.filter_In in Hf. exact (proj1 Hf).
Qed.

Section SortProgram.
Variable alliance : ColorSort.AllianceColor.

Import ColorSortProgram.

(** The motor commands of [k] ejects. *)
Lemma ejects_snoc (k : nat) :
  concat (repeat [MoveVelocity 0; MoveVelocity ColorSort.INTAKE_SPEED] k)
    ++ [MoveVelocity 0; MoveVelocity ColorSort.INTAKE_SPEED]
  = concat (repeat [MoveVelocity 0; MoveVelocity ColorSort.INTAKE_SPEED] (S k)).
Proof.
  induction k as [ | k IH ]; [ reflexivity | ].
  cbn [repeat concat]. rewrite <- IH at 2. cbn. reflexivity.
Qed.

(** One turn of the colour sorting program: the handle and the task stay,
    and the motor sees either nothing or one eject. *)
Lemma sort_turn_inv (x : Turn) (s s' : System) log :
  turn alliance x s = Some (tt, s', log) ->
  colorSortTaskHandle s' = colorSortTaskHandle s /\ kernel s' = kernel s /\
  ((motor_commands log = [] /\
    target_velocity (env s') = target_velocity (env s)) \/
   (motor_commands log = [MoveVelocity 0; MoveVelocity ColorSort.INTAKE_SPEED] /\
    target_velocity (env s') = ColorSort.INTAKE_SPEED)).
Proof.
  destruct s as [e hd k nh]. destruct x as [ | h ]; cbn [turn].
  - intros [= <- <-]. cbn. auto.
  - intros Hturn. apply bind_Some in Hturn.
    destruct Hturn as (c & s1 & l1 & l2 & Hres & Hret & ->).
    unfold ret in Hret. injection Hret as <- <-. rewrite app_nil_r.
    unfold resume_task in Hres. cbn in Hres.
    destruct (decide (h ∈ k)); [ | discriminate ].
    unfold lift in Hres. cbn in Hres.
    destruct e as [tv vs sts hs]. destruct hs as [ | q hs ]; [ discriminate Hres | ].
    destruct (colorSortTask_cases alliance tv q hs vs sts) as (log & Hrun & Hcases).
    rewrite Hrun in Hres. injection Hres as <- <- <-. cbn.
    split; [ reflexivity | ]. split; [ reflexivity | ].
    destruct Hcases as [ (_ & Hm & _) | (_ & Hm & _) ]; rewrite Hm; cbn; auto.
Qed.

Lemma sort_schedule_inv (l : list Turn) : forall (s s' : System) log,
  schedule alliance l s = Some (tt, s', log) ->
  colorSortTaskHandle s' = colorSortTaskHandle s /\ kernel s' = kernel s /\
  exists k : nat,
    motor_commands log
    = concat (repeat [MoveVelocity 0; MoveVelocity ColorSort.INTAKE_SPEED] k) /\
    target_velocity (env s')
    = match k with
      | O => target_velocity (env s)
      | S _ => ColorSort.INTAKE_SPEED
      end.
Proof.
  induction l as [ | x l IH ]; intros s s' log Hrun.
  - cbn in Hrun. unfold ret in Hrun. injection Hrun as <- <-.
    split; [ reflexivity | ]. split; [ reflexivity | ]. exists 0%nat. auto.
  - cbn [schedule] in Hrun. apply bind_Some in Hrun.
    destruct Hrun as ([] & s1 & l1 & l2 & Hturn & Hrest & ->).
    destruct (sort_turn_inv x s s1 l1 Hturn) as (Hh1 & Hk1 & Hm1).
    destruct (IH s1 s' l2 Hrest) as (Hh2 & Hk2 & k & Hm2 & Ht2).
    split; [ congruence | ]. split; [ congruence | ].
    rewrite motor_commands_app, Hm2.
    destruct Hm1 as [ [ Hm1 Ht1 ] | [ Hm1 Ht1 ] ]; rewrite Hm1.
    + exists k. split; [ reflexivity | ]. rewrite Ht2, Ht1. reflexivity.
    + exists (S k). split; [ reflexivity | ].
      rewrite Ht2, Ht1. destruct k; reflexivity.
Qed.

End SortProgram.

Section SortCalls.

Import ColorSortProgram.

Lemma sort_call_inv (c : Call) (s : System) :
  sort_handle_agrees s ->
  exists s',
    call c s = Some (tt, s', []) /\ sort_handle_agrees s' /\ env s' = env s /\
    match c with
    | Start => exists h, colorSortTaskHandle s' = Some h /\ kernel s' = {[ h ]}
    | Stop => colorSortTaskHandle s' = None /\ kernel s' = ∅
    end.
Proof.
  destruct s as [e hd k nh]. unfold sort_handle_agrees. cbn. intros Hinv.
  destruct c, hd as [ h | ]; cbn; subst k;
    unfold startColorSortTask, stopColorSortTask, task_create, task_remove,
      set_colorSortTaskHandle, bind, ret; cbn;
    eexists; (split; [ reflexivity | ]); cbn;
    rewrite ?union_empty_r_L, ?difference_diag_L; eauto.
Qed.

Lemma sort_calls_inv (l : list Call) : forall s,
  sort_handle_agrees s ->
  exists s',
    calls l s = Some (tt, s', []) /\ sort_handle_agrees s' /\ env s' = env s.
Proof.
  induction l as [ | c l IH ]; intros s Hinv.
  - exists s. auto.
  - destruct (sort_call_inv c s Hinv) as (s1 & Hc & Hinv1 & He1 & _).
    destruct (IH s1 Hinv1) as (s2 & Hl & Hinv2 & He2).
    exists s2. split; [ | split; [ exact Hinv2 | congruence ] ].
    cbn [calls]. unfold bind. rewrite Hc, Hl. reflexivity.
Qed.

Lemma sort_calls_app (l1 l2 : list Call) (s s1 s2 : System) :
  calls l1 s = Some (tt, s1, []) ->
  calls l2 s1 = Some (tt, s2, []) ->
  calls (l1 ++ l2) s = Some (tt, s2, []).
Proof.
  revert s. induction l1 as [ | c l1 IH ]; intros s H1 H2.
  - cbn in H1. unfold ret in H1. injection H1 as <-. exact H2.
  - cbn [calls app] in *. apply bind_Some in H1.
    destruct H1 as ([] & s3 & la & lb & Hc & Hrest & Hlog).
    symmetry in Hlog. apply app_eq_nil in Hlog. destruct Hlog as [ -> -> ].
    unfold bind. rewrite Hc, (IH s3 Hrest H2). reflexivity.
Qed.

End SortCalls.

Section MonitorCalls.

Import HighStakes.

Lemma monitor_call_inv (c : MonitorCall) (s : System) :
  handle_agrees s ->
  exists s',
    monitor_call c s = Some (tt, s', []) /\ handle_agrees s' /\
    env s' = env s /\ intake_direction s' = intake_direction s /\
    match c with
    | StartMonitoring =>
        exists h t, intake_monitor_task s' = Some h /\ kernel s' = {[ h := t ]}
    | StopMonitoring => intake_monitor_task s' = None /\ kernel s' = ∅
    end.
Proof.
  destruct s as [e d hd k nh]. unfold handle_agrees. cbn. intros Hinv.
  destruct c, hd as [ h | ]; cbn;
    unfold startMonitoringTask, stopMonitoringTask, task_create, task_remove,
      set_intake_monitor_task, bind, ret; cbn;
    try (destruct Hinv as (t & ->)); try subst k;
    eexists; (split; [ reflexivity | ]); cbn;
    rewrite ?insert_empty, ?delete_singleton_eq; eauto 10.
Qed.

Lemma monitor_calls_inv (l : list MonitorCall) : forall s,
  handle_agrees s ->
  exists s',
    monitor_calls l s = Some (tt, s', []) /\ handle_agrees s' /\
    env s' = env s /\ intake_direction s' = intake_direction s.
Proof.
  induction l as [ | c l IH ]; intros s Hinv.
  - exists s. auto.
  - destruct (monitor_call_inv c s Hinv) as (s1 & Hc & Hinv1 & He1 & Hd1 & _).
    destruct (IH s1 Hinv1) as (s2 & Hl & Hinv2 & He2 & Hd2).
    exists s2. split; [ | split; [ exact Hinv2 | split; congruence ] ].
    cbn [monitor_calls]. unfold bind. rewrite Hc, Hl. reflexivity.
Qed.

Lemma monitor_calls_app (l1 l2 : list MonitorCall) (s s1 s2 : System) :
  monitor_calls l1 s = Some (tt, s1, []) ->
  monitor_calls l2 s1 = Some (tt, s2, []) ->
  monitor_calls (l1 ++ l2) s = Some (tt, s2, []).
Proof.
  revert s. induction l1 as [ | c l1 IH ]; intros s H1 H2.
  - cbn in H1. unfold ret in H1. injection H1 as <-. exact H2.
  - cbn [monitor_calls app] in *. apply bind_Some in H1.
    destruct H1 as ([] & s3 & la & lb & Hc & Hrest & Hlog).
    symmetry in Hlog. apply app_eq_nil in Hlog. destruct Hlog as [ -> -> ].
    unfold bind. rewrite Hc, (IH s3 Hrest H2). reflexivity.
Qed.

End MonitorCalls.

(** X11: the colour sorting program.  Entered with the handle and the
    RTOS in agreement, [opcontrol] leaves exactly one sorting task for
    good (it never reaches its [stopColorSortTask]).  The motor is
    commanded 600 at entry and after that only by ejects, each a command
    of 0 followed by [INTAKE_SPEED]: the commanded velocity is 600 until
    the first eject and [INTAKE_SPEED] = 100 at the end of every pass from
    then on; 600 is never commanded again. *)
Theorem X11_sort_program :
  forall alliance l s0 s log,
    ColorSortProgram.sort_handle_agrees s0 ->
    ColorSortProgram.opcontrol alliance l s0 = Some (tt, s, log) ->
    (exists h, ColorSortProgram.colorSortTaskHandle s = Some h /\
               ColorSortProgram.kernel s = {[ h ]}) /\
    exists k : nat,
      motor_commands log
      = MoveVelocity 600
          :: concat (repeat [MoveVelocity 0; MoveVelocity ColorSort.INTAKE_SPEED] k) /\
      target_velocity (ColorSortProgram.env s)
      = match k with
        | O => 600
        | S _ => ColorSort.INTAKE_SPEED
        end.
Proof.
  intros alliance l s0 s log Hinv Hrun. unfold ColorSortProgram.opcontrol in Hrun.
  apply bind_Some in Hrun.
  destruct Hrun as ([] & s1 & l1 & l2 & Henter & Hrest & ->).
  destruct (sort_schedule_inv alliance l s1 s l2 Hrest) as (Hh & Hk & k & Hm & Ht).
  assert (Hs1 : (exists h, ColorSortProgram.colorSortTaskHandle s1 = Some h /\
                           ColorSortProgram.kernel s1 = {[ h ]}) /\
                motor_commands l1 = [MoveVelocity 600] /\
                target_velocity (ColorSortProgram.env s1) = 600).
  { destruct s0 as [e hd kn nh].
    unfold ColorSortProgram.sort_handle_agrees in Hinv. cbn in Hinv.
    unfold ColorSortProgram.opcontrol_enter, ColorSortProgram.startColorSortTask,
      ColorSortProgram.task_create, ColorSortProgram.set_colorSortTaskHandle,
      ColorSortProgram.lift, move_velocity, delay, emit, bind, ret in Henter.
    destruct hd as [ h | ]; cbn in Henter; injection Henter as <- <-; cbn; subst kn;
      rewrite ?union_empty_r_L; eauto. }
  destruct Hs1 as ((h & Hh1 & Hk1) & Hm1 & Ht1).
  split; [ exists h; split; congruence | ].
  exists k. rewrite motor_commands_app, Hm1, Hm, Ht, Ht1. auto.
Qed.

(** X11 on a concrete schedule of a red alliance: a red ring, a blue
    ring, then nothing. *)
Lemma X11_sort_program_witness :
  (exists h,
      ColorSortProgram.colorSortTaskHandle
        (ColorSortProgram.mkSystem (mkEnv 100 [] [] []) (Some 0%nat) {[ 0%nat ]} 1%nat)
      = Some h /\
      ColorSortProgram.kernel
        (ColorSortProgram.mkSystem (mkEnv 100 [] [] []) (Some 0%nat) {[ 0%nat ]} 1%nat)
      = {[ h ]}) /\
  exists k : nat,
    motor_commands
      [MoveVelocity 600; Delay 20; SetText 2 0 "Color Match!"; Delay 50;
       Delay 100; MoveVelocity 0; SetText 2 0 "Color Mismatch!"; Delay 200;
       MoveVelocity 100; Delay 50; Delay 20; SetText 2 0 "No Ring!"; Delay 50]
    = MoveVelocity 600
        :: concat (repeat [MoveVelocity 0; MoveVelocity ColorSort.INTAKE_SPEED] k) /\
    target_velocity
      (ColorSortProgram.env
         (ColorSortProgram.mkSystem (mkEnv 100 [] [] []) (Some 0%nat) {[ 0%nat ]} 1%nat))
    = match k with
      | O => 600
      | S _ => ColorSort.INTAKE_SPEED
      end.
Proof.
  refine (X11_sort_program ColorSort.RED
            [ColorSortProgram.Sorter 0; ColorSortProgram.Sorter 0;
             ColorSortProgram.Driver; ColorSortProgram.Sorter 0]
            (ColorSortProgram.mkSystem (mkEnv 0 [] [] [10%Q; 240%Q; 90%Q]) None ∅ 0%nat)
            (ColorSortProgram.mkSystem (mkEnv 100 [] [] []) (Some 0%nat) {[ 0%nat ]} 1%nat)
            _ _ _).
  - reflexivity.
  - vm_compute. reflexivity.
Defined.

(** X12: [startMonitoringTask] and [stopMonitoringTask] can be called in
    any order and any number of times.  From a state in which the handle
    and the RTOS agree, every sequence of calls returns, touches neither
    the motor nor [intake_direction], and leaves exactly one monitor task
    if its last call is a start and none if its last call is a stop. *)
Theorem X12_monitor_start_stop_sequences :
  forall l c s,
    handle_agrees s ->
    exists s',
      monitor_calls (l ++ [c]) s = Some (tt, s', []) /\
      handle_agrees s' /\
      HighStakes.env s' = HighStakes.env s /\
      HighStakes.intake_direction s' = HighStakes.intake_direction s /\
      match c with
      | StartMonitoring =>
          exists h t, HighStakes.intake_monitor_task s' = Some h /\
                      HighStakes.kernel s' = {[ h := t ]}
      | StopMonitoring =>
          HighStakes.intake_monitor_task s' = None /\ HighStakes.kernel s' = ∅
      end.
Proof.
  intros l c s Hinv.
  destruct (monitor_calls_inv l s Hinv) as (s1 & Hl & Hinv1 & He1 & Hd1).
  destruct (monitor_call_inv c s1 Hinv1) as (s2 & Hc & Hinv2 & He2 & Hd2 & Hlast).
  exists s2. split; [ | split; [ exact Hinv2 | split; [ congruence | split;
    [ congruence | exact Hlast ] ] ] ].
  apply (monitor_calls_app l [c] s s1 s2 Hl).
  cbn [monitor_calls]. unfold bind. rewrite Hc. reflexivity.
Qed.

(** X12 on start, start, stop, start from the state at entry. *)
Lemma X12_monitor_start_stop_witness :
  exists s',
    monitor_calls ([StartMonitoring; StartMonitoring; StopMonitoring] ++ [StartMonitoring])
      (HighStakes.boot (mkEnv 0 [] [] []))
    = Some (tt, s', []) /\
    handle_agrees s' /\
    HighStakes.env s' = HighStakes.env (HighStakes.boot (mkEnv 0 [] [] [])) /\
    HighStakes.intake_direction s'
    = HighStakes.intake_direction (HighStakes.boot (mkEnv 0 [] [] [])) /\
    exists h t, HighStakes.intake_monitor_task s' = Some h /\
                HighStakes.kernel s' = {[ h := t ]}.
Proof.
  apply (X12_monitor_start_stop_sequences
           [StartMonitoring; StartMonitoring; StopMonitoring] StartMonitoring
           (HighStakes.boot (mkEnv 0 [] [] []))).
  reflexivity.
Defined.

(** X13: the same for [startColorSortTask] and [stopColorSortTask]:
    every sequence of calls returns, leaves the motor alone, and leaves
    exactly one sorting task if its last call is a start and none if its
    last call is a stop. *)
Theorem X13_sort_start_stop_sequences :
  forall l c s,
    ColorSortProgram.sort_handle_agrees s ->
    exists s',
      ColorSortProgram.calls (l ++ [c]) s = Some (tt, s', []) /\
      ColorSortProgram.sort_handle_agrees s' /\
      ColorSortProgram.env s' = ColorSortProgram.env s /\
      match c with
      | ColorSortProgram.Start =>
          exists h, ColorSortProgram.colorSortTaskHandle s' = Some h /\
                    ColorSortProgram.kernel s' = {[ h ]}
      | ColorSortProgram.Stop =>
          ColorSortProgram.colorSortTaskHandle s' = None /\
          ColorSortProgram.kernel s' = ∅
      end.
Proof.
  intros l c s Hinv.
  destruct (sort_calls_inv l s Hinv) as (s1 & Hl & Hinv1 & He1).
  destruct (sort_call_inv c s1 Hinv1) as (s2 & Hc & Hinv2 & He2 & Hlast).
  exists s2. split; [ | split; [ exact Hinv2 | split; [ congruence | exact Hlast ] ] ].
  apply (sort_calls_app l [c] s s1 s2 Hl).
  cbn [ColorSortProgram.calls]. unfold bind. rewrite Hc. reflexivity.
Qed.

(** X13 on start, stop, stop from a state without task. *)
Lemma X13_sort_start_stop_witness :
  exists s',
    ColorSortProgram.calls
      ([ColorSortProgram.Start; ColorSortProgram.Stop] ++ [ColorSortProgram.Stop])
      (ColorSortProgram.mkSystem (mkEnv 0 [] [] []) None ∅ 0%nat)
    = Some (tt, s', []) /\
    ColorSortProgram.sort_handle_agrees s' /\
    ColorSortProgram.env s'
    = ColorSortProgram.env (ColorSortProgram.mkSystem (mkEnv 0 [] [] []) None ∅ 0%nat) /\
    ColorSortProgram.colorSortTaskHandle s' = None /\
    ColorSortProgram.kernel s' = ∅.
Proof.
  apply (X13_sort_start_stop_sequences
           [ColorSortProgram.Start; ColorSortProgram.Stop] ColorSortProgram.Stop
           (ColorSortProgram.mkSystem (mkEnv 0 [] [] []) None ∅ 0%nat)).
  reflexivity.
Defined.
